(** * Travel-Request-Appv2: request lifecycle, authorization and validation

    A shallow embedding of the backend of the travel request application:
    the controllers ([travelRequestController], [userController],
    [authController]), the models they call ([travelRequestModel],
    [userModel]), the helpers of [utils/helpers.ts] and the table
    constraints of the schema migration.

    Modelling conventions.
    - An Express handler [async (req, res) => ...] becomes a function
      from the request's inputs and the database to the database after
      the call and the one response the handler sends.
    - The PostgreSQL database is a record of finite maps keyed by the
      primary key; a statement that violates a constraint of the schema
      raises ([DbError]), which the handler's [catch] turns into the
      500 [SERVER_ERROR] response, the database being left as it was.
      No handler groups its statements into a transaction: what a
      statement has written stays written when a later step of the
      handler throws.
    - Optional properties of request bodies are [option]s; [None] is
      JavaScript's [undefined].  Bodies are taken at their TypeScript
      types ([string], [number], [boolean]).
    - A JavaScript [number] is a rational; a [Date] is its time value in
      milliseconds; a string is a sequence of 8-bit code units.
    - Identifiers are taken to be well-formed UUIDs and texts to fit their
      VARCHAR bound, so the only column conversions that can fail are the
      ones of DATE and DECIMAL(10,2).  A UUID is represented by the text
      PostgreSQL prints for it ([canonical_uuid]), which is the key of its
      row; a property that depends on how an id given by the caller is
      matched against the rows says that the id is in that spelling. *)

From Stdlib Require Import ZArith QArith Qround String Ascii List Bool Lia DecimalString.
From stdpp Require Import base option gmap strings list fin_maps sorting.

Local Open Scope string_scope.
Local Open Scope Z_scope.

(** ** JavaScript primitives *)

Module Js.

(** A JSON number. *)
Definition number : Type := Q.

(** [!!s] for a string: every string but the empty one is truthy. *)
Definition truthy_string (s : string) : bool :=
  match s with
  | EmptyString => false
  | String _ _ => true
  end.

(** [!!n] for a number: every number but zero is truthy. *)
Definition truthy_number (n : number) : bool := negb (Qeq_bool n 0).

(** [!!x] for an optional property. *)
Definition truthy_opt {A} (t : A -> bool) (x : option A) : bool :=
  match x with
  | Some a => t a
  | None => false
  end.

(** [a || b] on an optional string and a string default. *)
Definition or_else (a : option string) (b : string) : string :=
  match a with
  | Some s => if truthy_string s then s else b
  | None => b
  end.

(** [a || null] on an optional string. *)
Definition or_null (a : option string) : option string :=
  match a with
  | Some s => if truthy_string s then Some s else None
  | None => None
  end.

(** [l.includes(x)] on an array of strings. *)
Definition includes (l : list string) (x : string) : bool := existsb (String.eqb x) l.

(** The code units matched by [\s] and removed by [trim]: TAB, LF, VT, FF,
    CR, SPACE and NO-BREAK SPACE. *)
Definition is_whitespace (c : ascii) : bool :=
  let n := nat_of_ascii c in
  ((9 <=? n) && (n <=? 13) || (n =? 32) || (n =? 160))%nat.

Fixpoint trimStart (s : string) : string :=
  match s with
  | EmptyString => EmptyString
  | String c rest => if is_whitespace c then trimStart rest else s
  end.

Fixpoint trimEnd (s : string) : string :=
  match s with
  | EmptyString => EmptyString
  | String c rest =>
      match trimEnd rest with
      | EmptyString => if is_whitespace c then EmptyString else String c EmptyString
      | kept => String c kept
      end
  end.

(** [s.trim()] *)
Definition trim (s : string) : string := trimEnd (trimStart s).

(** Every code unit of the string is white space. *)
Fixpoint whitespace_only (s : string) : bool :=
  match s with
  | EmptyString => true
  | String c rest => is_whitespace c && whitespace_only rest
  end.

(** [s.toFixed(digits)] where [s] is a string: [toFixed] is a method of
    numbers, a string has none, and calling [undefined] throws a
    TypeError ([None]) whatever the string. *)
Definition string_toFixed (s : string) (digits : nat) : option string := None.

End Js.

(** ** What the platform provides

    The [Date] constructor and [toString] of the JavaScript engine, the
    DATE input conversion of PostgreSQL (the driver hands a DATE column
    back as a [Date]) and [bcrypt.compare]. *)

Class Runtime := {
  (** [new Date(s).getTime()], [None] when it is [NaN] *)
  Date_parse : string -> option Z;
  (** [d.toString()] *)
  Date_toString : Z -> string;
  (** the value a DATE column takes from a text parameter, [None] when
      PostgreSQL refuses the text *)
  pg_date_in : string -> option Z;
  (** [bcrypt.compare(password, hash)] *)
  bcrypt_compare : string -> string -> bool
}.

(** ** Types ([types/index.ts]) *)

Inductive UserRole := user | approver | admin.

Global Instance UserRole_eq_dec : EqDecision UserRole.
Proof. solve_decision. Defined.

(** The role a text denotes, for the CHECK on [users.role]. *)
Definition role_of_string (s : string) : option UserRole :=
  if String.eqb s "user" then Some user
  else if String.eqb s "approver" then Some approver
  else if String.eqb s "admin" then Some admin
  else None.

Record User := {
  uid : string;
  email : string;
  password_hash : string;
  first_name : string;
  last_name : string;
  role : UserRole;
  is_active : bool;
  created_at : Z;
  updated_at : Z
}.

Record UserResponse := {
  ur_id : string;
  ur_email : string;
  ur_first_name : string;
  ur_last_name : string;
  ur_role : UserRole;
  ur_is_active : bool;
  ur_created_at : Z;
  ur_updated_at : Z
}.

Record UserLoginData := {
  l_email : option string;
  l_password : option string
}.

Record UserUpdateData := {
  u_email : option string;
  u_first_name : option string;
  u_last_name : option string;
  u_role : option string;
  u_is_active : option bool
}.

Inductive TravelRequestStatus := draft | pending | approved | rejected | cancelled.

Global Instance TravelRequestStatus_eq_dec : EqDecision TravelRequestStatus.
Proof. solve_decision. Defined.

Record TravelRequest := {
  tr_id : string;
  user_id : string;
  approver_id : string;
  destination : string;
  departure_date : Z;
  return_date : Z;
  purpose : string;
  (** DECIMAL(10,2), in hundredths *)
  estimated_budget : Z;
  transportation_mode : option string;
  accommodation_details : option string;
  additional_notes : option string;
  status : TravelRequestStatus;
  approval_comments : option string;
  submitted_at : option Z;
  approved_rejected_at : option Z;
  tr_created_at : Z;
  tr_updated_at : Z
}.

Record CreateTravelRequestData := {
  c_approver_id : option string;
  c_destination : option string;
  c_departure_date : option string;
  c_return_date : option string;
  c_purpose : option string;
  c_estimated_budget : option Js.number;
  c_transportation_mode : option string;
  c_accommodation_details : option string;
  c_additional_notes : option string
}.

Record UpdateTravelRequestData := {
  p_approver_id : option string;
  p_destination : option string;
  p_departure_date : option string;
  p_return_date : option string;
  p_purpose : option string;
  p_estimated_budget : option Js.number;
  p_transportation_mode : option string;
  p_accommodation_details : option string;
  p_additional_notes : option string
}.

Inductive NotificationType := submission | approval | rejection | cancellation.

Inductive NotificationStatus := sent | failed.

Record NotificationLog := {
  travel_request_id : string;
  recipient_email : string;
  notification_type : NotificationType;
  sent_at : Z;
  nl_status : NotificationStatus;
  error_message : option string
}.

(** The verified token payload the [authenticate] middleware attaches to
    the request as [req.user]. *)
Record Actor := {
  userId : string;
  actor_email : string;
  actor_role : UserRole
}.

(** What one call draws from its surroundings: [CURRENT_TIMESTAMP] of
    the statement that writes the request or the user, the next
    [gen_random_uuid()], whether the SMTP transport delivers ([Some msg]
    is the error it throws), and [CURRENT_TIMESTAMP] of the later INSERT
    into [notification_logs], a statement of its own. *)
Record Env := {
  now : Z;
  gen_random_uuid : string;
  sendMail_error : option string;
  log_time : Z
}.

(** ** Responses *)

Inductive ErrorKind :=
| MISSING_FIELD | MISSING_FIELDS | INVALID_DATE_RANGE | INVALID_BUDGET
| CANNOT_SELF_APPROVE | APPROVER_NOT_FOUND | APPROVER_INACTIVE | NOT_AN_APPROVER
| REQUEST_NOT_FOUND | FORBIDDEN | CANNOT_UPDATE_SUBMITTED | UPDATE_FAILED
| COMMENTS_REQUIRED | CANNOT_SUBMIT | CANNOT_APPROVE | CANNOT_REJECT
| CANNOT_CANCEL | CANNOT_DELETE | CANNOT_DEACTIVATE_SELF | EMAIL_EXISTS
| INVALID_EMAIL | INVALID_ROLE | USER_NOT_FOUND | INVALID_CREDENTIALS
| ACCOUNT_DEACTIVATED | SERVER_ERROR.

Global Instance ErrorKind_eq_dec : EqDecision ErrorKind.
Proof. solve_decision. Defined.

Record RequestStats := {
  total : nat;
  n_draft : nat;
  n_pending : nat;
  n_approved : nat;
  n_rejected : nat;
  n_cancelled : nat
}.

Inductive Payload :=
| DataRequest (request : TravelRequest)
| DataUser (u : UserResponse)
| DataDeleted (requestId : string) (deleted : bool)
| DataStats (stats : RequestStats)
| DataLogin (u : UserResponse) (token : Actor).

(** [res.status(code).json({ success, message, data | error })] *)
Inductive Response :=
| Success (code : Z) (message : string) (data : Payload)
| Failure (code : Z) (message : string) (error : ErrorKind).

(** The [error] property of a response, if it has one. *)
Definition error_of (r : Response) : option ErrorKind :=
  match r with
  | Success _ _ _ => None
  | Failure _ _ e => Some e
  end.

(** [sanitizeUser]: the user without [password_hash]. *)
Definition sanitizeUser (u : User) : UserResponse :=
  {| ur_id := uid u; ur_email := email u; ur_first_name := first_name u;
     ur_last_name := last_name u; ur_role := role u; ur_is_active := is_active u;
     ur_created_at := created_at u; ur_updated_at := updated_at u |}.

(** ** The database *)

Record Store := {
  users : gmap string User;
  travel_requests : gmap string TravelRequest;
  notification_logs : list NotificationLog
}.

(** The outcome of a statement that writes: the value [query] resolves to
    and the database after it, or the exception [query] rejects with. *)
Inductive Db (A : Type) :=
| Returned (a : A) (s : Store)
| DbError.
Arguments Returned {A} a s.
Arguments DbError {A}.

Definition set_travel_requests (s : Store) (m : gmap string TravelRequest) : Store :=
  {| users := users s; travel_requests := m; notification_logs := notification_logs s |}.

Definition set_users (s : Store) (m : gmap string User) : Store :=
  {| users := m; travel_requests := travel_requests s; notification_logs := notification_logs s |}.

Definition set_notification_logs (s : Store) (l : list NotificationLog) : Store :=
  {| users := users s; travel_requests := travel_requests s; notification_logs := l |}.

(** *** Column conversions and table constraints ([config/schema.ts]) *)

(** Rounding of a numeric to scale 0, ties away from zero. *)
Definition round_half_away (q : Q) : Z :=
  if Qle_bool 0 q then Qfloor (q + (1 # 2)) else - Qfloor (- q + (1 # 2)).

(** Assignment to a DECIMAL(10,2) column: the value in hundredths, or
    [None] on numeric field overflow. *)
Definition numeric_10_2 (q : Q) : option Z :=
  let c := round_half_away (q * 100) in
  if Z.abs c <? 10 ^ 10 then Some c else None.

(** The text node-postgres hands over for a DECIMAL(10,2) column, given
    in hundredths: [config/database.ts] installs no type parser, so the
    column reaches the program as PostgreSQL prints it, with two
    decimals, whatever the declared type [number] says. *)
Definition pg_numeric_out (hundredths : Z) : string :=
  (if hundredths <? 0 then "-" else "")
  +:+ NilZero.string_of_uint (N.to_uint (Z.to_N (Z.abs hundredths / 100)))
  +:+ "."
  +:+ String (ascii_of_nat (48 + Z.to_nat (Z.abs hundredths / 10 mod 10)))
        (String (ascii_of_nat (48 + Z.to_nat (Z.abs hundredths mod 10))) EmptyString).

(** The spelling in which PostgreSQL prints a UUID: 32 lower-case
    hexadecimal digits in groups of 8, 4, 4, 4 and 12 joined by hyphens. *)
Definition lower_hex (c : ascii) : bool :=
  let n := nat_of_ascii c in
  ((48 <=? n) && (n <=? 57) || (97 <=? n) && (n <=? 102))%nat.

Fixpoint canonical_uuid_from (i : nat) (s : string) : bool :=
  match s with
  | EmptyString => (i =? 36)%nat
  | String c rest =>
      (if ((i =? 8) || (i =? 13) || (i =? 18) || (i =? 23))%nat
       then Ascii.eqb c "-" else lower_hex c)
      && canonical_uuid_from (S i) rest
  end.

Definition canonical_uuid (s : string) : bool := canonical_uuid_from 0 s.

Definition references_user (us : gmap string User) (k : string) : bool :=
  match us !! k with
  | Some _ => true
  | None => false
  end.

(** [CHECK (estimated_budget > 0)] *)
Definition check_budget (r : TravelRequest) : bool := 0 <? estimated_budget r.

(** [CONSTRAINT check_dates CHECK (return_date >= departure_date)] *)
Definition check_dates (r : TravelRequest) : bool := departure_date r <=? return_date r.

(** [CONSTRAINT check_approver_not_self CHECK (user_id != approver_id)] *)
Definition check_approver_not_self (r : TravelRequest) : bool :=
  negb (String.eqb (user_id r) (approver_id r)).

(** The constraints an inserted or updated row of [travel_requests] must
    meet: both foreign keys and the three CHECKs.  ([status] is one of the
    five values by its type.) *)
Definition travel_request_constraints (us : gmap string User) (r : TravelRequest) : bool :=
  references_user us (user_id r) && references_user us (approver_id r)
  && check_budget r && check_dates r && check_approver_not_self r.

(** Some row of [users] other than the one under key [k] has the e-mail
    [e]: what the UNIQUE constraint on [email] forbids. *)
Definition email_taken_by_other (us : gmap string User) (k : string) (e : string) : bool :=
  existsb (fun '(k', u') => negb (String.eqb k' k) && String.eqb (email u') e)
          (map_to_list us).

(** ** [utils/helpers.ts]: e-mail format *)

(** A code unit of the class [[^\s@]]. *)
Definition email_char (c : ascii) : bool :=
  negb (Js.is_whitespace c) && negb (Ascii.eqb c "@").

(** The longest prefix of [email_char]s and what follows it. *)
Fixpoint span_email_chars (s : string) : string * string :=
  match s with
  | EmptyString => (EmptyString, EmptyString)
  | String c rest =>
      if email_char c
      then let '(a, b) := span_email_chars rest in (String c a, b)
      else (EmptyString, s)
  end.

Fixpoint all_email_chars (s : string) : bool :=
  match s with
  | EmptyString => true
  | String c rest => email_char c && all_email_chars rest
  end.

(** Some dot of the string is followed by at least one code unit. *)
Fixpoint dot_before_end (s : string) : bool :=
  match s with
  | EmptyString => false
  | String c rest =>
      (Ascii.eqb c "." && Js.truthy_string rest) || dot_before_end rest
  end.

(** [isValidEmail]: the text matches [/^[^\s@]+@[^\s@]+\.[^\s@]+$/], that
    is, it is a non-empty run of [email_char]s, an at sign, and a run of
    [email_char]s with a dot that is neither its first nor its last
    code unit. *)
Definition isValidEmail (e : string) : bool :=
  let '(local_part, rest) := span_email_chars e in
  Js.truthy_string local_part &&
  match rest with
  | String c domain =>
      Ascii.eqb c "@" && all_email_chars domain &&
      match domain with
      | EmptyString => false
      | String _ tail => dot_before_end tail
      end
  | EmptyString => false
  end.

Section Backend.

Context {rt : Runtime}.

(** ** [utils/helpers.ts] *)

(** [parseDate]: the [Date] of a text, [None] ([null]) when invalid. *)
Definition parseDate (dateString : string) : option Z := Date_parse dateString.

(** [isValidDateRange]: both texts are dates and the return is not before
    the departure. *)
Definition isValidDateRange (departureDate returnDate : string) : bool :=
  match parseDate departureDate, parseDate returnDate with
  | Some departure, Some returnD => departure <=? returnD
  | _, _ => false
  end.

(** ** [models/travelRequestModel.ts] *)

(** [createTravelRequest]: the INSERT.  The row gets the next generated
    id; a missing NOT NULL value, a refused date or amount, an id already
    in use or a violated constraint raise. *)
Definition createTravelRequest (env : Env) (userId : string)
    (requestData : CreateTravelRequestData) (isDraft : bool) (s : Store)
    : Db TravelRequest :=
  let status := if isDraft then draft else pending in
  let submitted_at := if isDraft then None else Some (now env) in
  match c_approver_id requestData, c_destination requestData,
        c_departure_date requestData ≫= pg_date_in,
        c_return_date requestData ≫= pg_date_in,
        c_purpose requestData,
        c_estimated_budget requestData ≫= numeric_10_2 with
  | Some approver_id, Some destination, Some departure_date, Some return_date,
    Some purpose, Some estimated_budget =>
      let row :=
        {| tr_id := gen_random_uuid env;
           user_id := userId;
           approver_id := approver_id;
           destination := destination;
           departure_date := departure_date;
           return_date := return_date;
           purpose := purpose;
           estimated_budget := estimated_budget;
           transportation_mode := Js.or_null (c_transportation_mode requestData);
           accommodation_details := Js.or_null (c_accommodation_details requestData);
           additional_notes := Js.or_null (c_additional_notes requestData);
           status := status;
           approval_comments := None;
           submitted_at := submitted_at;
           approved_rejected_at := None;
           tr_created_at := now env;
           tr_updated_at := now env |} in
      match travel_requests s !! gen_random_uuid env with
      | Some _ => DbError
      | None =>
          if travel_request_constraints (users s) row
          then Returned row (set_travel_requests s (<[gen_random_uuid env := row]> (travel_requests s)))
          else DbError
      end
  | _, _, _, _, _, _ => DbError
  end.

(** [findTravelRequestById]: the row whose key is the id as given, the
    keys being the ids as PostgreSQL prints them. *)
Definition findTravelRequestById (requestId : string) (s : Store) : option TravelRequest :=
  travel_requests s !! requestId.

(** [findTravelRequestWithUsers]: the request joined with its requester
    and its approver. *)
Definition findTravelRequestWithUsers (requestId : string) (s : Store)
    : option (TravelRequest * User * User) :=
  match travel_requests s !! requestId with
  | Some tr =>
      match users s !! user_id tr, users s !! approver_id tr with
      | Some u, Some a => Some (tr, u, a)
      | _, _ => None
      end
  | None => None
  end.

(** The SET list [updateTravelRequest] builds is empty. *)
Definition no_fields (updateData : UpdateTravelRequestData) : bool :=
  match p_approver_id updateData, p_destination updateData,
        p_departure_date updateData, p_return_date updateData,
        p_purpose updateData, p_estimated_budget updateData,
        p_transportation_mode updateData, p_accommodation_details updateData,
        p_additional_notes updateData with
  | None, None, None, None, None, None, None, None, None => true
  | _, _, _, _, _, _, _, _, _ => false
  end.

(** A column keeps its value unless the patch names it; a named value
    goes through the column's conversion. *)
Definition assign {A B} (conv : A -> option B) (patch : option A) (old : B) : option B :=
  match patch with
  | Some v => conv v
  | None => Some old
  end.

(** The row the UPDATE of [updateTravelRequest] writes over [r], [None]
    when a value is refused by its column. *)
Definition updated_row (env : Env) (updateData : UpdateTravelRequestData)
    (r : TravelRequest) : option TravelRequest :=
  departure_date' ← assign pg_date_in (p_departure_date updateData) (departure_date r);
  return_date' ← assign pg_date_in (p_return_date updateData) (return_date r);
  estimated_budget' ← assign numeric_10_2 (p_estimated_budget updateData) (estimated_budget r);
  Some {| tr_id := tr_id r;
          user_id := user_id r;
          approver_id := default (approver_id r) (p_approver_id updateData);
          destination := default (destination r) (p_destination updateData);
          departure_date := departure_date';
          return_date := return_date';
          purpose := default (purpose r) (p_purpose updateData);
          estimated_budget := estimated_budget';
          transportation_mode :=
            from_option Some (transportation_mode r) (p_transportation_mode updateData);
          accommodation_details :=
            from_option Some (accommodation_details r) (p_accommodation_details updateData);
          additional_notes :=
            from_option Some (additional_notes r) (p_additional_notes updateData);
          status := status r;
          approval_comments := approval_comments r;
          submitted_at := submitted_at r;
          approved_rejected_at := approved_rejected_at r;
          tr_created_at := tr_created_at r;
          tr_updated_at := now env |}.

(** [updateTravelRequest]: with no field to set, the current row; else
    the UPDATE guarded by [status = 'draft'], [None] when no row
    matched. *)
Definition updateTravelRequest (env : Env) (requestId : string)
    (updateData : UpdateTravelRequestData) (s : Store) : Db (option TravelRequest) :=
  if no_fields updateData then Returned (findTravelRequestById requestId s) s
  else
    match travel_requests s !! requestId with
    | Some r =>
        match status r with
        | draft =>
            match updated_row env updateData r with
            | Some r' =>
                if travel_request_constraints (users s) r'
                then Returned (Some r') (set_travel_requests s (<[requestId := r']> (travel_requests s)))
                else DbError
            | None => DbError
            end
        | _ => Returned None s
        end
    | None => Returned None s
    end.

(** A status transition: the UPDATE [WHERE id = $1 AND status = from]
    that rewrites the matched row with [f].  The columns the transitions
    set carry no constraint but the domain of [status]. *)
Definition transition (from : TravelRequestStatus) (f : TravelRequest -> TravelRequest)
    (requestId : string) (s : Store) : Store * option TravelRequest :=
  match travel_requests s !! requestId with
  | Some r =>
      if decide (status r = from)
      then (set_travel_requests s (<[requestId := f r]> (travel_requests s)), Some (f r))
      else (s, None)
  | None => (s, None)
  end.

(** The columns a transition sets; the others are the row's. *)
Definition set_columns (r : TravelRequest) (status' : TravelRequestStatus)
    (approval_comments' : option string) (submitted_at' approved_rejected_at' : option Z)
    (updated_at' : Z) : TravelRequest :=
  {| tr_id := tr_id r;
     user_id := user_id r;
     approver_id := approver_id r;
     destination := destination r;
     departure_date := departure_date r;
     return_date := return_date r;
     purpose := purpose r;
     estimated_budget := estimated_budget r;
     transportation_mode := transportation_mode r;
     accommodation_details := accommodation_details r;
     additional_notes := additional_notes r;
     status := status';
     approval_comments := approval_comments';
     submitted_at := submitted_at';
     approved_rejected_at := approved_rejected_at';
     tr_created_at := tr_created_at r;
     tr_updated_at := updated_at' |}.

(** [submitDraftRequest]: draft to pending, [submitted_at] set. *)
Definition submitDraftRequest (env : Env) : string -> Store -> Store * option TravelRequest :=
  transition draft (fun r =>
    set_columns r pending (approval_comments r) (Some (now env))
      (approved_rejected_at r) (now env)).

(** [approveTravelRequest]: pending to approved, with [comments || null]. *)
Definition approveTravelRequest (env : Env) (requestId : string) (comments : option string)
    : Store -> Store * option TravelRequest :=
  transition pending (fun r =>
    set_columns r approved (Js.or_null comments) (submitted_at r)
      (Some (now env)) (now env)) requestId.

(** [rejectTravelRequest]: pending to rejected, with the comments. *)
Definition rejectTravelRequest (env : Env) (requestId : string) (comments : string)
    : Store -> Store * option TravelRequest :=
  transition pending (fun r =>
    set_columns r rejected (Some comments) (submitted_at r)
      (Some (now env)) (now env)) requestId.

(** [cancelTravelRequest]: pending to cancelled. *)
Definition cancelTravelRequest (env : Env) : string -> Store -> Store * option TravelRequest :=
  transition pending (fun r =>
    set_columns r cancelled (approval_comments r) (submitted_at r)
      (approved_rejected_at r) (now env)).

(** [deleteTravelRequest]: the DELETE guarded by [status = 'draft'];
    the rows of [notification_logs] that reference the request go with it
    (ON DELETE CASCADE). *)
Definition deleteTravelRequest (requestId : string) (s : Store) : Store * bool :=
  match travel_requests s !! requestId with
  | Some r =>
      match status r with
      | draft =>
          ({| users := users s;
              travel_requests := delete requestId (travel_requests s);
              notification_logs :=
                filter (fun l => travel_request_id l <> requestId) (notification_logs s) |},
           true)
      | _ => (s, false)
      end
  | None => (s, false)
  end.

(** The rows of [travel_requests]. *)
Definition rows (s : Store) : list TravelRequest := (map_to_list (travel_requests s)).*2.

(** The COUNT filtered by [status = st]. *)
Definition count_status (st : TravelRequestStatus) (l : list TravelRequest) : nat :=
  length (filter (fun r => status r = st) l).

(** [countTravelRequests]: the counts by status, over the rows of the
    user when [userId] is given and truthy, over all rows otherwise. *)
Definition countTravelRequests (userId : option string) (s : Store) : RequestStats :=
  let selected :=
    match userId with
    | Some u =>
        if Js.truthy_string u then filter (fun r => user_id r = u) (rows s) else rows s
    | None => rows s
    end in
  {| total := length selected;
     n_draft := count_status draft selected;
     n_pending := count_status pending selected;
     n_approved := count_status approved selected;
     n_rejected := count_status rejected selected;
     n_cancelled := count_status cancelled selected |}.

(** [isRequestOwner] *)
Definition isRequestOwner (requestId userId : string) (s : Store) : bool :=
  match travel_requests s !! requestId with
  | Some r => String.eqb (user_id r) userId
  | None => false
  end.

(** [isRequestApprover] *)
Definition isRequestApprover (requestId userId : string) (s : Store) : bool :=
  match travel_requests s !! requestId with
  | Some r => String.eqb (approver_id r) userId
  | None => false
  end.

(** ** [models/userModel.ts] *)

(** [findUserById]: the row whose key is the id as given, the keys
    being the ids as PostgreSQL prints them. *)
Definition findUserById (userId : string) (s : Store) : option User := users s !! userId.

(** [findUserByEmail]: the first row with the e-mail. *)
Definition findUserByEmail (e : string) (s : Store) : option User :=
  head (filter (fun u => email u = e) (map_to_list (users s)).*2).

(** [emailExists]: some row has the e-mail, other than the row of
    [excludeUserId] when that is given and truthy. *)
Definition emailExists (e : string) (excludeUserId : option string) (s : Store) : bool :=
  existsb (fun '(k, u) =>
             String.eqb (email u) e &&
             match excludeUserId with
             | Some x => if Js.truthy_string x then negb (String.eqb k x) else true
             | None => true
             end)
          (map_to_list (users s)).

(** The SET list [updateUser] builds is empty. *)
Definition no_user_fields (updateData : UserUpdateData) : bool :=
  match u_email updateData, u_first_name updateData, u_last_name updateData,
        u_role updateData, u_is_active updateData with
  | None, None, None, None, None => true
  | _, _, _, _, _ => false
  end.

(** The row the UPDATE of [updateUser] writes over [u], [None] when the
    role is none of the three the CHECK on [role] admits. *)
Definition updated_user (env : Env) (updateData : UserUpdateData) (u : User) : option User :=
  role' ← assign role_of_string (u_role updateData) (role u);
  Some {| uid := uid u;
          email := default (email u) (u_email updateData);
          password_hash := password_hash u;
          first_name := default (first_name u) (u_first_name updateData);
          last_name := default (last_name u) (u_last_name updateData);
          role := role';
          is_active := default (is_active u) (u_is_active updateData);
          created_at := created_at u;
          updated_at := now env |}.

(** [updateUser]: with no field to set, the current row; else the UPDATE,
    [None] when no row matched. *)
Definition updateUser (env : Env) (userId : string) (updateData : UserUpdateData)
    (s : Store) : Db (option User) :=
  if no_user_fields updateData then Returned (findUserById userId s) s
  else
    match users s !! userId with
    | Some u =>
        match updated_user env updateData u with
        | Some u' =>
            if email_taken_by_other (users s) userId (email u')
            then DbError
            else Returned (Some u') (set_users s (<[userId := u']> (users s)))
        | None => DbError
        end
    | None => Returned None s
    end.

(** ** [services/emailService.ts] *)

(** [logNotification]: the INSERT into [notification_logs], [sent_at]
    taking the default of the column at that statement; a failure (the
    request is not there to reference) is caught and dropped. *)
Definition logNotification (env : Env) (requestId recipientEmail : string)
    (notificationType : NotificationType) (st : NotificationStatus)
    (errorMessage : option string) (s : Store) : Store :=
  match travel_requests s !! requestId with
  | Some _ =>
      set_notification_logs s
        (notification_logs s ++
         [{| travel_request_id := requestId;
             recipient_email := recipientEmail;
             notification_type := notificationType;
             sent_at := log_time env;
             nl_status := st;
             error_message := Js.or_null errorMessage |}])
  | None => s
  end.

(** [sendEmail]: one delivery attempt, logged as sent or failed. *)
Definition sendEmail (env : Env) (to requestId : string)
    (notificationType : NotificationType) (s : Store) : Store * bool :=
  match sendMail_error env with
  | None => (logNotification env requestId to notificationType sent None s, true)
  | Some msg => (logNotification env requestId to notificationType failed (Some msg) s, false)
  end.

(** The four notifications build their HTML first and send it then;
    [None] is the exception thrown while building.  The request is the row
    [findTravelRequestWithUsers] read, so its [estimated_budget] is the
    text of [pg_numeric_out]: the templates of the submission and of the
    approval call [request.estimated_budget.toFixed(2)] on it and throw
    before [sendEmail] is reached; the templates of the rejection and of
    the cancellation do not use the budget. *)
Definition sendSubmissionNotification (env : Env) (request : TravelRequest * User * User)
    (s : Store) : option (Store * bool) :=
  let '(tr, _, a) := request in
  _ ← Js.string_toFixed (pg_numeric_out (estimated_budget tr)) 2;
  Some (sendEmail env (email a) (tr_id tr) submission s).

Definition sendApprovalNotification (env : Env) (request : TravelRequest * User * User)
    (s : Store) : option (Store * bool) :=
  let '(tr, u, _) := request in
  _ ← Js.string_toFixed (pg_numeric_out (estimated_budget tr)) 2;
  Some (sendEmail env (email u) (tr_id tr) approval s).

Definition sendRejectionNotification (env : Env) (request : TravelRequest * User * User)
    (s : Store) : option (Store * bool) :=
  let '(tr, u, _) := request in
  Some (sendEmail env (email u) (tr_id tr) rejection s).

Definition sendCancellationNotification (env : Env) (request : TravelRequest * User * User)
    (s : Store) : option (Store * bool) :=
  let '(tr, _, a) := request in
  Some (sendEmail env (email a) (tr_id tr) cancellation s).

(** The tail the four workflow handlers share:
    [const r = await findTravelRequestWithUsers(id); if (r) await send(r)],
    [None] when [send] throws. *)
Definition notify (send : TravelRequest * User * User -> Store -> option (Store * bool))
    (requestId : string) (s : Store) : option Store :=
  match findTravelRequestWithUsers requestId s with
  | Some requestWithUsers => fst <$> send requestWithUsers s
  | None => Some s
  end.

End Backend.

(** ** [controllers/travelRequestController.ts] *)

Section Controllers.

Context {rt : Runtime}.

Definition requiredFields : list string :=
  ["approver_id"; "destination"; "departure_date"; "return_date"; "purpose";
   "estimated_budget"].

(** [!!(requestData as any)[field]] *)
Definition field_truthy (requestData : CreateTravelRequestData) (field : string) : bool :=
  if String.eqb field "approver_id" then
    Js.truthy_opt Js.truthy_string (c_approver_id requestData)
  else if String.eqb field "destination" then
    Js.truthy_opt Js.truthy_string (c_destination requestData)
  else if String.eqb field "departure_date" then
    Js.truthy_opt Js.truthy_string (c_departure_date requestData)
  else if String.eqb field "return_date" then
    Js.truthy_opt Js.truthy_string (c_return_date requestData)
  else if String.eqb field "purpose" then
    Js.truthy_opt Js.truthy_string (c_purpose requestData)
  else if String.eqb field "estimated_budget" then
    Js.truthy_opt Js.truthy_number (c_estimated_budget requestData)
  else if String.eqb field "transportation_mode" then
    Js.truthy_opt Js.truthy_string (c_transportation_mode requestData)
  else if String.eqb field "accommodation_details" then
    Js.truthy_opt Js.truthy_string (c_accommodation_details requestData)
  else if String.eqb field "additional_notes" then
    Js.truthy_opt Js.truthy_string (c_additional_notes requestData)
  else false.

(** [createRequest]: POST /api/travel-requests, [shouldSubmit] being
    [req.query.submit === 'true']. *)
Definition createRequest (env : Env) (actor : Actor) (requestData : CreateTravelRequestData)
    (shouldSubmit : bool) (s : Store) : Store * Response :=
  match List.find (fun field => negb (field_truthy requestData field)) requiredFields with
  | Some field =>
      (s, Failure 400 ("Missing required field: " +:+ field) MISSING_FIELD)
  | None =>
      let approver_id := default "" (c_approver_id requestData) in
      let departure_date := default "" (c_departure_date requestData) in
      let return_date := default "" (c_return_date requestData) in
      let estimated_budget := default 0%Q (c_estimated_budget requestData) in
      if negb (isValidDateRange departure_date return_date) then
        (s, Failure 400 "Return date must be on or after departure date" INVALID_DATE_RANGE)
      else if Qle_bool estimated_budget 0 then
        (s, Failure 400 "Estimated budget must be greater than zero" INVALID_BUDGET)
      else if String.eqb approver_id (userId actor) then
        (s, Failure 400 "You cannot approve your own travel request" CANNOT_SELF_APPROVE)
      else
        match findUserById approver_id s with
        | None => (s, Failure 404 "Selected approver not found" APPROVER_NOT_FOUND)
        | Some approver_user =>
            if negb (is_active approver_user) then
              (s, Failure 400 "Selected approver is not active" APPROVER_INACTIVE)
            else if negb (bool_decide (role approver_user = approver))
                    && negb (bool_decide (role approver_user = admin)) then
              (s, Failure 400 "Selected user is not an approver" NOT_AN_APPROVER)
            else
              match createTravelRequest env (userId actor) requestData (negb shouldSubmit) s with
              | DbError => (s, Failure 500 "Failed to create travel request" SERVER_ERROR)
              | Returned newRequest s1 =>
                  match (if shouldSubmit
                         then notify (sendSubmissionNotification env) (tr_id newRequest) s1
                         else Some s1) with
                  | None => (s1, Failure 500 "Failed to create travel request" SERVER_ERROR)
                  | Some s2 =>
                      (s2, Success 201
                             (if shouldSubmit then "Travel request submitted successfully"
                              else "Travel request saved as draft")
                             (DataRequest newRequest))
                  end
              end
        end
  end.

(** [updateRequest]: PUT /api/travel-requests/:id *)
Definition updateRequest (env : Env) (actor : Actor) (id : string)
    (updateData : UpdateTravelRequestData) (s : Store) : Store * Response :=
  match findTravelRequestById id s with
  | None => (s, Failure 404 "Travel request not found" REQUEST_NOT_FOUND)
  | Some existingRequest =>
      if negb (String.eqb (user_id existingRequest) (userId actor)) then
        (s, Failure 403 "Access denied. You can only update your own requests." FORBIDDEN)
      else if negb (bool_decide (status existingRequest = draft)) then
        (s, Failure 400 "Can only update draft requests" CANNOT_UPDATE_SUBMITTED)
      else if (Js.truthy_opt Js.truthy_string (p_departure_date updateData)
               || Js.truthy_opt Js.truthy_string (p_return_date updateData))
              && negb (isValidDateRange
                         (Js.or_else (p_departure_date updateData)
                            (Date_toString (departure_date existingRequest)))
                         (Js.or_else (p_return_date updateData)
                            (Date_toString (return_date existingRequest)))) then
        (s, Failure 400 "Return date must be on or after departure date" INVALID_DATE_RANGE)
      else if match p_estimated_budget updateData with
              | Some b => Qle_bool b 0
              | None => false
              end then
        (s, Failure 400 "Estimated budget must be greater than zero" INVALID_BUDGET)
      else
        match updateTravelRequest env id updateData s with
        | DbError => (s, Failure 500 "Failed to update travel request" SERVER_ERROR)
        | Returned None s1 => (s1, Failure 500 "Failed to update travel request" UPDATE_FAILED)
        | Returned (Some updatedRequest) s1 =>
            (s1, Success 200 "Travel request updated successfully" (DataRequest updatedRequest))
        end
  end.

(** [submitRequest]: POST /api/travel-requests/:id/submit *)
Definition submitRequest (env : Env) (actor : Actor) (id : string) (s : Store)
    : Store * Response :=
  if negb (isRequestOwner id (userId actor) s) then
    (s, Failure 403 "Access denied" FORBIDDEN)
  else
    match submitDraftRequest env id s with
    | (s1, None) => (s1, Failure 400 "Request not found or not a draft" CANNOT_SUBMIT)
    | (s1, Some submittedRequest) =>
        match notify (sendSubmissionNotification env) id s1 with
        | None => (s1, Failure 500 "Failed to submit travel request" SERVER_ERROR)
        | Some s2 =>
            (s2, Success 200 "Travel request submitted successfully"
                   (DataRequest submittedRequest))
        end
    end.

(** [approveRequest]: POST /api/travel-requests/:id/approve *)
Definition approveRequest (env : Env) (actor : Actor) (id : string)
    (comments : option string) (s : Store) : Store * Response :=
  let isApprover := isRequestApprover id (userId actor) s in
  let isAdmin := bool_decide (actor_role actor = admin) in
  if negb isApprover && negb isAdmin then
    (s, Failure 403 "Access denied. Only assigned approver can approve this request."
          FORBIDDEN)
  else
    match approveTravelRequest env id comments s with
    | (s1, None) => (s1, Failure 400 "Request not found or not pending" CANNOT_APPROVE)
    | (s1, Some approvedRequest) =>
        match notify (sendApprovalNotification env) id s1 with
        | None => (s1, Failure 500 "Failed to approve travel request" SERVER_ERROR)
        | Some s2 =>
            (s2, Success 200 "Travel request approved successfully"
                   (DataRequest approvedRequest))
        end
    end.

(** [!comments || comments.trim().length === 0] *)
Definition comments_missing (comments : option string) : bool :=
  negb (Js.truthy_opt Js.truthy_string comments)
  || (String.length (Js.trim (default "" comments)) =? 0)%nat.

(** [rejectRequest]: POST /api/travel-requests/:id/reject *)
Definition rejectRequest (env : Env) (actor : Actor) (id : string)
    (comments : option string) (s : Store) : Store * Response :=
  if comments_missing comments then
    (s, Failure 400 "Comments are required when rejecting a request" COMMENTS_REQUIRED)
  else
    let isApprover := isRequestApprover id (userId actor) s in
    let isAdmin := bool_decide (actor_role actor = admin) in
    if negb isApprover && negb isAdmin then
      (s, Failure 403 "Access denied. Only assigned approver can reject this request."
            FORBIDDEN)
    else
      match rejectTravelRequest env id (default "" comments) s with
      | (s1, None) => (s1, Failure 400 "Request not found or not pending" CANNOT_REJECT)
      | (s1, Some rejectedRequest) =>
          match notify (sendRejectionNotification env) id s1 with
          | None => (s1, Failure 500 "Failed to reject travel request" SERVER_ERROR)
          | Some s2 => (s2, Success 200 "Travel request rejected" (DataRequest rejectedRequest))
          end
      end.

(** [cancelRequest]: POST /api/travel-requests/:id/cancel *)
Definition cancelRequest (env : Env) (actor : Actor) (id : string) (s : Store)
    : Store * Response :=
  if negb (isRequestOwner id (userId actor) s) then
    (s, Failure 403 "Access denied" FORBIDDEN)
  else
    match cancelTravelRequest env id s with
    | (s1, None) => (s1, Failure 400 "Request not found or not pending" CANNOT_CANCEL)
    | (s1, Some cancelledRequest) =>
        match notify (sendCancellationNotification env) id s1 with
        | None => (s1, Failure 500 "Failed to cancel travel request" SERVER_ERROR)
        | Some s2 =>
            (s2, Success 200 "Travel request cancelled successfully"
                   (DataRequest cancelledRequest))
        end
    end.

(** [deleteRequest]: DELETE /api/travel-requests/:id *)
Definition deleteRequest (actor : Actor) (id : string) (s : Store) : Store * Response :=
  if negb (isRequestOwner id (userId actor) s) then
    (s, Failure 403 "Access denied" FORBIDDEN)
  else
    match deleteTravelRequest id s with
    | (s1, false) => (s1, Failure 400 "Request not found or not a draft" CANNOT_DELETE)
    | (s1, true) =>
        (s1, Success 200 "Travel request deleted successfully" (DataDeleted id true))
    end.

(** [getRequestStats]: GET /api/travel-requests/stats *)
Definition getRequestStats (actor : Actor) (s : Store) : Response :=
  let stats :=
    if bool_decide (actor_role actor = admin)
    then countTravelRequests None s
    else countTravelRequests (Some (userId actor)) s in
  Success 200 "Statistics retrieved successfully" (DataStats stats).

(** ** [controllers/authController.ts] *)

(** [login]: POST /api/auth/login.  The token is represented by the
    payload it signs. *)
Definition login (body : UserLoginData) (s : Store) : Response :=
  if negb (Js.truthy_opt Js.truthy_string (l_email body))
     || negb (Js.truthy_opt Js.truthy_string (l_password body)) then
    Failure 400 "Email and password are required" MISSING_FIELDS
  else
    let email_in := default "" (l_email body) in
    let password := default "" (l_password body) in
    if negb (isValidEmail email_in) then
      Failure 400 "Invalid email format" INVALID_EMAIL
    else
      match findUserByEmail email_in s with
      | None => Failure 401 "Invalid email or password" INVALID_CREDENTIALS
      | Some u =>
          if negb (is_active u) then
            Failure 401 "Account is deactivated. Contact administrator." ACCOUNT_DEACTIVATED
          else if negb (bcrypt_compare password (password_hash u)) then
            Failure 401 "Invalid email or password" INVALID_CREDENTIALS
          else
            Success 200 "Login successful"
              (DataLogin (sanitizeUser u)
                 {| userId := uid u; actor_email := email u; actor_role := role u |})
      end.

(** ** [controllers/userController.ts] *)

(** What is left of the body of a caller who is not an admin: every key
    but [first_name] and [last_name] is deleted. *)
Definition names_only (updateData : UserUpdateData) : UserUpdateData :=
  {| u_email := None;
     u_first_name := u_first_name updateData;
     u_last_name := u_last_name updateData;
     u_role := None;
     u_is_active := None |}.

(** [updateUserById]: PUT /api/users/:id *)
Definition updateUserById (env : Env) (actor : Actor) (id : string)
    (body : UserUpdateData) (s : Store) : Store * Response :=
  let isAdmin := bool_decide (actor_role actor = admin) in
  let isSelf := String.eqb (userId actor) id in
  if negb isAdmin && negb isSelf then
    (s, Failure 403 "Access denied" FORBIDDEN)
  else
    match findUserById id s with
    | None => (s, Failure 404 "User not found" USER_NOT_FOUND)
    | Some existingUser =>
        let updateData := if negb isAdmin then names_only body else body in
        let email_given := Js.truthy_opt Js.truthy_string (u_email updateData) in
        let email_in := default "" (u_email updateData) in
        let role_given := Js.truthy_opt Js.truthy_string (u_role updateData) in
        let role_in := default "" (u_role updateData) in
        if email_given && negb (isValidEmail email_in) then
          (s, Failure 400 "Invalid email format" INVALID_EMAIL)
        else if email_given && emailExists email_in (Some id) s then
          (s, Failure 409 "Email already in use" EMAIL_EXISTS)
        else if role_given
                && negb (Js.includes ["user"; "approver"; "admin"] role_in) then
          (s, Failure 400 "Invalid role" INVALID_ROLE)
        else if isAdmin && isSelf && bool_decide (u_is_active updateData = Some false) then
          (s, Failure 400 "Cannot deactivate your own account" CANNOT_DEACTIVATE_SELF)
        else
          match updateUser env id updateData s with
          | DbError => (s, Failure 500 "Failed to update user" SERVER_ERROR)
          | Returned None s1 => (s1, Failure 500 "Failed to update user" UPDATE_FAILED)
          | Returned (Some updatedUser) s1 =>
              (s1, Success 200 "User updated successfully"
                     (DataUser (sanitizeUser updatedUser)))
          end
    end.

(** ** The calls of the API that write *)

Inductive ApiCall :=
| CallCreate (requestData : CreateTravelRequestData) (shouldSubmit : bool)
| CallUpdate (id : string) (updateData : UpdateTravelRequestData)
| CallSubmit (id : string)
| CallApprove (id : string) (comments : option string)
| CallReject (id : string) (comments : option string)
| CallCancel (id : string)
| CallDelete (id : string)
| CallUpdateUser (id : string) (body : UserUpdateData).

(** The router: one authenticated call against the database. *)
Definition handle (env : Env) (actor : Actor) (c : ApiCall) (s : Store) : Store * Response :=
  match c with
  | CallCreate requestData shouldSubmit => createRequest env actor requestData shouldSubmit s
  | CallUpdate id updateData => updateRequest env actor id updateData s
  | CallSubmit id => submitRequest env actor id s
  | CallApprove id comments => approveRequest env actor id comments s
  | CallReject id comments => rejectRequest env actor id comments s
  | CallCancel id => cancelRequest env actor id s
  | CallDelete id => deleteRequest actor id s
  | CallUpdateUser id body => updateUserById env actor id body s
  end.

(** A sequence of calls, each with its caller and surroundings. *)
Fixpoint run (calls : list (Env * Actor * ApiCall)) (s : Store) : Store :=
  match calls with
  | [] => s
  | (env, actor, c) :: rest => run rest (handle env actor c s).1
  end.

(** The request a call of the workflow addresses by [:id]. *)
Definition target (c : ApiCall) : option string :=
  match c with
  | CallCreate _ _ => None
  | CallUpdate id _ => Some id
  | CallSubmit id => Some id
  | CallApprove id _ => Some id
  | CallReject id _ => Some id
  | CallCancel id => Some id
  | CallDelete id => Some id
  | CallUpdateUser _ _ => None
  end.

End Controllers.

(** ** A runtime for the examples

    Dates are the calendar dates [YYYY-MM-DD] of the proleptic Gregorian
    calendar at midnight UTC, printed back in the same form; the hash of a
    password is the password behind a fixed prefix.  It is one runtime
    among those the properties are stated for, kept small: the engines
    read more texts than it does and print dates otherwise, and the
    examples use it only on dates that exist, written [YYYY-MM-DD]. *)

Module IsoRuntime.

Definition digit (c : ascii) : option Z :=
  let n := Z.of_nat (nat_of_ascii c) in
  if (48 <=? n) && (n <=? 57) then Some (n - 48) else None.

Definition digit_char (n : Z) : ascii := ascii_of_nat (Z.to_nat (48 + n mod 10)).

(** Days since 1970-01-01 of a civil date. *)
Definition days_from_civil (y m d : Z) : Z :=
  let y' := if m <=? 2 then y - 1 else y in
  let era := y' / 400 in
  let yoe := y' - era * 400 in
  let mp := (m + 9) mod 12 in
  let doy := (153 * mp + 2) / 5 + d - 1 in
  let doe := yoe * 365 + yoe / 4 - yoe / 100 + doy in
  era * 146097 + doe - 719468.

(** The civil date of a number of days since 1970-01-01. *)
Definition civil_from_days (z : Z) : Z * Z * Z :=
  let z' := z + 719468 in
  let era := z' / 146097 in
  let doe := z' - era * 146097 in
  let yoe := (doe - doe / 1460 + doe / 36524 - doe / 146096) / 365 in
  let doy := doe - (365 * yoe + yoe / 4 - yoe / 100) in
  let mp := (5 * doy + 2) / 153 in
  let d := doy - (153 * mp + 2) / 5 + 1 in
  let m := if mp <? 10 then mp + 3 else mp - 9 in
  (yoe + era * 400 + (if m <=? 2 then 1 else 0), m, d).

Definition ms_per_day : Z := 86400000.

Definition parse (s : string) : option Z :=
  match s with
  | String y1 (String y2 (String y3 (String y4 (String "-"
    (String m1 (String m2 (String "-" (String d1 (String d2 EmptyString))))))))) =>
      a ← digit y1; b ← digit y2; c ← digit y3; e ← digit y4;
      f ← digit m1; g ← digit m2; h ← digit d1; i ← digit d2;
      let y := 1000 * a + 100 * b + 10 * c + e in
      let m := 10 * f + g in
      let d := 10 * h + i in
      let days := days_from_civil y m d in
      if bool_decide (civil_from_days days = (y, m, d))
      then Some (days * ms_per_day) else None
  | _ => None
  end.

Definition toString (t : Z) : string :=
  let '(y, m, d) := civil_from_days (t / ms_per_day) in
  String (digit_char (y / 1000)) (String (digit_char (y / 100))
    (String (digit_char (y / 10)) (String (digit_char y) (String "-"
    (String (digit_char (m / 10)) (String (digit_char m) (String "-"
    (String (digit_char (d / 10)) (String (digit_char d) EmptyString))))))))).

Definition runtime : Runtime :=
  {| Date_parse := parse;
     Date_toString := toString;
     pg_date_in := parse;
     bcrypt_compare := fun password hash => String.eqb hash ("$2b$10$" +:+ password) |}.

End IsoRuntime.

(** ** Sample data for the examples *)

Module Demo.

Definition alice_id : string := "a1a1a1a1-0000-4000-8000-000000000001".
Definition bob_id : string := "b2b2b2b2-0000-4000-8000-000000000002".
Definition carol_id : string := "c3c3c3c3-0000-4000-8000-000000000003".
Definition dave_id : string := "d4d4d4d4-0000-4000-8000-000000000004".
Definition request_id : string := "e5e5e5e5-0000-4000-8000-000000000005".

Definition mk_user (k e first : string) (r : UserRole) (active : bool) : User :=
  {| uid := k; email := e; password_hash := "$2b$10$" +:+ first +:+ "@123";
     first_name := first; last_name := "Example"; role := r; is_active := active;
     created_at := 1735689600000; updated_at := 1735689600000 |}.

(** A requester. *)
Definition alice : User := mk_user alice_id "alice@company.com" "Alice" user true.
(** An approver. *)
Definition bob : User := mk_user bob_id "bob@company.com" "Bob" approver true.
(** An administrator. *)
Definition carol : User := mk_user carol_id "carol@company.com" "Carol" admin true.
(** A deactivated account. *)
Definition dave : User := mk_user dave_id "dave@company.com" "Dave" user false.

Definition as_actor (u : User) : Actor :=
  {| userId := uid u; actor_email := email u; actor_role := role u |}.

Definition people : gmap string User :=
  <[alice_id := alice]> (<[bob_id := bob]> (<[carol_id := carol]> (<[dave_id := dave]> ∅))).

(** The database with the four accounts and no request. *)
Definition empty_db : Store :=
  {| users := people; travel_requests := ∅; notification_logs := [] |}.

(** Alice's trip of scenario A, in a given status. *)
Definition trip (st : TravelRequestStatus) : TravelRequest :=
  {| tr_id := request_id;
     user_id := alice_id;
     approver_id := bob_id;
     destination := "Lagos";
     departure_date := 1739577600000;
     return_date := 1740009600000;
     purpose := "Client workshop";
     estimated_budget := 250000;
     transportation_mode := Some "Flight";
     accommodation_details := None;
     additional_notes := None;
     status := st;
     approval_comments := match st with
                          | approved => Some "ok"
                          | rejected => Some "over budget"
                          | _ => None
                          end;
     submitted_at := match st with draft => None | _ => Some 1736000000000 end;
     approved_rejected_at := match st with
                             | approved | rejected => Some 1736100000000
                             | _ => None
                             end;
     tr_created_at := 1735900000000;
     tr_updated_at := 1736100000000 |}.

(** The database holding that one request. *)
Definition db_with (st : TravelRequestStatus) : Store :=
  {| users := people;
     travel_requests := {[ request_id := trip st ]};
     notification_logs := [] |}.

Definition env_at (t : Z) : Env :=
  {| now := t; gen_random_uuid := request_id; sendMail_error := None;
     log_time := t + 150 |}.

(** The body of scenario A with a chosen budget. *)
Definition trip_data (budget : Js.number) : CreateTravelRequestData :=
  {| c_approver_id := Some bob_id;
     c_destination := Some "Lagos";
     c_departure_date := Some "2025-02-15";
     c_return_date := Some "2025-02-20";
     c_purpose := Some "Client workshop";
     c_estimated_budget := Some budget;
     c_transportation_mode := Some "Flight";
     c_accommodation_details := None;
     c_additional_notes := None |}.

End Demo.

(** * The rest of the backend *)

(** ** [utils/helpers.ts]: passwords *)

Record PasswordValidation := {
  isValid : bool;
  pv_message : option string
}.

Definition in_range (lo hi : nat) (c : ascii) : bool :=
  let n := nat_of_ascii c in ((lo <=? n) && (n <=? hi))%nat.

(** [/[A-Z]/], [/[a-z]/] and [/[0-9]/] on one code unit. *)
Definition is_upper : ascii -> bool := in_range 65 90.
Definition is_lower : ascii -> bool := in_range 97 122.
Definition is_digit : ascii -> bool := in_range 48 57.

(** [re.test(s)] for a one-character class: some code unit is in it. *)
Fixpoint has_char (p : ascii -> bool) (s : string) : bool :=
  match s with
  | EmptyString => false
  | String c rest => p c || has_char p rest
  end.

(** [validatePassword] *)
Definition validatePassword (password : string) : PasswordValidation :=
  if (String.length password <? 8)%nat then
    {| isValid := false;
       pv_message := Some "Password must be at least 8 characters long" |}
  else if negb (has_char is_upper password) then
    {| isValid := false;
       pv_message := Some "Password must contain at least one uppercase letter" |}
  else if negb (has_char is_lower password) then
    {| isValid := false;
       pv_message := Some "Password must contain at least one lowercase letter" |}
  else if negb (has_char is_digit password) then
    {| isValid := false;
       pv_message := Some "Password must contain at least one number" |}
  else {| isValid := true; pv_message := None |}.

(** ** [utils/jwt.ts]: the Authorization header *)

(** [s.substring(n)] *)
Fixpoint substring_from (n : nat) (s : string) : string :=
  match n, s with
  | O, _ => s
  | S n', String _ rest => substring_from n' rest
  | S _, EmptyString => EmptyString
  end.

(** [extractToken]: what follows [Bearer ] in the header, [None] ([null])
    without a header, without the prefix, or with nothing after it. *)
Definition extractToken (authHeader : option string) : option string :=
  match authHeader with
  | None => None
  | Some h =>
      if negb (Js.truthy_string h) then None
      else if negb (String.prefix "Bearer " h) then None
      else Js.or_null (Some (substring_from 7 h))
  end.

(** ** Replies of the other handlers

    The [error] of these replies is the text the handler sends. *)

Definition TravelRequestWithUsers : Type := TravelRequest * UserResponse * UserResponse.

Record UserStats := {
  us_total : Z;
  us_active : Z;
  us_inactive : Z;
  us_users : nat;
  us_approvers : nat;
  us_admins : nat
}.

Inductive Data :=
| NoData
| OneUser (u : UserResponse)
| ManyUsers (users : list UserResponse) (count : nat)
| OneRequest (request : TravelRequestWithUsers)
| ManyRequests (requests : list TravelRequestWithUsers) (count : nat)
| UserDeleted (userId : string) (deleted : bool)
| Stats (stats : UserStats).

Inductive Reply :=
| Sent (code : Z) (message : string) (data : Data)
| Refused (code : Z) (message : string) (error : string).

(** ** [middleware/authMiddleware.ts] *)

(** [authenticate], given what [verifyToken] makes of a token: the
    payload attached as [req.user], or the 401 reply. *)
Definition authenticate (verifyToken : string -> option Actor) (authHeader : option string)
    : Actor + Reply :=
  match extractToken authHeader with
  | None => inr (Refused 401 "Access denied. No token provided." "NO_TOKEN")
  | Some token =>
      match verifyToken token with
      | None => inr (Refused 401 "Invalid or expired token." "INVALID_TOKEN")
      | Some decoded =>
          inl {| userId := userId decoded; actor_email := actor_email decoded;
                 actor_role := actor_role decoded |}
      end
  end.

(** [authorize(allowedRoles)]: [None] is [next()]. *)
Definition authorize (allowedRoles : list UserRole) (req_user : option Actor) : option Reply :=
  match req_user with
  | None => Some (Refused 401 "User not authenticated" "NOT_AUTHENTICATED")
  | Some u =>
      if negb (bool_decide (actor_role u ∈ allowedRoles)) then
        Some (Refused 403 "Access denied. Insufficient permissions." "FORBIDDEN")
      else None
  end.

(** ** [models/userModel.ts], the rest *)

(** The text of the [role] column of a user. *)
Definition role_name (u : User) : string :=
  match role u with
  | user => "user"
  | approver => "approver"
  | admin => "admin"
  end.

(** The rows of a query with [ORDER BY created_at DESC]; rows of equal
    [created_at] keep the order they are met in. *)
Definition newer {A} (key : A -> Z) (a b : A) : Prop := key b <= key a.

Global Instance newer_dec {A} (key : A -> Z) (a b : A) : Decision (newer key a b).
Proof. unfold newer. apply _. Defined.

Definition newest_first {A} (key : A -> Z) (l : list A) : list A :=
  merge_sort (newer key) l.

(** [createUser]: the INSERT into [users].  The e-mail is UNIQUE, the
    role is one of the three, and the row gets the next generated id. *)
Definition createUser (env : Env) (email_in password first last role_in : string) (s : Store)
    : Db User :=
  match role_of_string role_in with
  | None => DbError
  | Some r =>
      let row :=
        {| uid := gen_random_uuid env; email := email_in; password_hash := password;
           first_name := first; last_name := last; role := r; is_active := true;
           created_at := now env; updated_at := now env |} in
      match users s !! gen_random_uuid env with
      | Some _ => DbError
      | None =>
          if email_taken_by_other (users s) (gen_random_uuid env) email_in then DbError
          else Returned row (set_users s (<[gen_random_uuid env := row]> (users s)))
      end
  end.

(** [softDeleteUser]: [is_active] set to false; the trigger of the
    schema sets [updated_at]. *)
Definition softDeleteUser (env : Env) (userId : string) (s : Store) : Store * bool :=
  match users s !! userId with
  | Some u =>
      (set_users s
         (<[userId := {| uid := uid u; email := email u; password_hash := password_hash u;
                         first_name := first_name u; last_name := last_name u;
                         role := role u; is_active := false;
                         created_at := created_at u; updated_at := now env |}]>
            (users s)),
       true)
  | None => (s, false)
  end.

(** Some request names the user as requester or approver. *)
Definition referenced (userId : string) (s : Store) : bool :=
  existsb (fun '(_, r) => String.eqb (user_id r) userId || String.eqb (approver_id r) userId)
          (map_to_list (travel_requests s)).

(** [hardDeleteUser]: the DELETE; the foreign keys of [travel_requests]
    are ON DELETE RESTRICT, and their violation is caught and answered
    [false]. *)
Definition hardDeleteUser (userId : string) (s : Store) : Store * bool :=
  match users s !! userId with
  | Some _ =>
      if referenced userId s then (s, false)
      else (set_users s (delete userId (users s)), true)
  | None => (s, false)
  end.

(** The WHERE clause [getAllUsers] builds: the role, when one is given
    and truthy, and the activity, when one is given. *)
Definition user_matches (role_filter : option string) (is_active_filter : option bool)
    (u : User) : bool :=
  match role_filter with
  | Some r => if Js.truthy_string r then String.eqb (role_name u) r else true
  | None => true
  end
  && match is_active_filter with
     | Some a => Bool.eqb (is_active u) a
     | None => true
     end.

(** [getAllUsers]: the matching users, newest first. *)
Definition getAllUsers (role_filter : option string) (is_active_filter : option bool)
    (s : Store) : list User :=
  newest_first created_at
    (filter (fun u => user_matches role_filter is_active_filter u = true)
            (map_to_list (users s)).*2).

(** [getUsersByRole]: the active users of the role.  The order, by
    first and last name in the collation of the database, is left out:
    the handlers modelled here use the number of rows only. *)
Definition getUsersByRole (r : UserRole) (s : Store) : list User :=
  filter (fun u => role u = r /\ is_active u = true) (map_to_list (users s)).*2.

(** [countUsers] *)
Definition countUsers (activeOnly : bool) (s : Store) : Z :=
  Z.of_nat
    (length (if activeOnly
             then filter (fun u => is_active u = true) (map_to_list (users s)).*2
             else (map_to_list (users s)).*2)).

(** ** [controllers/userController.ts], the rest *)

(** [getUsers]: GET /api/users, [role] and [activeParam] being the two
    query parameters. *)
Definition getUsers (role_param activeParam : option string) (s : Store) : Reply :=
  let isActive :=
    match activeParam with
    | Some a => if String.eqb a "true" then Some true
                else if String.eqb a "false" then Some false else None
    | None => None
    end in
  if Js.truthy_opt Js.truthy_string role_param
     && negb (Js.includes ["user"; "approver"; "admin"] (default "" role_param)) then
    Refused 400 "Invalid role parameter" "INVALID_ROLE"
  else
    let safeUsers := map sanitizeUser (getAllUsers role_param isActive s) in
    Sent 200 "Users retrieved successfully" (ManyUsers safeUsers (length safeUsers)).

(** [getUserById]: GET /api/users/:id *)
Definition getUserById (actor : Actor) (id : string) (s : Store) : Reply :=
  let isAdmin := bool_decide (actor_role actor = admin) in
  let isSelf := String.eqb (userId actor) id in
  if negb isAdmin && negb isSelf then
    Refused 403 "Access denied. Can only view own profile." "FORBIDDEN"
  else
    match findUserById id s with
    | None => Refused 404 "User not found" "USER_NOT_FOUND"
    | Some u => Sent 200 "User retrieved successfully" (OneUser (sanitizeUser u))
    end.

(** [deleteUserById]: DELETE /api/users/:id, [hardDelete] being
    [req.query.hard === 'true']. *)
Definition deleteUserById (env : Env) (actor : Actor) (id : string) (hardDelete : bool)
    (s : Store) : Store * Reply :=
  if String.eqb (userId actor) id then
    (s, Refused 400 "Cannot delete your own account" "CANNOT_DELETE_SELF")
  else
    match findUserById id s with
    | None => (s, Refused 404 "User not found" "USER_NOT_FOUND")
    | Some _ =>
        let '(s1, success, message) :=
          if hardDelete then
            let '(s1, success) := hardDeleteUser id s in
            (s1, success,
             if success then "User permanently deleted"
             else "Cannot delete user with existing travel requests")
          else
            let '(s1, success) := softDeleteUser env id s in
            (s1, success,
             if success then "User deactivated successfully"
             else "Failed to deactivate user") in
        if negb success then (s1, Refused 400 message "DELETE_FAILED")
        else (s1, Sent 200 message (UserDeleted id success))
    end.

(** [getUserStats]: GET /api/users/stats *)
Definition getUserStats (s : Store) : Reply :=
  let totalUsers := countUsers false s in
  let activeUsers := countUsers true s in
  Sent 200 "User statistics retrieved successfully"
    (Stats {| us_total := totalUsers;
              us_active := activeUsers;
              us_inactive := totalUsers - activeUsers;
              us_users := length (getUsersByRole user s);
              us_approvers := length (getUsersByRole approver s);
              us_admins := length (getUsersByRole admin s) |}).

(** ** [controllers/authController.ts], the rest *)

Record UserRegistrationData := {
  g_email : option string;
  g_password : option string;
  g_first_name : option string;
  g_last_name : option string;
  g_role : option string
}.

(** [register]: POST /api/auth/register, [bcrypt_hash] being what
    [bcrypt.hash(., BCRYPT_ROUNDS)] resolves to in this call. *)
Definition register (bcrypt_hash : string -> string) (env : Env)
    (body : UserRegistrationData) (s : Store) : Store * Reply :=
  if negb (Js.truthy_opt Js.truthy_string (g_email body))
     || negb (Js.truthy_opt Js.truthy_string (g_password body))
     || negb (Js.truthy_opt Js.truthy_string (g_first_name body))
     || negb (Js.truthy_opt Js.truthy_string (g_last_name body))
     || negb (Js.truthy_opt Js.truthy_string (g_role body)) then
    (s, Refused 400 "All fields are required" "MISSING_FIELDS")
  else
    let email_in := default "" (g_email body) in
    let password := default "" (g_password body) in
    let role_in := default "" (g_role body) in
    if negb (isValidEmail email_in) then
      (s, Refused 400 "Invalid email format" "INVALID_EMAIL")
    else if negb (isValid (validatePassword password)) then
      (s, Refused 400 (default "" (pv_message (validatePassword password))) "WEAK_PASSWORD")
    else if emailExists email_in None s then
      (s, Refused 409 "Email already registered" "EMAIL_EXISTS")
    else if negb (Js.includes ["user"; "approver"; "admin"] role_in) then
      (s, Refused 400 "Invalid role. Must be: user, approver, or admin" "INVALID_ROLE")
    else
      match createUser env email_in (bcrypt_hash password)
              (default "" (g_first_name body)) (default "" (g_last_name body)) role_in s with
      | DbError => (s, Refused 500 "Registration failed" "SERVER_ERROR")
      | Returned newUser s1 =>
          (s1, Sent 201 "User registered successfully" (OneUser (sanitizeUser newUser)))
      end.

(** [getCurrentUser]: GET /api/auth/me *)
Definition getCurrentUser (req_user : option Actor) (s : Store) : Reply :=
  match req_user with
  | None => Refused 401 "Not authenticated" "NOT_AUTHENTICATED"
  | Some a =>
      match findUserById (userId a) s with
      | None => Refused 404 "User not found" "USER_NOT_FOUND"
      | Some u =>
          if negb (is_active u) then Refused 401 "Account is deactivated" "ACCOUNT_DEACTIVATED"
          else Sent 200 "User retrieved successfully" (OneUser (sanitizeUser u))
      end
  end.

(** [logout]: POST /api/auth/logout *)
Definition logout : Reply := Sent 200 "Logout successful" NoData.

(** ** [routes/userRoutes.ts] and [routes/authRoutes.ts]: the guarded routes *)

(** DELETE /api/users/:id is [authenticate, authorize(['admin']),
    deleteUserById]. *)
Definition route_deleteUser (env : Env) (actor : Actor) (id : string) (hardDelete : bool)
    (s : Store) : Store * Reply :=
  match authorize [admin] (Some actor) with
  | Some refusal => (s, refusal)
  | None => deleteUserById env actor id hardDelete s
  end.

(** POST /api/auth/register is [authenticate, authorize(['admin']),
    register]. *)
Definition route_register (bcrypt_hash : string -> string) (env : Env) (actor : Actor)
    (body : UserRegistrationData) (s : Store) : Store * Reply :=
  match authorize [admin] (Some actor) with
  | Some refusal => (s, refusal)
  | None => register bcrypt_hash env body s
  end.

(** GET /api/users is [authenticate, authorize(['admin']), getUsers]. *)
Definition route_getUsers (actor : Actor) (role_param activeParam : option string)
    (s : Store) : Reply :=
  match authorize [admin] (Some actor) with
  | Some refusal => refusal
  | None => getUsers role_param activeParam s
  end.

(** ** [models/travelRequestModel.ts]: the listings *)

Record TravelRequestFilters := {
  f_status : option string;
  f_user_id : option string;
  f_approver_id : option string;
  f_start_date : option string;
  f_end_date : option string
}.

(** The text of the [status] column. *)
Definition status_name (st : TravelRequestStatus) : string :=
  match st with
  | draft => "draft"
  | pending => "pending"
  | approved => "approved"
  | rejected => "rejected"
  | cancelled => "cancelled"
  end.

(** A condition [AND column = $n], added when the filter is truthy. *)
Definition text_condition (f : option string) (column : string) : bool :=
  match f with
  | Some v => if Js.truthy_string v then String.eqb column v else true
  | None => true
  end.

Section Listings.

Context {rt : Runtime}.

(** The date a truthy date filter is bound to: [Some None] without a
    bound, [None] when PostgreSQL refuses the text. *)
Definition date_bound (f : option string) : option (option Z) :=
  match f with
  | Some v =>
      if Js.truthy_string v then
        match pg_date_in v with
        | Some d => Some (Some d)
        | None => None
        end
      else Some None
  | None => Some None
  end.

(** The request joined with its requester and approver, as
    [json_build_object] renders them. *)
Definition joined (us : gmap string User) (tr : TravelRequest) : option TravelRequestWithUsers :=
  match us !! user_id tr, us !! approver_id tr with
  | Some u, Some a => Some (tr, sanitizeUser u, sanitizeUser a)
  | _, _ => None
  end.

(** The WHERE clause [getAllTravelRequests] builds. *)
Definition request_matches (filters : TravelRequestFilters) (lo hi : option Z)
    (tr : TravelRequest) : bool :=
  text_condition (f_status filters) (status_name (status tr))
  && text_condition (f_user_id filters) (user_id tr)
  && text_condition (f_approver_id filters) (approver_id tr)
  && match lo with Some d => d <=? departure_date tr | None => true end
  && match hi with Some d => return_date tr <=? d | None => true end.

(** [getAllTravelRequests]: the matching requests with their users,
    newest first; [None] when a date filter is refused and the query
    raises. *)
Definition getAllTravelRequests (filters : TravelRequestFilters) (s : Store)
    : option (list TravelRequestWithUsers) :=
  lo ← date_bound (f_start_date filters);
  hi ← date_bound (f_end_date filters);
  Some (newest_first (fun x => tr_created_at x.1.1)
          (omap (joined (users s))
                (filter (fun tr => request_matches filters lo hi tr = true)
                        (map_to_list (travel_requests s)).*2))).

(** [getUserTravelRequests] *)
Definition getUserTravelRequests (userId : string) (status_filter : option string) (s : Store)
    : option (list TravelRequestWithUsers) :=
  getAllTravelRequests
    {| f_status := status_filter; f_user_id := Some userId; f_approver_id := None;
       f_start_date := None; f_end_date := None |} s.


(** ** [controllers/travelRequestController.ts]: the listings *)

Definition listing (message failure : string) (result : option (list TravelRequestWithUsers))
    : Reply :=
  match result with
  | Some requests => Sent 200 message (ManyRequests requests (length requests))
  | None => Refused 500 failure "SERVER_ERROR"
  end.


(** [getMyRequests]: GET /api/travel-requests/my-requests *)
Definition getMyRequests (actor : Actor) (status_param : option string) (s : Store) : Reply :=
  listing "Your travel requests retrieved successfully" "Failed to retrieve your requests"
    (getUserTravelRequests (userId actor) status_param s).


(** [getRequestById]: GET /api/travel-requests/:id *)
Definition getRequestById (actor : Actor) (id : string) (s : Store) : Reply :=
  match findTravelRequestWithUsers id s with
  | None => Refused 404 "Travel request not found" "REQUEST_NOT_FOUND"
  | Some (tr, u, a) =>
      let isOwner := String.eqb (user_id tr) (userId actor) in
      let isApprover := String.eqb (approver_id tr) (userId actor) in
      let isAdmin := bool_decide (actor_role actor = admin) in
      if negb isOwner && negb isApprover && negb isAdmin then
        Refused 403 "Access denied" "FORBIDDEN"
      else
        Sent 200 "Travel request retrieved successfully"
          (OneRequest (tr, sanitizeUser u, sanitizeUser a))
  end.

(** ** Every call that writes *)

Inductive Call :=
| Workflow (c : ApiCall)
| DeleteUser (id : string) (hardDelete : bool)
| Register (bcrypt_hash : string -> string) (body : UserRegistrationData).

(** The database after one authenticated call. *)
Definition serve (env : Env) (actor : Actor) (c : Call) (s : Store) : Store :=
  match c with
  | Workflow c' => (handle env actor c' s).1
  | DeleteUser id hardDelete => (route_deleteUser env actor id hardDelete s).1
  | Register bcrypt_hash body => (route_register bcrypt_hash env actor body s).1
  end.

Fixpoint serve_all (calls : list (Env * Actor * Call)) (s : Store) : Store :=
  match calls with
  | [] => s
  | (env, actor, c) :: rest => serve_all rest (serve env actor c s)
  end.

End Listings.

(** ** A history for the examples *)

Module Story.

Definition erin_id : string := "f6f6f6f6-0000-4000-8000-000000000006".

Definition hash (password : string) : string := "$2b$10$" +:+ password.

Definition env_new (t : Z) (k : string) : Env :=
  {| now := t; gen_random_uuid := k; sendMail_error := None; log_time := t + 150 |}.

(** The registration of Erin, an approver. *)
Definition erin_data : UserRegistrationData :=
  {| g_email := Some "erin@company.com"; g_password := Some "Erin@1234";
     g_first_name := Some "Erin"; g_last_name := Some "Example";
     g_role := Some "approver" |}.

(** Carol registers Erin; Alice files and submits her trip; Bob rejects
    it; Carol then tries to delete Bob for good, and deactivates Dave. *)
Definition history : list (Env * Actor * Call) :=
  [(env_new 1735990000000 erin_id, Demo.as_actor Demo.carol, Register hash erin_data);
   (Demo.env_at 1736000000000, Demo.as_actor Demo.alice,
    Workflow (CallCreate (Demo.trip_data 2500%Q) false));
   (Demo.env_at 1736000060000, Demo.as_actor Demo.alice,
    Workflow (CallSubmit Demo.request_id));
   (Demo.env_at 1736000120000, Demo.as_actor Demo.bob,
    Workflow (CallReject Demo.request_id (Some "over budget")));
   (Demo.env_at 1736000180000, Demo.as_actor Demo.carol, DeleteUser Demo.bob_id true);
   (Demo.env_at 1736000240000, Demo.as_actor Demo.carol, DeleteUser Demo.dave_id false)].

End Story.


(** * Vocabulary of the properties *)

(** The four senders of the workflow. *)
Inductive sender : (TravelRequest * User * User -> Store -> option (Store * bool)) -> Prop :=
| sender_submission env : sender (sendSubmissionNotification env)
| sender_approval env : sender (sendApprovalNotification env)
| sender_rejection env : sender (sendRejectionNotification env)
| sender_cancellation env : sender (sendCancellationNotification env).

(** The terminal states of the lifecycle. *)
Definition terminal (st : TravelRequestStatus) : bool :=
  match st with
  | approved | rejected | cancelled => true
  | draft | pending => false
  end.

(** The error kinds that report a failed guard on the state. *)
Definition state_conflict (e : ErrorKind) : bool :=
  match e with
  | CANNOT_UPDATE_SUBMITTED | CANNOT_SUBMIT | CANNOT_APPROVE | CANNOT_REJECT
  | CANNOT_CANCEL | CANNOT_DELETE => true
  | _ => false
  end.

(** The response refuses the call with a state-conflict or forbidden
    error. *)
Definition refused_conflict_or_forbidden (resp : Response) : bool :=
  match resp with
  | Failure _ _ e => state_conflict e || bool_decide (e = FORBIDDEN)
  | Success _ _ _ => false
  end.

(** No request of the database has its requester as approver. *)
Definition no_self_approval (s : Store) : Prop :=
  forall id r, travel_requests s !! id = Some r -> user_id r <> approver_id r.

(** The comments of a reject call are absent, empty or white space. *)
Definition blank (comments : option string) : Prop :=
  comments = None \/ comments = Some "" \/
  (exists c, comments = Some c /\ Js.whitespace_only c = true).


(** Every required field of a create body is present and truthy. *)
Definition required_present (requestData : CreateTravelRequestData) : bool :=
  forallb (field_truthy requestData) requiredFields.

(** The e-mail and the role of a user update, where given, pass the
    checks of [updateUserById]. *)
Definition passes_user_checks (id : string) (body : UserUpdateData) (s : Store) : bool :=
  (negb (Js.truthy_opt Js.truthy_string (u_email body))
   || (isValidEmail (default "" (u_email body))
       && negb (emailExists (default "" (u_email body)) (Some id) s)))
  && (negb (Js.truthy_opt Js.truthy_string (u_role body))
      || Js.includes ["user"; "approver"; "admin"] (default "" (u_role body))).

(** What one call may do to the table of requests: nothing; insert a
    row under an unused id, requester and approver distinct; rewrite a row
    that is a draft or pending, keeping its requester, and its approver
    too unless the new one is distinct from the requester; delete a
    draft. *)
Inductive effect (m : gmap string TravelRequest) : gmap string TravelRequest -> Prop :=
| effect_none : effect m m
| effect_insert k r' :
    m !! k = None ->
    check_approver_not_self r' = true ->
    effect m (<[k := r']> m)
| effect_rewrite k r0 r' :
    m !! k = Some r0 ->
    terminal (status r0) = false ->
    user_id r' = user_id r0 ->
    approver_id r' = approver_id r0 \/ check_approver_not_self r' = true ->
    effect m (<[k := r']> m)
| effect_delete k r0 :
    m !! k = Some r0 ->
    status r0 = draft ->
    effect m (delete k m).

(** The response refuses a call on a request in a terminal state the way
    the handlers do: with a state-conflict or forbidden error, or, for a
    reject call whose comments are missing, with [COMMENTS_REQUIRED]. *)
Definition refused_on_terminal (c : ApiCall) (resp : Response) : bool :=
  match resp with
  | Failure _ _ e =>
      state_conflict e || bool_decide (e = FORBIDDEN)
      || (bool_decide (e = COMMENTS_REQUIRED)
          && match c with
             | CallReject _ comments => comments_missing comments
             | _ => false
             end)
  | Success _ _ _ => false
  end.

(** The edges of the lifecycle. *)
Definition legal_step (from to : TravelRequestStatus) : bool :=
  match from, to with
  | draft, pending | pending, approved | pending, rejected | pending, cancelled => true
  | _, _ => false
  end.

(** What one call may write to the table of requests, in full: nothing;
    a new row that meets the constraints, a draft or pending, undecided;
    a draft rewritten into a draft that meets the constraints, its
    requester and workflow columns kept; one of the four transitions of a
    row; the deletion of a draft. *)
Inductive write (us : gmap string User) (m : gmap string TravelRequest)
    : gmap string TravelRequest -> Prop :=
| write_nothing : write us m m
| write_created k r' :
    m !! k = None ->
    travel_request_constraints us r' = true ->
    (status r' = draft /\ submitted_at r' = None)
    \/ (status r' = pending /\ is_Some (submitted_at r')) ->
    approval_comments r' = None ->
    approved_rejected_at r' = None ->
    write us m (<[k := r']> m)
| write_updated k r0 r' :
    m !! k = Some r0 ->
    status r0 = draft ->
    travel_request_constraints us r' = true ->
    status r' = draft ->
    user_id r' = user_id r0 ->
    approval_comments r' = approval_comments r0 ->
    submitted_at r' = submitted_at r0 ->
    approved_rejected_at r' = approved_rejected_at r0 ->
    write us m (<[k := r']> m)
| write_submitted k r0 t :
    m !! k = Some r0 ->
    status r0 = draft ->
    write us m (<[k := set_columns r0 pending (approval_comments r0) (Some t)
                          (approved_rejected_at r0) t]> m)
| write_approved k r0 comments t :
    m !! k = Some r0 ->
    status r0 = pending ->
    write us m (<[k := set_columns r0 approved (Js.or_null comments) (submitted_at r0)
                          (Some t) t]> m)
| write_rejected k r0 c t :
    m !! k = Some r0 ->
    status r0 = pending ->
    comments_missing (Some c) = false ->
    write us m (<[k := set_columns r0 rejected (Some c) (submitted_at r0) (Some t) t]> m)
| write_cancelled k r0 t :
    m !! k = Some r0 ->
    status r0 = pending ->
    write us m (<[k := set_columns r0 cancelled (approval_comments r0) (submitted_at r0)
                          (approved_rejected_at r0) t]> m)
| write_deleted k r0 :
    m !! k = Some r0 ->
    status r0 = draft ->
    write us m (delete k m).

(** Every stored request has a positive budget and does not return
    before it leaves. *)
Definition rows_checked (s : Store) : Prop :=
  forall id r, travel_requests s !! id = Some r ->
    0 < estimated_budget r /\ departure_date r <= return_date r.

(** Every rejected request carries comments that are not blank. *)
Definition rejections_explained (s : Store) : Prop :=
  forall id r, travel_requests s !! id = Some r -> status r = rejected ->
    exists c, approval_comments r = Some c /\ Js.trim c <> "".

(** The two workflow timestamps agree with the status: [submitted_at] is
    missing exactly on drafts, [approved_rejected_at] is set exactly on
    approved and rejected requests. *)
Definition stamped (r : TravelRequest) : Prop :=
  (submitted_at r = None <-> status r = draft)
  /\ (is_Some (approved_rejected_at r) <-> status r = approved \/ status r = rejected).

Definition timestamps_consistent (s : Store) : Prop :=
  forall id r, travel_requests s !! id = Some r -> stamped r.

(** The requester and the approver of every request are users. *)
Definition parties_exist (s : Store) : Prop :=
  forall id r, travel_requests s !! id = Some r ->
    is_Some (users s !! user_id r) /\ is_Some (users s !! approver_id r).

(** The state a call of the workflow needs the request in, and the error
    it answers otherwise. *)
Definition required_status (c : ApiCall) : option (TravelRequestStatus * ErrorKind) :=
  match c with
  | CallUpdate _ _ => Some (draft, CANNOT_UPDATE_SUBMITTED)
  | CallSubmit _ => Some (draft, CANNOT_SUBMIT)
  | CallDelete _ => Some (draft, CANNOT_DELETE)
  | CallApprove _ _ => Some (pending, CANNOT_APPROVE)
  | CallReject _ _ => Some (pending, CANNOT_REJECT)
  | CallCancel _ => Some (pending, CANNOT_CANCEL)
  | CallCreate _ _ | CallUpdateUser _ _ => None
  end.

(** The calls reserved to the requester, and the ones reserved to the
    approver and the admins. *)
Definition owner_call (c : ApiCall) : bool :=
  match c with
  | CallUpdate _ _ | CallSubmit _ | CallCancel _ | CallDelete _ => true
  | _ => false
  end.

Definition decision_call (c : ApiCall) : bool :=
  match c with
  | CallApprove _ _ => true
  | CallReject _ comments => negb (comments_missing comments)
  | _ => false
  end.

(** The caller passes the authorization check of the call on the
    request. *)
Definition may (actor : Actor) (c : ApiCall) (r : TravelRequest) : bool :=
  if owner_call c then String.eqb (user_id r) (userId actor)
  else String.eqb (approver_id r) (userId actor) || bool_decide (actor_role actor = admin).

(** The text is a run of [email_char]s that is not empty. *)
Definition email_part (s : string) : Prop := s <> "" /\ all_email_chars s = true.


(** The calls whose notification prints the budget: a creation with
    [submit=true], a submission and an approval. *)
Definition notifies_with_budget (c : ApiCall) : bool :=
  match c with
  | CallCreate _ true | CallSubmit _ | CallApprove _ _ => true
  | _ => false
  end.

(** Every key of the two tables is a UUID as PostgreSQL prints it. *)
Definition well_keyed (s : Store) : Prop :=
  map_Forall (fun k _ => canonical_uuid k = true) (users s)
  /\ map_Forall (fun k _ => canonical_uuid k = true) (travel_requests s).

(** * Properties *)

(** ** Notifications leave users and requests alone *)

Lemma logNotification_travel_requests env requestId to ty st err s :
  travel_requests (logNotification env requestId to ty st err s) = travel_requests s.
Proof. unfold logNotification. by destruct (travel_requests s !! requestId). Qed.

Lemma sendEmail_travel_requests env to requestId ty s :
  travel_requests (sendEmail env to requestId ty s).1 = travel_requests s.
Proof.
  unfold sendEmail. destruct (sendMail_error env); simpl;
    apply logNotification_travel_requests.
Qed.

#[local] Hint Constructors sender : core.

Lemma notify_travel_requests send requestId s s' :
  sender send -> notify send requestId s = Some s' ->
  travel_requests s' = travel_requests s.
Proof.
  intros Hsend. unfold notify.
  destruct (findTravelRequestWithUsers requestId s) as [[[tr u] a]|]; [|by intros [= <-]].
  destruct Hsend; simpl; intros [= <-]; apply sendEmail_travel_requests.
Qed.

(** ** Statistics *)

Lemma count_status_partition (l : list TravelRequest) :
  (length l =
   count_status draft l + count_status pending l + count_status approved l
   + count_status rejected l + count_status cancelled l)%nat.
Proof.
  unfold count_status.
  induction l as [|r l IH]; [done|].
  rewrite !filter_cons.
  destruct (status r); repeat case_decide; try congruence; simpl; lia.
Qed.

(** C10. Whatever the database holds and whether or not the counts are
    restricted to one user, the total reported by [countTravelRequests]
    is the sum of the five counts by status. *)
Theorem countTravelRequests_total (userId : option string) (s : Store) :
  let stats := countTravelRequests userId s in
  (total stats =
   n_draft stats + n_pending stats + n_approved stats + n_rejected stats
   + n_cancelled stats)%nat.
Proof.
  unfold countTravelRequests; simpl.
  apply count_status_partition.
Qed.

(** ** Rejection needs comments *)

Lemma trimStart_whitespace_only (c : string) :
  Js.whitespace_only c = true -> Js.trimStart c = "".
Proof.
  induction c as [|a c IH]; simpl; [done|].
  intros [Ha Hc]%andb_true_iff. rewrite Ha. auto.
Qed.

Lemma trim_whitespace_only (c : string) :
  Js.whitespace_only c = true -> Js.trim c = "".
Proof. intros H. unfold Js.trim. by rewrite trimStart_whitespace_only. Qed.

Lemma comments_missing_blank (comments : option string) :
  blank comments -> comments_missing comments = true.
Proof.
  unfold comments_missing.
  intros [-> | [-> | (c & -> & Hc)]]; [done | done |].
  simpl. rewrite (trim_whitespace_only c Hc). apply orb_true_r.
Qed.

(** C6. A reject call whose comments are absent, empty or made of white
    space only is answered 400 [COMMENTS_REQUIRED], whoever the caller is
    and whatever the request, and the database is left exactly as it
    was. *)
Theorem rejectRequest_comments_required
    (env : Env) (actor : Actor) (id : string) (comments : option string) (s : Store) :
  blank comments ->
  rejectRequest env actor id comments s =
  (s, Failure 400 "Comments are required when rejecting a request" COMMENTS_REQUIRED).
Proof.
  intros H. unfold rejectRequest. by rewrite comments_missing_blank.
Qed.

(** Scenario C: an administrator rejects a pending request with blank
    comments. *)
Lemma rejectRequest_comments_required_witness :
  rejectRequest (Demo.env_at 1736200000000) (Demo.as_actor Demo.carol) Demo.request_id
    (Some "   ") (Demo.db_with pending) =
  (Demo.db_with pending,
   Failure 400 "Comments are required when rejecting a request" COMMENTS_REQUIRED).
Proof.
  apply rejectRequest_comments_required.
  right; right. exists "   ". split; reflexivity.
Defined.

(** ** Look-ups by owner and approver *)

Lemma isRequestOwner_true (id : string) (r : TravelRequest) (actor : Actor) (s : Store) :
  travel_requests s !! id = Some r -> user_id r = userId actor ->
  isRequestOwner id (userId actor) s = true.
Proof. intros Hr Ho. unfold isRequestOwner. rewrite Hr, Ho. apply String.eqb_refl. Qed.

Lemma transition_other_status from f id r s :
  travel_requests s !! id = Some r -> status r <> from ->
  transition from f id s = (s, None).
Proof. intros Hr Hne. unfold transition. rewrite Hr. by case_decide. Qed.

(** ** Deleting *)

(** C9. For a request addressed by its owner, the delete succeeds exactly
    when the request is a draft: a draft is removed, so that the store no
    longer returns it by id, and in any other status the call is answered
    400 [CANNOT_DELETE] and the database, the record included, is left as
    it was. *)
Theorem deleteRequest_draft_only
    (actor : Actor) (id : string) (r : TravelRequest) (s : Store) :
  travel_requests s !! id = Some r ->
  user_id r = userId actor ->
  (status r = draft ->
   exists s',
     deleteRequest actor id s =
       (s', Success 200 "Travel request deleted successfully" (DataDeleted id true))
     /\ findTravelRequestById id s' = None)
  /\ (status r <> draft ->
      deleteRequest actor id s =
        (s, Failure 400 "Request not found or not a draft" CANNOT_DELETE)
      /\ findTravelRequestById id s = Some r).
Proof.
  intros Hr Ho. unfold deleteRequest, deleteTravelRequest, findTravelRequestById.
  rewrite (isRequestOwner_true id r actor s Hr Ho); simpl. rewrite Hr.
  split; intros Hst.
  - rewrite Hst. eexists; split; [reflexivity|]. simpl. apply lookup_delete_eq.
  - destruct (status r); done.
Qed.

(** Scenario D: Alice deletes her draft, and fails to delete it once it
    is pending. *)
Lemma deleteRequest_draft_only_witness :
  (exists s',
     deleteRequest (Demo.as_actor Demo.alice) Demo.request_id (Demo.db_with draft) =
       (s', Success 200 "Travel request deleted successfully"
              (DataDeleted Demo.request_id true))
     /\ findTravelRequestById Demo.request_id s' = None)
  /\ deleteRequest (Demo.as_actor Demo.alice) Demo.request_id (Demo.db_with pending) =
       (Demo.db_with pending,
        Failure 400 "Request not found or not a draft" CANNOT_DELETE).
Proof.
  split.
  - apply (deleteRequest_draft_only (Demo.as_actor Demo.alice) Demo.request_id
             (Demo.trip draft) (Demo.db_with draft)); reflexivity.
  - apply (deleteRequest_draft_only (Demo.as_actor Demo.alice) Demo.request_id
             (Demo.trip pending) (Demo.db_with pending)); [reflexivity | reflexivity | discriminate].
Defined.

(** ** Submitting *)

Lemma notify_submission env id s :
  notify (sendSubmissionNotification env) id s =
  match findTravelRequestWithUsers id s with Some _ => None | None => Some s end.
Proof.
  unfold notify. by destruct (findTravelRequestWithUsers id s) as [[[tr u] a]|].
Qed.

Lemma notify_approval env id s :
  notify (sendApprovalNotification env) id s =
  match findTravelRequestWithUsers id s with Some _ => None | None => Some s end.
Proof.
  unfold notify. by destruct (findTravelRequestWithUsers id s) as [[[tr u] a]|].
Qed.

(** C7. Submitting a draft as its owner makes it pending and sets
    [submitted_at] to the time of the call, the rest of the row and of the
    database being left alone; submitting it again at once is answered 400
    [CANNOT_SUBMIT] and leaves the database as the first submission left
    it, so the request stays pending with the [submitted_at] it had.  (The
    first call commits the row before it notifies: when the requester and
    the approver are stored, so that there is somebody to notify, its
    answer is 500 [SERVER_ERROR], the notification having thrown.) *)
Theorem submitRequest_twice
    (env1 env2 : Env) (actor : Actor) (id : string) (r : TravelRequest) (s : Store) :
  travel_requests s !! id = Some r ->
  status r = draft ->
  user_id r = userId actor ->
  let r1 := set_columns r pending (approval_comments r) (Some (now env1))
              (approved_rejected_at r) (now env1) in
  let s1 := set_travel_requests s (<[id := r1]> (travel_requests s)) in
  (submitRequest env1 actor id s).1 = s1
  /\ travel_requests s1 !! id = Some r1
  /\ status r1 = pending
  /\ submitted_at r1 = Some (now env1)
  /\ submitRequest env2 actor id s1 =
       (s1, Failure 400 "Request not found or not a draft" CANNOT_SUBMIT)
  /\ (is_Some (users s !! user_id r) -> is_Some (users s !! approver_id r) ->
      (submitRequest env1 actor id s).2 =
      Failure 500 "Failed to submit travel request" SERVER_ERROR).
Proof.
  intros Hr Hst Ho r1 s1.
  assert (Hr1 : travel_requests s1 !! id = Some r1) by apply lookup_insert_eq.
  assert (Hcall : submitRequest env1 actor id s =
                  (s1, match findTravelRequestWithUsers id s1 with
                       | Some _ => Failure 500 "Failed to submit travel request" SERVER_ERROR
                       | None => Success 200 "Travel request submitted successfully"
                                   (DataRequest r1)
                       end)).
  { unfold submitRequest.
    rewrite (isRequestOwner_true id r actor s Hr Ho); simpl.
    unfold submitDraftRequest, transition. rewrite Hr.
    destruct (decide (status r = draft)) as [_|]; [|done].
    fold r1. fold s1. rewrite notify_submission.
    by destruct (findTravelRequestWithUsers id s1). }
  rewrite Hcall. simpl. repeat split; [exact Hr1| |].
  - unfold submitRequest.
    rewrite (isRequestOwner_true id r1 actor _ Hr1 Ho); simpl.
    unfold submitDraftRequest.
    by rewrite (transition_other_status draft _ id r1 _ Hr1).
  - intros [u Hu] [a Ha]. unfold findTravelRequestWithUsers.
    rewrite Hr1. simpl. by rewrite Hu, Ha.
Qed.

(** Alice submits her draft twice. *)
Lemma submitRequest_twice_witness :
  exists s1 r1,
    submitRequest (Demo.env_at 1736000000000) (Demo.as_actor Demo.alice)
      Demo.request_id (Demo.db_with draft) =
      (s1, Failure 500 "Failed to submit travel request" SERVER_ERROR)
    /\ travel_requests s1 !! Demo.request_id = Some r1
    /\ status r1 = pending
    /\ submitted_at r1 = Some 1736000000000
    /\ submitRequest (Demo.env_at 1736000060000) (Demo.as_actor Demo.alice)
         Demo.request_id s1 =
         (s1, Failure 400 "Request not found or not a draft" CANNOT_SUBMIT).
Proof.
  destruct (submitRequest_twice (Demo.env_at 1736000000000) (Demo.env_at 1736000060000)
              (Demo.as_actor Demo.alice) Demo.request_id (Demo.trip draft)
              (Demo.db_with draft) eq_refl eq_refl eq_refl)
    as (Hs1 & Hr1 & Hst & Hsub & Hagain & Hresp).
  eexists. eexists. split; [|split; [exact Hr1|split; [exact Hst|split; [exact Hsub|exact Hagain]]]].
  apply injective_projections; [exact Hs1|].
  apply Hresp; by eexists.
Defined.

(** ** Updating a draft *)

Section Update.

Context {rt : Runtime}.




End Update.


(** ** Creating: the order of the checks *)

Section Create.

Context {rt : Runtime}.

Lemma find_required_present (requestData : CreateTravelRequestData) :
  required_present requestData = true ->
  List.find (fun field => negb (field_truthy requestData field)) requiredFields = None.
Proof.
  unfold required_present. generalize requiredFields.
  induction l as [|f l IH]; simpl; [done|].
  intros [Hf Hl]%andb_true_iff. rewrite Hf; simpl. auto.
Qed.

(** The first required field that is absent or falsy is reported, before
    any other check. *)
Lemma createRequest_missing_field env actor requestData shouldSubmit s field :
  List.find (fun field => negb (field_truthy requestData field)) requiredFields = Some field ->
  createRequest env actor requestData shouldSubmit s =
  (s, Failure 400 ("Missing required field: " +:+ field) MISSING_FIELD).
Proof. intros H. unfold createRequest. by rewrite H. Qed.

(** With the required fields present, the date range comes first. *)
Lemma createRequest_invalid_date_range env actor requestData shouldSubmit s :
  required_present requestData = true ->
  isValidDateRange (default "" (c_departure_date requestData))
                   (default "" (c_return_date requestData)) = false ->
  createRequest env actor requestData shouldSubmit s =
  (s, Failure 400 "Return date must be on or after departure date" INVALID_DATE_RANGE).
Proof.
  intros Hreq Hd. unfold createRequest.
  by rewrite (find_required_present _ Hreq), Hd.
Qed.

(** Then the budget: a negative one is refused as [INVALID_BUDGET]. *)
Lemma createRequest_invalid_budget env actor requestData shouldSubmit s :
  required_present requestData = true ->
  isValidDateRange (default "" (c_departure_date requestData))
                   (default "" (c_return_date requestData)) = true ->
  Qle_bool (default 0%Q (c_estimated_budget requestData)) 0 = true ->
  createRequest env actor requestData shouldSubmit s =
  (s, Failure 400 "Estimated budget must be greater than zero" INVALID_BUDGET).
Proof.
  intros Hreq Hd Hb. unfold createRequest.
  by rewrite (find_required_present _ Hreq), Hd, Hb.
Qed.

(** Then self-approval. *)
Lemma createRequest_cannot_self_approve env actor requestData shouldSubmit s :
  required_present requestData = true ->
  isValidDateRange (default "" (c_departure_date requestData))
                   (default "" (c_return_date requestData)) = true ->
  Qle_bool (default 0%Q (c_estimated_budget requestData)) 0 = false ->
  c_approver_id requestData = Some (userId actor) ->
  createRequest env actor requestData shouldSubmit s =
  (s, Failure 400 "You cannot approve your own travel request" CANNOT_SELF_APPROVE).
Proof.
  intros Hreq Hd Hb Ha. unfold createRequest.
  rewrite (find_required_present _ Hreq), Hd, Hb, Ha. simpl.
  by rewrite String.eqb_refl.
Qed.

(** Then the approver: found, active, and of a deciding role. *)
Lemma createRequest_approver_checks env actor requestData shouldSubmit s a :
  required_present requestData = true ->
  isValidDateRange (default "" (c_departure_date requestData))
                   (default "" (c_return_date requestData)) = true ->
  Qle_bool (default 0%Q (c_estimated_budget requestData)) 0 = false ->
  c_approver_id requestData = Some a ->
  a <> userId actor ->
  match users s !! a with
  | None =>
      createRequest env actor requestData shouldSubmit s =
      (s, Failure 404 "Selected approver not found" APPROVER_NOT_FOUND)
  | Some u =>
      (is_active u = false ->
       createRequest env actor requestData shouldSubmit s =
       (s, Failure 400 "Selected approver is not active" APPROVER_INACTIVE))
      /\ (is_active u = true -> role u = user ->
          createRequest env actor requestData shouldSubmit s =
          (s, Failure 400 "Selected user is not an approver" NOT_AN_APPROVER))
  end.
Proof.
  intros Hreq Hd Hb Ha Hne. unfold createRequest, findUserById.
  rewrite (find_required_present _ Hreq), Hd, Hb, Ha. simpl.
  apply String.eqb_neq in Hne. rewrite Hne.
  destruct (users s !! a) as [u|]; [|done].
  split.
  - by intros ->.
  - by intros -> ->.
Qed.

(** A budget of zero never gets as far as the budget check: the
    required-field loop takes it for a missing field. *)
Lemma createRequest_budget_zero_is_missing env actor requestData shouldSubmit s b :
  c_estimated_budget requestData = Some b ->
  Qeq_bool b 0 = true ->
  exists field,
    createRequest env actor requestData shouldSubmit s =
    (s, Failure 400 ("Missing required field: " +:+ field) MISSING_FIELD).
Proof.
  intros Hb Hz. unfold createRequest.
  destruct (List.find _ requiredFields) as [field|] eqn:Hfind; [by eexists|].
  exfalso.
  assert (Hin : In "estimated_budget" requiredFields) by (simpl; tauto).
  apply (find_none _ _ Hfind) in Hin.
  apply negb_false_iff in Hin. unfold field_truthy in Hin. simpl in Hin.
  rewrite Hb in Hin. simpl in Hin. unfold Js.truthy_number in Hin.
  rewrite Hz in Hin. discriminate.
Qed.

End Create.

(** C1, at the input where the code departs from it.  Alice's request of
    scenario A with an estimated budget of 0, every other field valid and
    Bob an active approver: the budget is present and not positive, yet
    the call is answered 400 [MISSING_FIELD] for [estimated_budget], not
    [INVALID_BUDGET], while a negative budget is answered
    [INVALID_BUDGET]. *)
Theorem createRequest_zero_budget :
  @createRequest IsoRuntime.runtime (Demo.env_at 1736000000000) (Demo.as_actor Demo.alice)
    (Demo.trip_data 0%Q) false Demo.empty_db =
  (Demo.empty_db, Failure 400 "Missing required field: estimated_budget" MISSING_FIELD)
  /\ @createRequest IsoRuntime.runtime (Demo.env_at 1736000000000) (Demo.as_actor Demo.alice)
       (Demo.trip_data (-1)%Q) false Demo.empty_db =
     (Demo.empty_db, Failure 400 "Estimated budget must be greater than zero" INVALID_BUDGET).
Proof. split; reflexivity. Qed.

(** ** Logging in *)

Section Login.

Context {rt : Runtime}.

(** For an account that is active, a wrong password and an unknown e-mail
    get the same response. *)
Lemma login_wrong_password_active (e1 e2 password : string) (u : User) (s : Store) :
  Js.truthy_string password = true ->
  isValidEmail e1 = true -> isValidEmail e2 = true ->
  findUserByEmail e1 s = None ->
  findUserByEmail e2 s = Some u ->
  is_active u = true ->
  bcrypt_compare password (password_hash u) = false ->
  login {| l_email := Some e1; l_password := Some password |} s =
  login {| l_email := Some e2; l_password := Some password |} s.
Proof.
  intros Hp H1 H2 Hn Hu Ha Hc. unfold login; simpl.
  assert (Js.truthy_string e1 = true) as -> by (by destruct e1).
  assert (Js.truthy_string e2 = true) as -> by (by destruct e2).
  rewrite Hp, H1, H2, Hn, Hu, Ha, Hc. reflexivity.
Qed.

End Login.

(** C4, at the input where the code departs from it.  With the same wrong
    password, the login on an e-mail that is not registered is answered
    401 [INVALID_CREDENTIALS], and the login on the e-mail of Dave's
    account, which is registered and deactivated, is answered 401
    [ACCOUNT_DEACTIVATED]: the two responses differ. *)
Theorem login_deactivated_reveals_account :
  findUserByEmail "erin@company.com" Demo.empty_db = None
  /\ findUserByEmail "dave@company.com" Demo.empty_db = Some Demo.dave
  /\ @bcrypt_compare IsoRuntime.runtime "guess" (password_hash Demo.dave) = false
  /\ @login IsoRuntime.runtime
       {| l_email := Some "erin@company.com"; l_password := Some "guess" |} Demo.empty_db =
     Failure 401 "Invalid email or password" INVALID_CREDENTIALS
  /\ @login IsoRuntime.runtime
       {| l_email := Some "dave@company.com"; l_password := Some "guess" |} Demo.empty_db =
     Failure 401 "Account is deactivated. Contact administrator." ACCOUNT_DEACTIVATED.
Proof. repeat split; vm_compute; reflexivity. Qed.

(** ** Updating one's own account *)

Lemma updateUser_is_active env id body s o s1 :
  u_is_active body = None ->
  updateUser env id body s = Returned o s1 ->
  is_active <$> users s1 !! id = is_active <$> users s !! id.
Proof.
  intros Hact. unfold updateUser, findUserById.
  destruct (no_user_fields body); [by intros [= _ <-]|].
  destruct (users s !! id) as [u|] eqn:Hu; [|intros [= _ <-]; by rewrite Hu].
  unfold updated_user. destruct (assign role_of_string _ _) as [role'|]; simpl; [|done].
  destruct (email_taken_by_other _ _ _); [done|].
  intros [= _ <-]. simpl. rewrite lookup_insert_eq. simpl. by rewrite Hact.
Qed.

Lemma updateUser_names_only env id body s o s1 :
  updateUser env id (names_only body) s = Returned o s1 ->
  (fun u => (uid u, email u, password_hash u, role u, is_active u, created_at u))
    <$> users s1 !! id
  = (fun u => (uid u, email u, password_hash u, role u, is_active u, created_at u))
      <$> users s !! id.
Proof.
  unfold updateUser, findUserById.
  destruct (no_user_fields _); [by intros [= _ <-]|].
  destruct (users s !! id) as [u|] eqn:Hu; [|intros [= _ <-]; by rewrite Hu].
  unfold updated_user. simpl.
  destruct (email_taken_by_other _ _ _); [done|].
  intros [= _ <-]. simpl. by rewrite lookup_insert_eq.
Qed.

(** C5, as the code has it.  Take an actor who updates the record whose
    id is, as a text, the [userId] of their token, with [is_active] set to
    false.  If the actor is an admin, the call is refused and the database
    is left as it was, the refusal being 400 [CANNOT_DEACTIVATE_SELF] when
    the record exists and the e-mail and the role given, if any, pass
    their checks.  If the actor is not an admin, [is_active] is dropped
    from the update with every field but the two names: the call is the
    call with the body reduced to [first_name] and [last_name], the
    response is never [CANNOT_DEACTIVATE_SELF], and the stored
    [is_active], e-mail, role and password hash of the record are what
    they were. *)
Theorem updateUserById_self_deactivate
    (env : Env) (actor : Actor) (body : UserUpdateData) (s : Store) :
  u_is_active body = Some false ->
  (actor_role actor = admin ->
   (updateUserById env actor (userId actor) body s).1 = s
   /\ (exists code message e,
         (updateUserById env actor (userId actor) body s).2 = Failure code message e)
   /\ (is_Some (users s !! userId actor) ->
       passes_user_checks (userId actor) body s = true ->
       (updateUserById env actor (userId actor) body s).2 =
       Failure 400 "Cannot deactivate your own account" CANNOT_DEACTIVATE_SELF))
  /\ (actor_role actor <> admin ->
      error_of (updateUserById env actor (userId actor) body s).2
        <> Some CANNOT_DEACTIVATE_SELF
      /\ is_active <$> users (updateUserById env actor (userId actor) body s).1 !! userId actor
         = is_active <$> users s !! userId actor
      /\ updateUserById env actor (userId actor) body s
         = updateUserById env actor (userId actor) (names_only body) s
      /\ (fun u => (uid u, email u, password_hash u, role u, is_active u, created_at u))
           <$> users (updateUserById env actor (userId actor) body s).1 !! userId actor
         = (fun u => (uid u, email u, password_hash u, role u, is_active u, created_at u))
             <$> users s !! userId actor).
Proof.
  intros Hact. unfold updateUserById, findUserById, passes_user_checks.
  rewrite String.eqb_refl. split; intros Hrole.
  - rewrite Hrole. rewrite bool_decide_eq_true_2 by done.
    change (negb true) with false. cbv iota.
    rewrite Hact. rewrite (bool_decide_eq_true_2 (Some false = Some false)) by done.
    destruct (users s !! userId actor) as [u|]; [|simpl].
    + cbv zeta. cbv iota.
      set (eg := Js.truthy_opt Js.truthy_string (u_email body)).
      set (valid := isValidEmail _). set (ex := emailExists _ _ _).
      set (rg := Js.truthy_opt Js.truthy_string (u_role body)).
      set (inl := Js.includes _ _).
      clearbody eg valid ex rg inl.
      destruct eg, valid, ex, rg, inl; simpl;
        (split; [done|]); (split; [by eauto|]); by intros _ ?.
    + split; [done|]. split; [by eauto|]. by intros [? [=]].
  - rewrite bool_decide_eq_false_2 by done. simpl.
    destruct (users s !! userId actor) as [u|] eqn:Hu; simpl; [|by rewrite Hu].
    change (names_only (names_only body)) with (names_only body).
    destruct (updateUser env (userId actor) (names_only body) s) as [[u'|] s1|] eqn:Hup;
      simpl; (split; [done|]).
    + rewrite (updateUser_is_active env _ (names_only body) s _ s1 eq_refl Hup).
      rewrite (updateUser_names_only env _ body s _ s1 Hup).
      by rewrite Hu.
    + rewrite (updateUser_is_active env _ (names_only body) s _ s1 eq_refl Hup).
      rewrite (updateUser_names_only env _ body s _ s1 Hup).
      by rewrite Hu.
    + by rewrite Hu.
Qed.

(** Carol, an administrator, tries to deactivate her own account. *)
Lemma updateUserById_self_deactivate_witness :
  updateUserById (Demo.env_at 1736000000000) (Demo.as_actor Demo.carol) Demo.carol_id
    {| u_email := None; u_first_name := None; u_last_name := None; u_role := None;
       u_is_active := Some false |} Demo.empty_db =
  (Demo.empty_db, Failure 400 "Cannot deactivate your own account" CANNOT_DEACTIVATE_SELF).
Proof.
  pose proof (updateUserById_self_deactivate (Demo.env_at 1736000000000)
                (Demo.as_actor Demo.carol)
                {| u_email := None; u_first_name := None; u_last_name := None;
                   u_role := None; u_is_active := Some false |}
                Demo.empty_db eq_refl) as [Hadmin _].
  destruct (Hadmin eq_refl) as (Hs & _ & Hresp).
  apply injective_projections; simpl.
  - exact Hs.
  - apply Hresp; [by eexists | reflexivity].
Defined.

(** C5 as stated does not hold: Alice, who is not an admin, updates her
    own record with [is_active] set to false and is answered 200, the flag
    being ignored. *)
Lemma updateUserById_self_deactivate_counterexample :
  ~ (forall (env : Env) (actor : Actor) (body : UserUpdateData) (s : Store),
       u_is_active body = Some false ->
       error_of (updateUserById env actor (userId actor) body s).2
       = Some CANNOT_DEACTIVATE_SELF).
Proof.
  intros H.
  specialize (H (Demo.env_at 1736000000000) (Demo.as_actor Demo.alice)
                {| u_email := None; u_first_name := None; u_last_name := None;
                   u_role := None; u_is_active := Some false |}
                Demo.empty_db eq_refl).
  vm_compute in H. discriminate H.
Qed.

(** ** What a call does to the table of requests *)

Section Effects.

Context {rt : Runtime}.

#[local] Hint Constructors effect : core.

Lemma createTravelRequest_effect env userId requestData isDraft s row s1 :
  createTravelRequest env userId requestData isDraft s = Returned row s1 ->
  effect (travel_requests s) (travel_requests s1).
Proof.
  unfold createTravelRequest.
  destruct (c_approver_id requestData), (c_destination requestData),
    (c_departure_date requestData ≫= pg_date_in),
    (c_return_date requestData ≫= pg_date_in),
    (c_purpose requestData), (c_estimated_budget requestData ≫= numeric_10_2);
    try discriminate.
  destruct (travel_requests s !! gen_random_uuid env) eqn:Hfresh; [discriminate|].
  destruct (travel_request_constraints _ _) eqn:Hck; [|discriminate].
  intros [= _ <-]. simpl.
  apply effect_insert; [done|].
  unfold travel_request_constraints in Hck.
  by apply andb_true_iff in Hck as [_ Hck].
Qed.

Lemma updated_row_user_id env updateData r r' :
  updated_row env updateData r = Some r' -> user_id r' = user_id r.
Proof.
  unfold updated_row.
  destruct (assign pg_date_in (p_departure_date updateData) _); simpl; [|done].
  destruct (assign pg_date_in (p_return_date updateData) _); simpl; [|done].
  destruct (assign numeric_10_2 _ _); simpl; [|done].
  by intros [= <-].
Qed.

Lemma updateTravelRequest_effect env id updateData s o s1 :
  updateTravelRequest env id updateData s = Returned o s1 ->
  effect (travel_requests s) (travel_requests s1).
Proof.
  unfold updateTravelRequest.
  destruct (no_fields updateData); [by intros [= _ <-]|].
  destruct (travel_requests s !! id) as [r|] eqn:Hr; [|by intros [= _ <-]].
  destruct (status r) eqn:Hst; try by intros [= _ <-].
  destruct (updated_row env updateData r) as [r'|] eqn:Hrow; [|done].
  destruct (travel_request_constraints _ _) eqn:Hck; [|done].
  intros [= _ <-]. simpl.
  apply (effect_rewrite _ id r r'); [done | by rewrite Hst | |].
  - by apply (updated_row_user_id env updateData).
  - right. unfold travel_request_constraints in Hck.
    by apply andb_true_iff in Hck as [_ Hck].
Qed.

Lemma transition_effect from f id s :
  terminal from = false ->
  (forall r, user_id (f r) = user_id r /\ approver_id (f r) = approver_id r) ->
  effect (travel_requests s) (travel_requests (transition from f id s).1).
Proof.
  intros Hfrom Hf. unfold transition.
  destruct (travel_requests s !! id) as [r|] eqn:Hr; [|done].
  case_decide as Hst; [|done]. simpl.
  apply (effect_rewrite _ id r (f r)); [done | by rewrite Hst | apply Hf |].
  left. apply Hf.
Qed.

Lemma deleteTravelRequest_effect id s :
  effect (travel_requests s) (travel_requests (deleteTravelRequest id s).1).
Proof.
  unfold deleteTravelRequest.
  destruct (travel_requests s !! id) as [r|] eqn:Hr; [|done].
  destruct (status r) eqn:Hst; simpl; eauto.
Qed.

Lemma updateUser_travel_requests env id body s o s1 :
  updateUser env id body s = Returned o s1 -> travel_requests s1 = travel_requests s.
Proof.
  unfold updateUser.
  destruct (no_user_fields body); [by intros [= _ <-]|].
  destruct (users s !! id); [|by intros [= _ <-]].
  destruct (updated_user env body u); [|done].
  destruct (email_taken_by_other _ _ _); [done|].
  by intros [= _ <-].
Qed.

Lemma createRequest_effect env actor requestData shouldSubmit s :
  effect (travel_requests s)
         (travel_requests (createRequest env actor requestData shouldSubmit s).1).
Proof.
  unfold createRequest.
  repeat (case_match; simpl; try done).
  all: simplify_eq.
  all: try match goal with
           | H : notify ?send ?i ?s1 = Some _ |- _ =>
               rewrite (notify_travel_requests send i s1 _ ltac:(constructor) H)
           end.
  all: by eapply createTravelRequest_effect.
Qed.

Lemma updateRequest_effect env actor id updateData s :
  effect (travel_requests s) (travel_requests (updateRequest env actor id updateData s).1).
Proof.
  unfold updateRequest.
  repeat (case_match; simpl; try done).
  all: by eapply updateTravelRequest_effect.
Qed.

(** The step the four workflow handlers share: the guarded UPDATE, then
    the notification when a row was matched. *)
Ltac workflow_step :=
  match goal with
  | |- context [transition ?from ?f ?id ?s] =>
      let He := fresh "He" in
      pose proof (transition_effect from f id s eq_refl
                    (fun r => conj eq_refl eq_refl)) as He;
      destruct (transition from f id s) as [? [?|]]; simpl in *;
      [match goal with
       | |- context [notify ?send ?i ?s1] =>
           let Hn := fresh "Hn" in
           destruct (notify send i s1) as [?|] eqn:Hn; simpl;
           [rewrite (notify_travel_requests send i s1 _ ltac:(constructor) Hn)|]
       end|]; exact He
  end.

(** Whatever the call, the caller and the surroundings, the table of
    requests changes in one of the four ways of [effect]. *)
Lemma handle_effect env actor c s :
  effect (travel_requests s) (travel_requests (handle env actor c s).1).
Proof.
  destruct c as [requestData shouldSubmit | id updateData | id | id comments
                | id comments | id | id | id body]; simpl.
  - apply createRequest_effect.
  - apply updateRequest_effect.
  - unfold submitRequest, submitDraftRequest. case_match; simpl; [done|].
    workflow_step.
  - unfold approveRequest, approveTravelRequest. case_match; simpl; [done|].
    workflow_step.
  - unfold rejectRequest, rejectTravelRequest.
    case_match; simpl; [done|]. case_match; simpl; [done|].
    workflow_step.
  - unfold cancelRequest, cancelTravelRequest. case_match; simpl; [done|].
    workflow_step.
  - unfold deleteRequest. case_match; simpl; [done|].
    pose proof (deleteTravelRequest_effect id s) as He.
    by destruct (deleteTravelRequest id s) as [s1 [|]].
  - unfold updateUserById.
    repeat (case_match; simpl; try done).
    all: match goal with
         | H : updateUser _ _ _ _ = Returned _ _ |- _ =>
             rewrite (updateUser_travel_requests _ _ _ _ _ _ H)
         end; done.
Qed.

End Effects.

(** ** No self-approval *)

Lemma effect_no_self_approval (m m' : gmap string TravelRequest) :
  effect m m' ->
  (forall id r, m !! id = Some r -> user_id r <> approver_id r) ->
  forall id r, m' !! id = Some r -> user_id r <> approver_id r.
Proof.
  intros He Hm id r.
  destruct He as [| k r' Hk Hck | k r0 r' Hk Hst Hu Ha | k r0 Hk Hst].
  - apply Hm.
  - destruct (decide (k = id)) as [->|Hne].
    + rewrite lookup_insert_eq. intros [= <-].
      unfold check_approver_not_self in Hck.
      by apply negb_true_iff, String.eqb_neq in Hck.
    + rewrite lookup_insert_ne by done. apply Hm.
  - destruct (decide (k = id)) as [->|Hne].
    + rewrite lookup_insert_eq. intros [= <-].
      destruct Ha as [Ha | Hck].
      * rewrite Hu, Ha. by apply (Hm id).
      * unfold check_approver_not_self in Hck.
        by apply negb_true_iff, String.eqb_neq in Hck.
    + rewrite lookup_insert_ne by done. apply Hm.
  - destruct (decide (k = id)) as [->|Hne].
    + by rewrite lookup_delete_eq.
    + rewrite lookup_delete_ne by done. apply Hm.
Qed.

Section Invariants.

Context {rt : Runtime}.

(** One call keeps the invariant. *)
Lemma handle_no_self_approval env actor c s :
  no_self_approval s -> no_self_approval (handle env actor c s).1.
Proof.
  unfold no_self_approval. apply effect_no_self_approval, handle_effect.
Qed.

(** C2. If no request of the database has its requester as approver,
    none has after any sequence of calls of the API, by any callers:
    a request gets through creation only with an approver other than its
    requester, and no later call, the update of a draft's [approver_id]
    included, makes the two the same. *)
Theorem run_no_self_approval (calls : list (Env * Actor * ApiCall)) (s : Store) :
  no_self_approval s -> no_self_approval (run calls s).
Proof.
  revert s. induction calls as [|[[env actor] c] calls IH]; intros s Hs; simpl; [done|].
  apply IH, handle_no_self_approval, Hs.
Qed.

(** ** Terminal states *)

Lemma effect_terminal (m m' : gmap string TravelRequest) id r :
  effect m m' -> m !! id = Some r -> terminal (status r) = true -> m' !! id = Some r.
Proof.
  intros He Hr Ht.
  destruct He as [| k r' Hk Hck | k r0 r' Hk Hst Hu Ha | k r0 Hk Hst].
  - done.
  - rewrite lookup_insert_ne; [done|]. intros ->. congruence.
  - rewrite lookup_insert_ne; [done|]. intros ->. congruence.
  - rewrite lookup_delete_ne; [done|]. intros ->.
    rewrite Hr in Hk. injection Hk as ->. by rewrite Hst in Ht.
Qed.

Lemma transition_terminal from f id r s :
  travel_requests s !! id = Some r -> terminal (status r) = true -> terminal from = false ->
  transition from f id s = (s, None).
Proof.
  intros Hr Ht Hfrom. apply (transition_other_status from f id r s Hr).
  intros Heq. congruence.
Qed.

(** C3, as the code has it.  Take a request that is approved, rejected or
    cancelled.  No call of the API changes its stored record, whatever the
    call addresses; and an update, submit, approve, reject, cancel or
    delete that addresses it leaves the whole database as it was and is
    refused with a state-conflict error or [FORBIDDEN], or, when it is a
    reject whose comments are missing, with [COMMENTS_REQUIRED]. *)
Theorem terminal_request_is_final
    (env : Env) (actor : Actor) (c : ApiCall) (s : Store) (id : string) (r : TravelRequest) :
  travel_requests s !! id = Some r ->
  terminal (status r) = true ->
  travel_requests (handle env actor c s).1 !! id = Some r
  /\ (target c = Some id ->
      (handle env actor c s).1 = s
      /\ refused_on_terminal c (handle env actor c s).2 = true).
Proof.
  intros Hr Ht. split.
  - by apply (effect_terminal (travel_requests s)); [apply handle_effect| |].
  - destruct c as [requestData shouldSubmit | id' updateData | id' | id' comments
                  | id' comments | id' | id' | id' body]; simpl; try done;
      intros [= ->].
    + unfold updateRequest, findTravelRequestById. rewrite Hr.
      destruct (String.eqb (user_id r) (userId actor)); simpl; [|done].
      rewrite bool_decide_eq_false_2; [done|].
      intros Hd. by rewrite Hd in Ht.
    + unfold submitRequest, submitDraftRequest.
      destruct (isRequestOwner id (userId actor) s); simpl; [|done].
      by rewrite (transition_terminal draft _ id r s Hr Ht).
    + unfold approveRequest, approveTravelRequest.
      destruct (negb (isRequestApprover id (userId actor) s) && _); simpl; [done|].
      by rewrite (transition_terminal pending _ id r s Hr Ht).
    + unfold rejectRequest, rejectTravelRequest.
      destruct (comments_missing comments) eqn:Hc; simpl; [by rewrite Hc|].
      destruct (negb (isRequestApprover id (userId actor) s) && _); simpl; [done|].
      by rewrite (transition_terminal pending _ id r s Hr Ht).
    + unfold cancelRequest, cancelTravelRequest.
      destruct (isRequestOwner id (userId actor) s); simpl; [|done].
      by rewrite (transition_terminal pending _ id r s Hr Ht).
    + unfold deleteRequest, deleteTravelRequest.
      destruct (isRequestOwner id (userId actor) s); simpl; [|done].
      rewrite Hr. by destruct (status r).
Qed.

End Invariants.

(** Alice tries to make herself the approver of her draft, and then to
    create a request she would approve herself. *)
Lemma run_no_self_approval_witness :
  no_self_approval
    (@run IsoRuntime.runtime
       [(Demo.env_at 1736000000000, Demo.as_actor Demo.alice,
         CallUpdate Demo.request_id
           {| p_approver_id := Some Demo.alice_id; p_destination := None;
              p_departure_date := None; p_return_date := None; p_purpose := None;
              p_estimated_budget := None; p_transportation_mode := None;
              p_accommodation_details := None; p_additional_notes := None |});
        (Demo.env_at 1736000060000, Demo.as_actor Demo.bob,
         CallCreate (Demo.trip_data 2500%Q) true)]
       (Demo.db_with draft)).
Proof.
  apply (@run_no_self_approval IsoRuntime.runtime).
  intros id r Hr. unfold Demo.db_with in Hr; simpl in Hr.
  apply lookup_singleton_Some in Hr as [_ <-]. discriminate.
Defined.

(** The update of the first call above is the one the schema stops: the
    controller lets it through and [check_approver_not_self] raises. *)
Example updateRequest_self_approver :
  @updateRequest IsoRuntime.runtime (Demo.env_at 1736000000000) (Demo.as_actor Demo.alice)
    Demo.request_id
    {| p_approver_id := Some Demo.alice_id; p_destination := None;
       p_departure_date := None; p_return_date := None; p_purpose := None;
       p_estimated_budget := None; p_transportation_mode := None;
       p_accommodation_details := None; p_additional_notes := None |}
    (Demo.db_with draft) =
  (Demo.db_with draft, Failure 500 "Failed to update travel request" SERVER_ERROR).
Proof. reflexivity. Qed.

(** Bob, the approver, rejects Alice's approved request again, with the
    reason this time. *)
Lemma terminal_request_is_final_witness :
  travel_requests
    (@handle IsoRuntime.runtime (Demo.env_at 1736200000000) (Demo.as_actor Demo.bob)
       (CallReject Demo.request_id (Some "budget was cut")) (Demo.db_with approved)).1
    !! Demo.request_id = Some (Demo.trip approved)
  /\ (@handle IsoRuntime.runtime (Demo.env_at 1736200000000) (Demo.as_actor Demo.bob)
        (CallReject Demo.request_id (Some "budget was cut")) (Demo.db_with approved)).1
     = Demo.db_with approved
  /\ (@handle IsoRuntime.runtime (Demo.env_at 1736200000000) (Demo.as_actor Demo.bob)
        (CallReject Demo.request_id (Some "budget was cut")) (Demo.db_with approved)).2
     = Failure 400 "Request not found or not pending" CANNOT_REJECT.
Proof.
  destruct (@terminal_request_is_final IsoRuntime.runtime (Demo.env_at 1736200000000)
              (Demo.as_actor Demo.bob)
              (CallReject Demo.request_id (Some "budget was cut"))
              (Demo.db_with approved) Demo.request_id (Demo.trip approved)
              eq_refl eq_refl) as [Hsame Hrefused].
  destruct (Hrefused eq_refl) as [Hdb _].
  split; [exact Hsame|]. split; [exact Hdb|]. reflexivity.
Defined.

(** C3 as stated does not hold: Bob rejects Alice's approved request with
    empty comments and is answered [COMMENTS_REQUIRED], which is neither a
    state-conflict nor a forbidden error. *)
Lemma terminal_refusal_counterexample :
  ~ (forall (rt : Runtime) (env : Env) (actor : Actor) (c : ApiCall) (s : Store)
            (id : string) (r : TravelRequest),
       travel_requests s !! id = Some r ->
       terminal (status r) = true ->
       target c = Some id ->
       (handle env actor c s).1 = s
       /\ refused_conflict_or_forbidden (handle env actor c s).2 = true).
Proof.
  intros H.
  destruct (H IsoRuntime.runtime (Demo.env_at 1736200000000) (Demo.as_actor Demo.bob)
              (CallReject Demo.request_id (Some "")) (Demo.db_with approved)
              Demo.request_id (Demo.trip approved) eq_refl eq_refl eq_refl) as [_ Hrefused].
  vm_compute in Hrefused. discriminate Hrefused.
Qed.

(** ** The scenarios of the specification, run on the model *)

(** Scenario A: Alice saves a draft, submits it, and Bob approves it with
    the comment [ok].  The row goes from draft to pending to approved;
    neither notification is sent or logged, both having thrown. *)
Example scenario_A :
  let s :=
    @run IsoRuntime.runtime
      [(Demo.env_at 1736000000000, Demo.as_actor Demo.alice,
        CallCreate (Demo.trip_data 2500%Q) false);
       (Demo.env_at 1736000060000, Demo.as_actor Demo.alice, CallSubmit Demo.request_id);
       (Demo.env_at 1736000120000, Demo.as_actor Demo.bob,
        CallApprove Demo.request_id (Some "ok"))]
      Demo.empty_db in
  (status <$> travel_requests s !! Demo.request_id) = Some approved
  /\ (approved_rejected_at <$> travel_requests s !! Demo.request_id)
     = Some (Some 1736000120000)
  /\ (approval_comments <$> travel_requests s !! Demo.request_id) = Some (Some "ok")
  /\ (submitted_at <$> travel_requests s !! Demo.request_id) = Some (Some 1736000060000)
  /\ notification_logs s = [].
Proof. vm_compute. repeat split. Qed.

(** Scenario B: Carol, an administrator, names herself approver; nothing is
    stored. *)
Example scenario_B :
  @createRequest IsoRuntime.runtime (Demo.env_at 1736000000000) (Demo.as_actor Demo.carol)
    {| c_approver_id := Some Demo.carol_id;
       c_destination := Some "Lagos";
       c_departure_date := Some "2025-02-15";
       c_return_date := Some "2025-02-20";
       c_purpose := Some "Client workshop";
       c_estimated_budget := Some 2500%Q;
       c_transportation_mode := None;
       c_accommodation_details := None;
       c_additional_notes := None |}
    true Demo.empty_db =
  (Demo.empty_db, Failure 400 "You cannot approve your own travel request" CANNOT_SELF_APPROVE).
Proof. reflexivity. Qed.

(** * The lifecycle as a state machine *)

Lemma logNotification_users env requestId to ty st err s :
  users (logNotification env requestId to ty st err s) = users s.
Proof. unfold logNotification. by destruct (travel_requests s !! requestId). Qed.

Lemma sendEmail_users env to requestId ty s :
  users (sendEmail env to requestId ty s).1 = users s.
Proof.
  unfold sendEmail. destruct (sendMail_error env); simpl; apply logNotification_users.
Qed.

Lemma notify_users send requestId s s' :
  sender send -> notify send requestId s = Some s' -> users s' = users s.
Proof.
  intros Hsend. unfold notify.
  destruct (findTravelRequestWithUsers requestId s) as [[[tr u] a]|]; [|by intros [= <-]].
  destruct Hsend; simpl; intros [= <-]; apply sendEmail_users.
Qed.

Lemma notify_rejection env id s :
  exists s', notify (sendRejectionNotification env) id s = Some s'
             /\ travel_requests s' = travel_requests s /\ users s' = users s.
Proof.
  unfold notify.
  destruct (findTravelRequestWithUsers id s) as [[[tr u] a]|]; simpl; [|by eauto].
  eexists. split; [done|]. split; [apply sendEmail_travel_requests|apply sendEmail_users].
Qed.

Lemma notify_cancellation env id s :
  exists s', notify (sendCancellationNotification env) id s = Some s'
             /\ travel_requests s' = travel_requests s /\ users s' = users s.
Proof.
  unfold notify.
  destruct (findTravelRequestWithUsers id s) as [[[tr u] a]|]; simpl; [|by eauto].
  eexists. split; [done|]. split; [apply sendEmail_travel_requests|apply sendEmail_users].
Qed.

(** The end of a handler that notifies: either the notification throws,
    or it leaves the users and the requests as they were. *)
Ltac notified :=
  match goal with
  | |- context [notify ?send ?i ?s1] =>
      let Hn := fresh "Hn" in
      destruct (notify send i s1) as [?|] eqn:Hn; simpl;
      [rewrite ?(notify_travel_requests send i s1 _ ltac:(constructor) Hn),
               ?(notify_users send i s1 _ ltac:(constructor) Hn)|]
  | H : notify ?send ?i ?s1 = Some _ |- _ =>
      rewrite ?(notify_travel_requests send i s1 _ ltac:(constructor) H),
              ?(notify_users send i s1 _ ltac:(constructor) H)
  end.

Section Writes.

Context {rt : Runtime}.

#[local] Hint Constructors write : core.

Lemma createTravelRequest_write env userId requestData isDraft s row s1 :
  createTravelRequest env userId requestData isDraft s = Returned row s1 ->
  users s1 = users s
  /\ write (users s) (travel_requests s) (travel_requests s1).
Proof.
  unfold createTravelRequest.
  destruct (c_approver_id requestData), (c_destination requestData),
    (c_departure_date requestData ≫= pg_date_in),
    (c_return_date requestData ≫= pg_date_in),
    (c_purpose requestData), (c_estimated_budget requestData ≫= numeric_10_2);
    try discriminate.
  destruct (travel_requests s !! gen_random_uuid env) eqn:Hfresh; [discriminate|].
  destruct (travel_request_constraints _ _) eqn:Hck; [|discriminate].
  intros [= _ <-]. split; [done|]. simpl.
  apply write_created; try done.
  destruct isDraft; simpl; eauto.
Qed.

Lemma updated_row_columns env updateData r r' :
  updated_row env updateData r = Some r' ->
  status r' = status r /\ user_id r' = user_id r /\ tr_id r' = tr_id r
  /\ approval_comments r' = approval_comments r
  /\ submitted_at r' = submitted_at r
  /\ approved_rejected_at r' = approved_rejected_at r.
Proof.
  unfold updated_row.
  destruct (assign pg_date_in (p_departure_date updateData) _); simpl; [|done].
  destruct (assign pg_date_in (p_return_date updateData) _); simpl; [|done].
  destruct (assign numeric_10_2 _ _); simpl; [|done].
  by intros [= <-].
Qed.

Lemma updateTravelRequest_write env id updateData s o s1 :
  updateTravelRequest env id updateData s = Returned o s1 ->
  users s1 = users s
  /\ write (users s) (travel_requests s) (travel_requests s1).
Proof.
  unfold updateTravelRequest.
  destruct (no_fields updateData); [by intros [= _ <-]; eauto|].
  destruct (travel_requests s !! id) as [r|] eqn:Hr; [|by intros [= _ <-]; eauto].
  destruct (status r) eqn:Hst; try (by intros [= _ <-]; eauto).
  destruct (updated_row env updateData r) as [r'|] eqn:Hrow; [|done].
  destruct (travel_request_constraints _ _) eqn:Hck; [|done].
  intros [= _ <-]. split; [done|]. simpl.
  destruct (updated_row_columns _ _ _ _ Hrow) as (H1 & H2 & H3 & H4 & H5 & H6).
  apply (write_updated _ _ id r r'); try done. congruence.
Qed.

Lemma notify_write send id us m s s' :
  sender send -> notify send id s = Some s' -> write us m (travel_requests s) ->
  write us m (travel_requests s').
Proof. intros Hs Hn Hw. by rewrite (notify_travel_requests send id s s'). Qed.

(** The step the four workflow handlers share, with the transition
    named. *)
Ltac transition_step :=
  match goal with
  | |- context [transition ?from ?f ?id ?s] =>
      unfold transition;
      destruct (travel_requests s !! id) as [?r|] eqn:?Hr; [|simpl; by eauto];
      destruct (decide (status _ = from)); [|simpl; by eauto]; simpl;
      notified
  end.

(** Whatever the call, what it writes to the table of requests is one of
    the eight things of [write]. *)
Lemma handle_write env actor c s :
  write (users s) (travel_requests s) (travel_requests (handle env actor c s).1).
Proof.
  destruct c as [requestData shouldSubmit | id updateData | id | id comments
                | id comments | id | id | id body]; simpl.
  - unfold createRequest.
    repeat (case_match; simplify_eq; simpl; try done).
    all: try notified.
    all: by eapply createTravelRequest_write.
  - unfold updateRequest.
    repeat (case_match; simpl; try done).
    all: by eapply updateTravelRequest_write.
  - unfold submitRequest, submitDraftRequest. case_match; simpl; [done|].
    transition_step; by eapply write_submitted.
  - unfold approveRequest, approveTravelRequest. case_match; simpl; [done|].
    transition_step; by eapply write_approved.
  - unfold rejectRequest, rejectTravelRequest.
    destruct (comments_missing comments) eqn:Hc; simpl; [done|].
    case_match; simpl; [done|].
    transition_step; (eapply write_rejected; [done..|]);
      (destruct comments; [done|]); by simpl in Hc.
  - unfold cancelRequest, cancelTravelRequest. case_match; simpl; [done|].
    transition_step; by eapply write_cancelled.
  - unfold deleteRequest, deleteTravelRequest. case_match; simpl; [done|].
    destruct (travel_requests s !! id) as [r|] eqn:Hr; [|done].
    destruct (status r) eqn:Hst; simpl; eauto.
  - unfold updateUserById.
    repeat (case_match; simpl; try done).
    all: match goal with
         | H : updateUser _ _ _ _ = Returned _ _ |- _ =>
             rewrite (updateUser_travel_requests _ _ _ _ _ _ H)
         end; done.
Qed.

(** No call of the workflow adds or removes a user. *)
Lemma handle_users_dom env actor c s k :
  is_Some (users (handle env actor c s).1 !! k) <-> is_Some (users s !! k).
Proof.
  destruct c as [requestData shouldSubmit | id updateData | id | id comments
                | id comments | id | id | id body]; simpl.
  - unfold createRequest.
    repeat (case_match; simplify_eq; simpl; try done).
    all: try notified.
    all: match goal with
         | H : createTravelRequest _ _ _ _ _ = Returned _ _ |- _ =>
             apply createTravelRequest_write in H as [-> _]
         end; done.
  - unfold updateRequest.
    repeat (case_match; simpl; try done).
    all: match goal with
         | H : updateTravelRequest _ _ _ _ = Returned _ _ |- _ =>
             apply updateTravelRequest_write in H as [-> _]
         end; done.
  - unfold submitRequest, submitDraftRequest, transition.
    repeat (case_match; simplify_eq; simpl; try done).
    all: try notified; done.
  - unfold approveRequest, approveTravelRequest, transition.
    repeat (case_match; simplify_eq; simpl; try done).
    all: try notified; done.
  - unfold rejectRequest, rejectTravelRequest, transition.
    repeat (case_match; simplify_eq; simpl; try done).
    all: try notified; done.
  - unfold cancelRequest, cancelTravelRequest, transition.
    repeat (case_match; simplify_eq; simpl; try done).
    all: try notified; done.
  - unfold deleteRequest, deleteTravelRequest.
    repeat (case_match; simplify_eq; simpl; try done).
  - unfold updateUserById, updateUser, findUserById.
    repeat (case_match; simplify_eq; simpl; try done).
    all: destruct (decide (id = k)) as [->|Hne];
      [rewrite lookup_insert_eq; split; eauto | by rewrite lookup_insert_ne].
Qed.

End Writes.

(** ** Users are deleted only when no request names them *)

Lemma referenced_true (k id : string) (r : TravelRequest) (s : Store) :
  travel_requests s !! id = Some r ->
  user_id r = k \/ approver_id r = k ->
  referenced k s = true.
Proof.
  intros Hr Hk. unfold referenced. apply existsb_exists.
  exists (id, r). split.
  - apply list_elem_of_In, elem_of_map_to_list, Hr.
  - apply orb_true_iff. destruct Hk as [<-|<-]; [left|right]; apply String.eqb_refl.
Qed.

Lemma deleteUserById_effect env actor id hardDelete s k :
  travel_requests (deleteUserById env actor id hardDelete s).1 = travel_requests s
  /\ (is_Some (users s !! k) ->
      is_Some (users (deleteUserById env actor id hardDelete s).1 !! k)
      \/ (k = id /\ hardDelete = true /\ referenced k s = false)).
Proof.
  unfold deleteUserById, hardDeleteUser, softDeleteUser, findUserById.
  destruct (String.eqb (userId actor) id); simpl; [by eauto|].
  destruct (users s !! id) as [u|] eqn:Hu; simpl; [|by eauto].
  destruct hardDelete.
  - destruct (referenced id s) eqn:Href; simpl; [by eauto|].
    split; [done|]. intros Hk.
    destruct (decide (k = id)) as [->|Hne]; [by right|].
    left. by rewrite lookup_delete_ne.
  - simpl. split; [done|]. intros Hk. left.
    destruct (decide (id = k)) as [->|Hne].
    + rewrite lookup_insert_eq. eauto.
    + by rewrite lookup_insert_ne.
Qed.

Lemma register_effect bcrypt_hash env body s k :
  travel_requests (register bcrypt_hash env body s).1 = travel_requests s
  /\ (is_Some (users s !! k) -> is_Some (users (register bcrypt_hash env body s).1 !! k)).
Proof.
  unfold register, createUser.
  repeat (case_match; simplify_eq; simpl; try done).
  split; [done|]. intros Hk.
  destruct (decide (gen_random_uuid env = k)) as [<-|Hne].
  - rewrite lookup_insert_eq. eauto.
  - by rewrite lookup_insert_ne.
Qed.

Section Machine.

Context {rt : Runtime}.

Lemma serve_write env actor c s :
  write (users s) (travel_requests s) (travel_requests (serve env actor c s)).
Proof.
  destruct c as [c | id hardDelete | bcrypt_hash body]; simpl.
  - apply handle_write.
  - unfold route_deleteUser. destruct (authorize _ _); simpl; [constructor|].
    rewrite (proj1 (deleteUserById_effect env actor id hardDelete s id)). constructor.
  - unfold route_register. destruct (authorize _ _); simpl; [constructor|].
    rewrite (proj1 (register_effect bcrypt_hash env body s "")). constructor.
Qed.

(** A user that some request names is still there after the call. *)
Lemma serve_keeps_party env actor c s k id r :
  travel_requests s !! id = Some r ->
  user_id r = k \/ approver_id r = k ->
  is_Some (users s !! k) ->
  is_Some (users (serve env actor c s) !! k).
Proof.
  intros Hr Hk Hu.
  destruct c as [c | id' hardDelete | bcrypt_hash body]; simpl.
  - by apply handle_users_dom.
  - unfold route_deleteUser. destruct (authorize _ _); simpl; [done|].
    destruct (proj2 (deleteUserById_effect env actor id' hardDelete s k) Hu)
      as [Hkept | (_ & _ & Href)]; [done|].
    by rewrite (referenced_true k id r s Hr Hk) in Href.
  - unfold route_register. destruct (authorize _ _); simpl; [done|].
    by apply register_effect.
Qed.

(** A user that is there stays there through a call of the workflow. *)
Lemma serve_workflow_users env actor c s k :
  is_Some (users s !! k) -> is_Some (users (serve env actor (Workflow c) s) !! k).
Proof. simpl. by apply handle_users_dom. Qed.

Lemma constraints_inv us r :
  travel_request_constraints us r = true ->
  is_Some (us !! user_id r) /\ is_Some (us !! approver_id r)
  /\ 0 < estimated_budget r /\ departure_date r <= return_date r
  /\ user_id r <> approver_id r.
Proof.
  unfold travel_request_constraints, references_user, check_budget, check_dates,
    check_approver_not_self.
  intros H. repeat (apply andb_true_iff in H as [H ?]).
  destruct (us !! user_id r); [|done]. destruct (us !! approver_id r); [|done].
  apply negb_true_iff, String.eqb_neq in H0.
  repeat split; eauto; lia.
Qed.

(** X1. One call moves the status of a stored request along an edge of
    the lifecycle or leaves it alone, never changes its requester, changes
    its approver only while it is a draft, and removes it only if it was a
    draft. *)
Theorem serve_follows_lifecycle
    (env : Env) (actor : Actor) (c : Call) (s : Store) (id : string) (r : TravelRequest) :
  travel_requests s !! id = Some r ->
  match travel_requests (serve env actor c s) !! id with
  | Some r' =>
      (status r' = status r \/ legal_step (status r) (status r') = true)
      /\ user_id r' = user_id r
      /\ (approver_id r' = approver_id r \/ status r = draft)
  | None => status r = draft
  end.
Proof.
  intros Hr.
  destruct (serve_write env actor c s)
    as [| k r' Hk | k r0 r' Hk Hst Hck Hst' Hu | k r0 t Hk Hst | k r0 cm t Hk Hst
        | k r0 cm t Hk Hst | k r0 t Hk Hst | k r0 Hk Hst].
  1: by rewrite Hr; eauto.
  all: destruct (decide (k = id)) as [->|Hne];
    [rewrite ?lookup_insert_eq, ?lookup_delete_eq; simplify_eq; simpl
    |rewrite ?lookup_insert_ne, ?lookup_delete_ne, ?Hr by done; by eauto].
  all: try rewrite Hst; try rewrite Hst'; simpl; eauto.
Qed.

End Machine.

(** ** Invariants of the table of requests *)

Lemma comments_present (c : string) :
  comments_missing (Some c) = false -> Js.trim c <> "".
Proof.
  unfold comments_missing. intros [_ H]%orb_false_iff Hc. simpl in H.
  by rewrite Hc in H.
Qed.

Section Invariants_kept.

Context {rt : Runtime}.

Lemma serve_rows_checked env actor c s :
  rows_checked s -> rows_checked (serve env actor c s).
Proof.
  intros Hs id r.
  destruct (serve_write env actor c s)
    as [| k r' Hk Hck | k r0 r' Hk Hst Hck | k r0 t Hk Hst | k r0 cm t Hk Hst
        | k r0 cm t Hk Hst | k r0 t Hk Hst | k r0 Hk Hst].
  1: by apply Hs.
  all: destruct (decide (k = id)) as [->|Hne];
    [rewrite ?lookup_insert_eq, ?lookup_delete_eq; intros ?; simplify_eq; simpl
    |rewrite ?lookup_insert_ne, ?lookup_delete_ne by done; by apply Hs].
  1, 2: apply constraints_inv in Hck; tauto.
  all: by apply (Hs id).
Qed.

(** X2. If every stored request has a positive budget and a return on or
    after its departure, so has every stored request after any sequence of
    calls. *)
Theorem serve_all_rows_checked (calls : list (Env * Actor * Call)) (s : Store) :
  rows_checked s -> rows_checked (serve_all calls s).
Proof.
  revert s. induction calls as [|[[env actor] c] calls IH]; intros s Hs; simpl; [done|].
  apply IH, serve_rows_checked, Hs.
Qed.

Lemma serve_rejections_explained env actor c s :
  rejections_explained s -> rejections_explained (serve env actor c s).
Proof.
  intros Hs id r.
  destruct (serve_write env actor c s)
    as [| k r' Hk Hck Hst | k r0 r' Hk Hst Hck Hst' | k r0 t Hk Hst | k r0 cm t Hk Hst
        | k r0 cm t Hk Hst Hcm | k r0 t Hk Hst | k r0 Hk Hst].
  1: by apply Hs.
  all: destruct (decide (k = id)) as [->|Hne];
    [rewrite ?lookup_insert_eq, ?lookup_delete_eq; intros ?; simplify_eq; simpl
    |rewrite ?lookup_insert_ne, ?lookup_delete_ne by done; by apply Hs].
  all: try done; try congruence.
  - destruct Hst as [[Hst _]|[Hst _]]; congruence.
  - intros _. eexists; split; [done|]. by apply comments_present.
Qed.

(** X3. If every rejected request carries comments that are not blank,
    so does every rejected request after any sequence of calls: a
    rejection is stored only with the reason given for it. *)
Theorem serve_all_rejections_explained (calls : list (Env * Actor * Call)) (s : Store) :
  rejections_explained s -> rejections_explained (serve_all calls s).
Proof.
  revert s. induction calls as [|[[env actor] c] calls IH]; intros s Hs; simpl; [done|].
  apply IH, serve_rejections_explained, Hs.
Qed.

Lemma serve_timestamps_consistent env actor c s :
  timestamps_consistent s -> timestamps_consistent (serve env actor c s).
Proof.
  intros Hs id r.
  destruct (serve_write env actor c s)
    as [| k r' Hk Hck Hst Hcm Hd | k r0 r' Hk Hst Hck Hst' Hu Hcm Hsub Hd
        | k r0 t Hk Hst | k r0 cm t Hk Hst
        | k r0 cm t Hk Hst Hcm | k r0 t Hk Hst | k r0 Hk Hst].
  1: by apply Hs.
  all: destruct (decide (k = id)) as [->|Hne];
    [rewrite ?lookup_insert_eq, ?lookup_delete_eq; intros ?; simplify_eq
    |rewrite ?lookup_insert_ne, ?lookup_delete_ne by done; by apply Hs].
  all: try done.
  all: try (pose proof (Hs id r0 Hk) as [[Hs1 Hs2] [Hs3 Hs4]]).
  all: unfold stamped; simpl.
  - rewrite Hd.
    destruct Hst as [[-> ->]|[-> [t ->]]];
      repeat split; try done; try (by intros [? [=]]); by intros [[=]|[=]].
  - rewrite Hsub, Hd, Hst'. rewrite Hst in *.
    repeat split; try done; eauto.
  - rewrite Hst in *.
    repeat split; try done; try (by intros [[=]|[=]]).
    intros Hsome. destruct (Hs3 Hsome) as [[=]|[=]].
  - repeat split; try done; eauto.
    rewrite Hst in *. intros Hn. by apply Hs1 in Hn.
  - repeat split; try done; eauto.
    rewrite Hst in *. intros Hn. by apply Hs1 in Hn.
  - rewrite Hst in *.
    repeat split; try done; try (by intros [[=]|[=]]).
    + intros Hn. by apply Hs1 in Hn.
    + intros Hsome. destruct (Hs3 Hsome) as [[=]|[=]].
Qed.

(** X4. If in every stored request [submitted_at] is missing exactly on
    drafts and [approved_rejected_at] is set exactly on approved and
    rejected requests, the same holds after any sequence of calls. *)
Theorem serve_all_timestamps_consistent (calls : list (Env * Actor * Call)) (s : Store) :
  timestamps_consistent s -> timestamps_consistent (serve_all calls s).
Proof.
  revert s. induction calls as [|[[env actor] c] calls IH]; intros s Hs; simpl; [done|].
  apply IH, serve_timestamps_consistent, Hs.
Qed.

Lemma serve_parties_exist env actor c s :
  parties_exist s -> parties_exist (serve env actor c s).
Proof.
  intros Hs id r Hr.
  assert (Hold : forall r0, travel_requests s !! id = Some r0 ->
                 user_id r = user_id r0 -> approver_id r = approver_id r0 ->
                 is_Some (users (serve env actor c s) !! user_id r)
                 /\ is_Some (users (serve env actor c s) !! approver_id r)).
  { intros r0 Hr0 Hu Ha. destruct (Hs id r0 Hr0) as [H1 H2]. rewrite Hu, Ha.
    split; eapply serve_keeps_party; eauto. }
  assert (Hnew : travel_request_constraints (users s) r = true ->
                 (forall k, is_Some (users s !! k) ->
                            is_Some (users (serve env actor c s) !! k)) ->
                 is_Some (users (serve env actor c s) !! user_id r)
                 /\ is_Some (users (serve env actor c s) !! approver_id r)).
  { intros Hck Hkeep. apply constraints_inv in Hck as (H1 & H2 & _). split; by apply Hkeep. }
  destruct c as [c | id' hardDelete | bcrypt_hash body].
  - revert Hr. simpl serve in *.
    destruct (handle_write env actor c s)
      as [| k r' Hk Hck | k r0 r' Hk Hst Hck | k r0 t Hk Hst | k r0 cm t Hk Hst
          | k r0 cm t Hk Hst | k r0 t Hk Hst | k r0 Hk Hst].
    1: by eauto.
    all: destruct (decide (k = id)) as [->|Hne];
      [rewrite ?lookup_insert_eq, ?lookup_delete_eq; intros ?; simplify_eq
      |rewrite ?lookup_insert_ne, ?lookup_delete_ne by done; by eauto].
    1, 2: apply Hnew; [done|]; intros k' Hk'; by apply handle_users_dom.
    all: by apply (Hold r0).
  - apply (Hold r); [|done..]. revert Hr. simpl. unfold route_deleteUser.
    destruct (authorize _ _); simpl; [done|].
    by rewrite (proj1 (deleteUserById_effect env actor id' hardDelete s id)).
  - apply (Hold r); [|done..]. revert Hr. simpl. unfold route_register.
    destruct (authorize _ _); simpl; [done|].
    by rewrite (proj1 (register_effect bcrypt_hash env body s "")).
Qed.

(** X5. If the requester and the approver of every stored request are
    stored users, they still are after any sequence of calls, deletions of
    users included: a user that a request names is never deleted. *)
Theorem serve_all_parties_exist (calls : list (Env * Actor * Call)) (s : Store) :
  parties_exist s -> parties_exist (serve_all calls s).
Proof.
  revert s. induction calls as [|[[env actor] c] calls IH]; intros s Hs; simpl; [done|].
  apply IH, serve_parties_exist, Hs.
Qed.

End Invariants_kept.

(** The table of requests of the sample database is empty. *)
Ltac empty_table :=
  intros ? ? Hlookup; unfold Demo.empty_db in Hlookup; simpl in Hlookup;
  by rewrite lookup_empty in Hlookup.

(** The history of the examples, run: the trip ends rejected with its
    reason, Bob is still a user, Dave is deactivated, Erin is an approver. *)
Example history_outcome :
  let s := @serve_all IsoRuntime.runtime Story.history Demo.empty_db in
  (status <$> travel_requests s !! Demo.request_id) = Some rejected
  /\ (approval_comments <$> travel_requests s !! Demo.request_id)
     = Some (Some "over budget")
  /\ (is_active <$> users s !! Demo.bob_id) = Some true
  /\ (is_active <$> users s !! Demo.dave_id) = Some false
  /\ (role <$> users s !! Story.erin_id) = Some approver.
Proof. vm_compute. repeat split. Qed.

(** Bob rejects Alice's pending trip: pending to rejected is an edge. *)
Lemma serve_follows_lifecycle_witness :
  match travel_requests
          (@serve IsoRuntime.runtime (Demo.env_at 1736000120000) (Demo.as_actor Demo.bob)
             (Workflow (CallReject Demo.request_id (Some "over budget")))
             (Demo.db_with pending)) !! Demo.request_id with
  | Some r' =>
      (status r' = pending \/ legal_step pending (status r') = true)
      /\ user_id r' = Demo.alice_id
      /\ (approver_id r' = Demo.bob_id \/ pending = draft)
  | None => pending = draft
  end.
Proof.
  apply (@serve_follows_lifecycle IsoRuntime.runtime (Demo.env_at 1736000120000)
           (Demo.as_actor Demo.bob)
           (Workflow (CallReject Demo.request_id (Some "over budget")))
           (Demo.db_with pending) Demo.request_id (Demo.trip pending)).
  reflexivity.
Defined.

Lemma serve_all_rows_checked_witness :
  rows_checked (@serve_all IsoRuntime.runtime Story.history Demo.empty_db).
Proof. apply (@serve_all_rows_checked IsoRuntime.runtime). empty_table. Defined.

Lemma serve_all_rejections_explained_witness :
  rejections_explained (@serve_all IsoRuntime.runtime Story.history Demo.empty_db).
Proof. apply (@serve_all_rejections_explained IsoRuntime.runtime). empty_table. Defined.

Lemma serve_all_timestamps_consistent_witness :
  timestamps_consistent (@serve_all IsoRuntime.runtime Story.history Demo.empty_db).
Proof. apply (@serve_all_timestamps_consistent IsoRuntime.runtime). empty_table. Defined.

Lemma serve_all_parties_exist_witness :
  parties_exist (@serve_all IsoRuntime.runtime Story.history Demo.empty_db).
Proof. apply (@serve_all_parties_exist IsoRuntime.runtime). empty_table. Defined.

(** * Who may do what, and when *)

Lemma transition_applies from f id r s :
  travel_requests s !! id = Some r -> status r = from ->
  transition from f id s =
  (set_travel_requests s (<[id := f r]> (travel_requests s)), Some (f r)).
Proof. intros Hr Hst. unfold transition. rewrite Hr. by case_decide. Qed.

Lemma transition_missing from f id s :
  travel_requests s !! id = None -> transition from f id s = (s, None).
Proof. intros Hr. unfold transition. by rewrite Hr. Qed.

Section Guards.

Context {rt : Runtime}.

(** X6. A call of the workflow on a stored request by someone who does
    not pass its authorization check is answered 403 [FORBIDDEN] and
    leaves the database as it was: update, submit, cancel and delete by
    anyone but the requester, admins included; approve, and reject with
    comments, by anyone who is neither the approver nor an admin. *)
Theorem handle_forbidden
    (env : Env) (actor : Actor) (c : ApiCall) (s : Store) (id : string) (r : TravelRequest) :
  travel_requests s !! id = Some r ->
  target c = Some id ->
  owner_call c = true \/ decision_call c = true ->
  may actor c r = false ->
  exists message, handle env actor c s = (s, Failure 403 message FORBIDDEN).
Proof.
  intros Hr Ht Hc Hmay. unfold may in Hmay.
  destruct c as [requestData shouldSubmit | id' updateData | id' | id' comments
                | id' comments | id' | id' | id' body];
    simpl in *; simplify_eq; try (by destruct Hc).
  - unfold updateRequest, findTravelRequestById. rewrite Hr, Hmay. simpl. eauto.
  - unfold submitRequest, isRequestOwner. rewrite Hr, Hmay. simpl. eauto.
  - unfold approveRequest, isRequestApprover. rewrite Hr.
    apply orb_false_iff in Hmay as [-> ->]. simpl. eauto.
  - unfold rejectRequest, isRequestApprover. rewrite Hr.
    destruct Hc as [|Hc]; [done|]. apply negb_true_iff in Hc. rewrite Hc.
    apply orb_false_iff in Hmay as [-> ->]. simpl. eauto.
  - unfold cancelRequest, isRequestOwner. rewrite Hr, Hmay. simpl. eauto.
  - unfold deleteRequest, isRequestOwner. rewrite Hr, Hmay. simpl. eauto.
Qed.

(** X7. A call of the workflow that passes its authorization check on a
    stored request that is not in the state the call needs (a draft for
    update, submit and delete; pending for approve, reject and cancel) is
    answered 400 with the error of that call and leaves the database as
    it was. *)
Theorem handle_wrong_state
    (env : Env) (actor : Actor) (c : ApiCall) (s : Store) (id : string) (r : TravelRequest)
    (needed : TravelRequestStatus) (e : ErrorKind) :
  travel_requests s !! id = Some r ->
  target c = Some id ->
  owner_call c = true \/ decision_call c = true ->
  may actor c r = true ->
  required_status c = Some (needed, e) ->
  status r <> needed ->
  exists message, handle env actor c s = (s, Failure 400 message e).
Proof.
  intros Hr Ht Hc Hmay Hneed Hst. unfold may in Hmay.
  destruct c as [requestData shouldSubmit | id' updateData | id' | id' comments
                | id' comments | id' | id' | id' body];
    simpl in *; simplify_eq; try (by destruct Hc).
  - unfold updateRequest, findTravelRequestById. rewrite Hr, Hmay. simpl.
    rewrite bool_decide_eq_false_2 by done. simpl. eauto.
  - unfold submitRequest, isRequestOwner, submitDraftRequest. rewrite Hr, Hmay. simpl.
    rewrite (transition_other_status draft _ id r s Hr Hst). eauto.
  - unfold approveRequest, isRequestApprover, approveTravelRequest. rewrite Hr.
    replace (negb _ && negb _) with false
      by (symmetry; rewrite <- negb_orb; by apply negb_false_iff).
    rewrite (transition_other_status pending _ id r s Hr Hst). eauto.
  - unfold rejectRequest, isRequestApprover, rejectTravelRequest. rewrite Hr.
    destruct Hc as [|Hc]; [done|]. apply negb_true_iff in Hc. rewrite Hc.
    replace (negb _ && negb _) with false
      by (symmetry; rewrite <- negb_orb; by apply negb_false_iff).
    rewrite (transition_other_status pending _ id r s Hr Hst). eauto.
  - unfold cancelRequest, isRequestOwner, cancelTravelRequest. rewrite Hr, Hmay. simpl.
    rewrite (transition_other_status pending _ id r s Hr Hst). eauto.
  - unfold deleteRequest, isRequestOwner, deleteTravelRequest. rewrite Hr, Hmay. simpl.
    destruct (status r); eauto. done.
Qed.

(** X8. On tables keyed by UUIDs as PostgreSQL prints them, a call of
    the workflow on a well-formed id in that spelling that names no
    request leaves the database as it was; update answers 404
    [REQUEST_NOT_FOUND], while submit, cancel and delete answer 403
    [FORBIDDEN], and so do approve and reject with comments unless the
    caller is an admin, who is answered 400 [CANNOT_APPROVE] or
    [CANNOT_REJECT]. *)
Theorem handle_missing_request
    (env : Env) (actor : Actor) (c : ApiCall) (s : Store) (id : string) :
  canonical_uuid id = true ->
  well_keyed s ->
  travel_requests s !! id = None ->
  target c = Some id ->
  owner_call c = true \/ decision_call c = true ->
  exists message,
    handle env actor c s =
    (s,
     match c with
     | CallUpdate _ _ => Failure 404 message REQUEST_NOT_FOUND
     | CallApprove _ _ =>
         if bool_decide (actor_role actor = admin)
         then Failure 400 message CANNOT_APPROVE else Failure 403 message FORBIDDEN
     | CallReject _ _ =>
         if bool_decide (actor_role actor = admin)
         then Failure 400 message CANNOT_REJECT else Failure 403 message FORBIDDEN
     | _ => Failure 403 message FORBIDDEN
     end).
Proof.
  intros _ _ Hr Ht Hc.
  destruct c as [requestData shouldSubmit | id' updateData | id' | id' comments
                | id' comments | id' | id' | id' body];
    simpl in *; simplify_eq; try (by destruct Hc).
  - unfold updateRequest, findTravelRequestById. rewrite Hr. eauto.
  - unfold submitRequest, isRequestOwner. rewrite Hr. simpl. eauto.
  - unfold approveRequest, isRequestApprover, approveTravelRequest. rewrite Hr. simpl.
    destruct (bool_decide (actor_role actor = admin)); simpl; [|by eauto].
    rewrite (transition_missing pending _ id s Hr). eauto.
  - unfold rejectRequest, isRequestApprover, rejectTravelRequest. rewrite Hr.
    destruct Hc as [|Hc]; [done|]. apply negb_true_iff in Hc. rewrite Hc. simpl.
    destruct (bool_decide (actor_role actor = admin)); simpl; [|by eauto].
    rewrite (transition_missing pending _ id s Hr). eauto.
  - unfold cancelRequest, isRequestOwner. rewrite Hr. simpl. eauto.
  - unfold deleteRequest, isRequestOwner. rewrite Hr. simpl. eauto.
Qed.

Lemma createTravelRequest_stored env userId requestData isDraft s row s1 :
  createTravelRequest env userId requestData isDraft s = Returned row s1 ->
  travel_requests s !! gen_random_uuid env = None
  /\ s1 = set_travel_requests s (<[gen_random_uuid env := row]> (travel_requests s))
  /\ travel_request_constraints (users s) row = true
  /\ tr_id row = gen_random_uuid env
  /\ user_id row = userId
  /\ c_approver_id requestData = Some (approver_id row)
  /\ status row = (if isDraft then draft else pending)
  /\ submitted_at row = (if isDraft then None else Some (now env)).
Proof.
  unfold createTravelRequest.
  destruct (c_approver_id requestData), (c_destination requestData),
    (c_departure_date requestData ≫= pg_date_in),
    (c_return_date requestData ≫= pg_date_in),
    (c_purpose requestData), (c_estimated_budget requestData ≫= numeric_10_2);
    try discriminate.
  destruct (travel_requests s !! gen_random_uuid env) eqn:Hfresh; [discriminate|].
  destruct (travel_request_constraints _ _) eqn:Hck; [|discriminate].
  intros [= <- <-]. done.
Qed.


(** X9. A call of the workflow that is refused leaves the whole
    database, the notification log included, as it was, with one
    exception: a creation with [submit=true], a submission and an
    approval write their row before they notify, and when they are then
    answered 500 [SERVER_ERROR] the row stays written; the users and the
    notification log are as they were then too. *)
Theorem handle_refused_unchanged
    (env : Env) (actor : Actor) (c : ApiCall) (s : Store)
    (code : Z) (message : string) (e : ErrorKind) :
  (handle env actor c s).2 = Failure code message e ->
  (handle env actor c s).1 = s
  \/ (notifies_with_budget c = true /\ code = 500 /\ e = SERVER_ERROR
      /\ users (handle env actor c s).1 = users s
      /\ notification_logs (handle env actor c s).1 = notification_logs s).
Proof.
  destruct c as [requestData shouldSubmit | id updateData | id | id comments
                | id comments | id | id | id body]; simpl.
  - unfold createRequest. repeat (case_match; simplify_eq; simpl; try by left).
    all: intros [= <- <- <-]; right.
    all: match goal with
         | H : createTravelRequest _ _ _ _ _ = Returned _ _ |- _ =>
             apply createTravelRequest_stored in H as (_ & -> & _)
         end; done.
  - unfold updateRequest, updateTravelRequest, findTravelRequestById.
    repeat (case_match; simplify_eq; simpl; try by left).
  - unfold submitRequest, submitDraftRequest, transition.
    repeat (case_match; simplify_eq; simpl; try by left).
    by intros [= <- <- <-]; right.
  - unfold approveRequest, approveTravelRequest, transition.
    repeat (case_match; simplify_eq; simpl; try by left).
    by intros [= <- <- <-]; right.
  - unfold rejectRequest, rejectTravelRequest, transition.
    repeat (case_match; simplify_eq; simpl; try by left).
    match goal with
    | H : notify (sendRejectionNotification ?env) ?i ?s1 = None |- _ =>
        destruct (notify_rejection env i s1) as (? & ? & _); congruence
    end.
  - unfold cancelRequest, cancelTravelRequest, transition.
    repeat (case_match; simplify_eq; simpl; try by left).
    match goal with
    | H : notify (sendCancellationNotification ?env) ?i ?s1 = None |- _ =>
        destruct (notify_cancellation env i s1) as (? & ? & _); congruence
    end.
  - unfold deleteRequest, deleteTravelRequest.
    repeat (case_match; simplify_eq; simpl; try by left).
  - unfold updateUserById, updateUser, findUserById.
    repeat (case_match; simplify_eq; simpl; try by left).
Qed.

End Guards.

(** * What a call that goes through stores *)

Section Success.

Context {rt : Runtime}.


(** X11. The approver of a pending request, or any admin, approves it:
    the stored request becomes the old one made approved, decided at the
    time of the call, with the comments given, or none when they are
    absent or empty, and nothing else in the database changes.  The
    answer, the requester and the approver being stored, so that there is
    somebody to notify, is 500 [SERVER_ERROR]: the notification throws
    after the UPDATE. *)
Theorem approveRequest_approves
    (env : Env) (actor : Actor) (id : string) (comments : option string)
    (r : TravelRequest) (s : Store) :
  travel_requests s !! id = Some r ->
  status r = pending ->
  approver_id r = userId actor \/ actor_role actor = admin ->
  is_Some (users s !! user_id r) ->
  is_Some (users s !! approver_id r) ->
  let r' := set_columns r approved (Js.or_null comments) (submitted_at r)
              (Some (now env)) (now env) in
  approveRequest env actor id comments s =
    (set_travel_requests s (<[id := r']> (travel_requests s)),
     Failure 500 "Failed to approve travel request" SERVER_ERROR).
Proof.
  intros Hr Hst Hmay [u Hu] [a Ha] r'.
  unfold approveRequest, isRequestApprover, approveTravelRequest.
  rewrite Hr.
  replace (negb _ && negb _) with false.
  2: { symmetry. rewrite <- negb_orb. apply negb_false_iff, orb_true_iff.
       destruct Hmay as [->| ->]; [left; apply String.eqb_refl | by right]. }
  rewrite (transition_applies pending _ id r s Hr Hst). fold r'.
  rewrite notify_approval. unfold findTravelRequestWithUsers. simpl.
  rewrite lookup_insert_eq. simpl. by rewrite Hu, Ha.
Qed.

(** X12. The approver of a pending request, or any admin, rejects it
    with comments that are not blank: the answer is 200 with the stored
    request, which is the old one made rejected, decided at the time of
    the call, with the comments as given. *)
Theorem rejectRequest_rejects
    (env : Env) (actor : Actor) (id : string) (c : string)
    (r : TravelRequest) (s : Store) :
  travel_requests s !! id = Some r ->
  status r = pending ->
  approver_id r = userId actor \/ actor_role actor = admin ->
  Js.trim c <> "" ->
  let r' := set_columns r rejected (Some c) (submitted_at r) (Some (now env)) (now env) in
  exists s',
    rejectRequest env actor id (Some c) s =
      (s', Success 200 "Travel request rejected" (DataRequest r'))
    /\ travel_requests s' = <[id := r']> (travel_requests s)
    /\ users s' = users s.
Proof.
  intros Hr Hst Hmay Hc r'. unfold rejectRequest, isRequestApprover, rejectTravelRequest.
  assert (comments_missing (Some c) = false) as ->.
  { unfold comments_missing. simpl. destruct c as [|a c]; [done|]. simpl.
    destruct (Js.trim (String a c)); done. }
  rewrite Hr.
  replace (negb _ && negb _) with false.
  2: { symmetry. rewrite <- negb_orb. apply negb_false_iff, orb_true_iff.
       destruct Hmay as [->| ->]; [left; apply String.eqb_refl | by right]. }
  simpl default.
  rewrite (transition_applies pending _ id r s Hr Hst).
  match goal with
  | |- context [notify ?send ?i ?s1] =>
      destruct (notify_rejection env i s1) as (s2 & -> & Ht & Hu)
  end.
  eexists; split; [reflexivity|]. by rewrite Ht, Hu.
Qed.

(** X13. The requester of a pending request cancels it: the answer is
    200 with the stored request, which is the old one made cancelled, its
    comments and both workflow timestamps kept. *)
Theorem cancelRequest_cancels
    (env : Env) (actor : Actor) (id : string) (r : TravelRequest) (s : Store) :
  travel_requests s !! id = Some r ->
  status r = pending ->
  user_id r = userId actor ->
  let r' := set_columns r cancelled (approval_comments r) (submitted_at r)
              (approved_rejected_at r) (now env) in
  exists s',
    cancelRequest env actor id s =
      (s', Success 200 "Travel request cancelled successfully" (DataRequest r'))
    /\ travel_requests s' = <[id := r']> (travel_requests s)
    /\ users s' = users s.
Proof.
  intros Hr Hst Ho r'. unfold cancelRequest, cancelTravelRequest.
  rewrite (isRequestOwner_true id r actor s Hr Ho). simpl.
  rewrite (transition_applies pending _ id r s Hr Hst).
  match goal with
  | |- context [notify ?send ?i ?s1] =>
      destruct (notify_cancellation env i s1) as (s2 & -> & Ht & Hu)
  end.
  eexists; split; [reflexivity|]. by rewrite Ht, Hu.
Qed.

(** X14. Whether the mail goes out or not, and when it is logged,
    changes neither the answer of a call nor what it leaves in the tables
    of users and requests. *)
Theorem mail_failure_is_invisible
    (env : Env) (actor : Actor) (c : ApiCall) (s : Store) (err : option string)
    (logged : Z) :
  let env' := {| now := now env; gen_random_uuid := gen_random_uuid env;
                 sendMail_error := err; log_time := logged |} in
  (handle env' actor c s).2 = (handle env actor c s).2
  /\ travel_requests (handle env' actor c s).1 = travel_requests (handle env actor c s).1
  /\ users (handle env' actor c s).1 = users (handle env actor c s).1.
Proof.
  intros env'.
  destruct c as [requestData shouldSubmit | id updateData | id | id comments
                | id comments | id | id | id body]; simpl.
  - unfold createRequest.
    assert (Hsame : forall u d b, createTravelRequest env' u d b s
                                  = createTravelRequest env u d b s) by reflexivity.
    rewrite Hsame.
    destruct (List.find _ requiredFields); [done|].
    repeat (case_match; simplify_eq; simpl; try done).
    all: destruct shouldSubmit; simplify_eq; try done.
    all: rewrite notify_submission in *; repeat case_match; simplify_eq.
  - unfold updateRequest.
    change (updateTravelRequest env' id updateData s)
      with (updateTravelRequest env id updateData s).
    repeat (case_match; simplify_eq; simpl; try done).
  - unfold submitRequest, submitDraftRequest. simpl now.
    destruct (negb _); [done|]. destruct (transition _ _ _ _) as [s1 [r1|]]; [|done].
    rewrite !notify_submission. by destruct (findTravelRequestWithUsers id s1).
  - unfold approveRequest, approveTravelRequest. simpl now.
    destruct (negb _ && _); [done|]. destruct (transition _ _ _ _) as [s1 [r1|]]; [|done].
    rewrite !notify_approval. by destruct (findTravelRequestWithUsers id s1).
  - unfold rejectRequest, rejectTravelRequest. simpl now.
    destruct (comments_missing _); [done|].
    destruct (negb _ && _); [done|]. destruct (transition _ _ _ _) as [s1 [r1|]]; [|done].
    destruct (notify_rejection env' id s1) as (s2' & -> & Ht' & Hu').
    destruct (notify_rejection env id s1) as (s2 & -> & Ht & Hu).
    simpl. by rewrite Ht, Ht', Hu, Hu'.
  - unfold cancelRequest, cancelTravelRequest. simpl now.
    destruct (negb _); [done|]. destruct (transition _ _ _ _) as [s1 [r1|]]; [|done].
    destruct (notify_cancellation env' id s1) as (s2' & -> & Ht' & Hu').
    destruct (notify_cancellation env id s1) as (s2 & -> & Ht & Hu).
    simpl. by rewrite Ht, Ht', Hu, Hu'.
  - done.
  - unfold updateUserById.
    change (updateUser env' id) with (updateUser env id).
    repeat (case_match; simplify_eq; simpl; try done).
Qed.

End Success.

(** * Texts: tokens, e-mail addresses, comments *)

Lemma append_cons (c : ascii) (a b : string) : String c a +:+ b = String c (a +:+ b).
Proof. reflexivity. Qed.

Lemma append_nil (b : string) : "" +:+ b = b.
Proof. reflexivity. Qed.

Lemma prefix_split (p s : string) :
  String.prefix p s = true -> s = p +:+ substring_from (String.length p) s.
Proof.
  revert s. induction p as [|a p IH]; intros s; simpl; [done|].
  destruct s as [|b s]; simpl; [done|].
  destruct (ascii_dec a b) as [->|]; [|done].
  intros H. rewrite (IH s H) at 1. reflexivity.
Qed.

(** X15. [extractToken] returns a token exactly for the headers made of
    [Bearer ], with that capitalisation and one space, and a token that is
    not empty, and the token it returns is what follows the prefix. *)
Theorem extractToken_bearer (authHeader : option string) (token : string) :
  extractToken authHeader = Some token <->
  authHeader = Some ("Bearer " +:+ token) /\ token <> "".
Proof.
  unfold extractToken. split.
  - destruct authHeader as [h|]; [|done].
    remember (substring_from 7 h) as t eqn:Ht.
    destruct (Js.truthy_string h); [|done].
    destruct (String.prefix "Bearer " h) eqn:Hp; [|done].
    cbn [negb Js.or_null].
    apply prefix_split in Hp. simpl String.length in Hp. rewrite <- Ht in Hp.
    destruct t; simpl; [done|].
    intros [= <-]. split; [by f_equal|done].
  - intros [-> Hne]. destruct token; done.
Qed.

Lemma span_email_chars_split (e : string) :
  e = (span_email_chars e).1 +:+ (span_email_chars e).2
  /\ all_email_chars (span_email_chars e).1 = true.
Proof.
  induction e as [|c e [IH1 IH2]]; simpl; [done|].
  destruct (email_char c) eqn:Hc; [|done].
  destruct (span_email_chars e) as [a b]; simpl in *.
  rewrite Hc, IH2, append_cons. split; [by f_equal|done].
Qed.

Lemma span_email_chars_append (a rest : string) (c : ascii) :
  all_email_chars a = true -> email_char c = false ->
  span_email_chars (a +:+ String c rest) = (a, String c rest).
Proof.
  intros Ha Hc. induction a as [|x a IH].
  - rewrite append_nil. simpl. by rewrite Hc.
  - simpl in Ha. apply andb_true_iff in Ha as [Hx Ha].
    rewrite append_cons. simpl. by rewrite Hx, (IH Ha).
Qed.

Lemma all_email_chars_append (a b : string) :
  all_email_chars (a +:+ b) = all_email_chars a && all_email_chars b.
Proof.
  induction a as [|x a IH]; [done|].
  rewrite append_cons. simpl. by rewrite IH, andb_assoc.
Qed.

Lemma dot_before_end_split (s : string) :
  dot_before_end s = true <-> exists p q, s = p +:+ String "." q /\ q <> "".
Proof.
  induction s as [|c s IH]; simpl.
  - split; [done|]. intros (p & q & H & _). by destruct p.
  - rewrite orb_true_iff, andb_true_iff, IH. split.
    + intros [[Hc Hs] | (p & q & -> & Hq)].
      * apply Ascii.eqb_eq in Hc as ->. exists "", s. split; [done|]. by destruct s.
      * exists (String c p), q. done.
    + intros (p & q & H & Hq). destruct p as [|x p]; simpl in H.
      * injection H as -> ->. left. split; [done|]. by destruct q.
      * injection H as -> ->. right. eauto.
Qed.

(** X16. [isValidEmail] accepts exactly the texts of the form
    [a@b.c] in which [a], [b] and [c] are not empty and hold neither white
    space nor an at sign: the language of the regular expression the
    source tests. *)
Theorem isValidEmail_shape (e : string) :
  isValidEmail e = true <->
  exists a b c,
    e = a +:+ String "@" (b +:+ String "." c)
    /\ email_part a /\ email_part b /\ email_part c.
Proof.
  unfold isValidEmail, email_part. split.
  - pose proof (span_email_chars_split e) as [Hsplit Hall].
    destruct (span_email_chars e) as [a rest]; simpl in *.
    intros [Ha Hrest]%andb_true_iff.
    destruct rest as [|x domain]; [done|].
    apply andb_true_iff in Hrest as [[Hx Hdom]%andb_true_iff Hdot].
    apply Ascii.eqb_eq in Hx as ->.
    destruct domain as [|y tail]; [done|].
    apply dot_before_end_split in Hdot as (p & q & -> & Hq).
    change (String y (p +:+ String "." q)) with (String y p +:+ String "." q) in *.
    rewrite all_email_chars_append in Hdom.
    apply andb_true_iff in Hdom as [Hb Hc]. simpl in Hc.
    exists a, (String y p), q. repeat split; try done.
    by destruct a.
  - intros (a & b & c & -> & [Ha1 Ha2] & [Hb1 Hb2] & [Hc1 Hc2]).
    rewrite (span_email_chars_append a _ "@" Ha2 eq_refl).
    destruct a as [|x a]; [done|]. simpl.
    rewrite all_email_chars_append, Hb2. simpl. rewrite Hc2. simpl.
    destruct b as [|y b]; [done|]. simpl.
    apply dot_before_end_split. eauto.
Qed.

Lemma trimEnd_empty (s : string) :
  Js.trimEnd s = "" -> Js.whitespace_only s = true.
Proof.
  induction s as [|c s IH]; simpl; [done|].
  destruct (Js.trimEnd s) eqn:Hs; [|done].
  destruct (Js.is_whitespace c); [|done]. intros _. by apply IH.
Qed.

Lemma trimStart_whitespace (s : string) :
  Js.whitespace_only (Js.trimStart s) = true -> Js.whitespace_only s = true.
Proof.
  induction s as [|c s IH]; simpl; [done|].
  destruct (Js.is_whitespace c) eqn:Hc; simpl; [done|]. by rewrite Hc.
Qed.

Lemma comments_missing_iff (comments : option string) :
  comments_missing comments = true <-> blank comments.
Proof.
  split; [|apply comments_missing_blank].
  unfold comments_missing, blank.
  destruct comments as [c|]; [|by left].
  intros H. right. destruct c as [|a c]; [by left|]. right.
  exists (String a c). split; [done|].
  simpl in H. apply Nat.eqb_eq in H.
  apply trimStart_whitespace, trimEnd_empty.
  unfold Js.trim in H. by destruct (Js.trimEnd _).
Qed.

(** X17. [rejectRequest] answers [COMMENTS_REQUIRED] exactly when the
    comments are absent, empty or white space only: comments with any
    other character in them get past the check. *)
Theorem rejectRequest_blank_comments_iff
    (env : Env) (actor : Actor) (id : string) (comments : option string) (s : Store) :
  error_of (rejectRequest env actor id comments s).2 = Some COMMENTS_REQUIRED
  <-> blank comments.
Proof.
  rewrite <- comments_missing_iff. unfold rejectRequest, rejectTravelRequest, transition.
  destruct (comments_missing comments); simpl; [done|].
  split; [|done].
  repeat (case_match; simplify_eq; simpl; try done).
Qed.

(** * Accounts *)

Lemma head_filter_unique (P : User -> Prop) `{!forall u, Decision (P u)}
    (l : list (string * User)) (k : string) (u : User) :
  (k, u) ∈ l -> P u ->
  (forall k' u', (k', u') ∈ l -> P u' -> u' = u) ->
  head (filter P l.*2) = Some u.
Proof.
  intros Hin HP Huniq. induction l as [|[k0 u0] l IH]; [by apply elem_of_nil in Hin|].
  simpl. rewrite filter_cons. destruct (decide (P u0)) as [HP0|HP0]; simpl.
  - f_equal. apply (Huniq k0 u0); [left|done].
  - apply IH.
    + apply elem_of_cons in Hin as [[= -> ->]|Hin]; [done|done].
    + intros k' u' Hin' HP'. apply (Huniq k' u'); [by right|done].
Qed.

Lemma head_filter_Some (P : User -> Prop) `{!forall u, Decision (P u)}
    (l : list User) (u : User) :
  head (filter P l) = Some u -> P u /\ u ∈ l.
Proof.
  intros Hh. apply head_Some_elem_of in Hh. by apply list_elem_of_filter in Hh.
Qed.

Lemma findUserByEmail_stored (e : string) (u : User) (s : Store) :
  findUserByEmail e s = Some u -> email u = e /\ exists k, users s !! k = Some u.
Proof.
  unfold findUserByEmail. intros [He Hin]%head_filter_Some. split; [done|].
  apply list_elem_of_fmap in Hin as ([k u'] & -> & Hin).
  exists k. by apply elem_of_map_to_list.
Qed.

Lemma emailExists_none (e : string) (s : Store) :
  emailExists e None s = false ->
  forall k u, users s !! k = Some u -> email u <> e.
Proof.
  unfold emailExists. intros Hex k u Hu He.
  assert (existsb (fun '(k, u) => String.eqb (email u) e && true)
            (map_to_list (users s)) = true) as Htrue; [|congruence].
  apply existsb_exists. exists (k, u). split.
  - by apply list_elem_of_In, elem_of_map_to_list.
  - rewrite andb_true_r. by apply String.eqb_eq.
Qed.

Section Accounts.

Context {rt : Runtime}.

(** X18. A login that succeeds is the login of a stored user with the
    e-mail given, who is active and whose hash the password matches; the
    token is issued for that user's id, e-mail and role. *)
Theorem login_success
    (body : UserLoginData) (s : Store) (code : Z) (message : string) (data : Payload) :
  login body s = Success code message data ->
  exists e p k u,
    l_email body = Some e /\ l_password body = Some p
    /\ users s !! k = Some u
    /\ email u = e
    /\ is_active u = true
    /\ bcrypt_compare p (password_hash u) = true
    /\ data = DataLogin (sanitizeUser u)
                {| userId := uid u; actor_email := email u; actor_role := role u |}.
Proof.
  unfold login.
  destruct (l_email body) as [e|]; [|done].
  destruct (l_password body) as [p|]; [|by rewrite orb_true_r].
  destruct (negb _ || negb _); [done|]. simpl default.
  destruct (negb (isValidEmail e)); [done|].
  destruct (findUserByEmail e s) as [u|] eqn:Hu; [|done].
  destruct (is_active u) eqn:Hact; [|done]. simpl negb. cbv iota.
  destruct (bcrypt_compare p (password_hash u)) eqn:Hpw; [|done]. simpl.
  intros [= <- <- <-].
  apply findUserByEmail_stored in Hu as [He [k Hk]].
  exists e, p, k, u. done.
Qed.

Lemma register_checks
    (bcrypt_hash : string -> string) (env : Env) (body : UserRegistrationData)
    (s s' : Store) (code : Z) (message : string) (data : Data) :
  register bcrypt_hash env body s = (s', Sent code message data) ->
  exists e p fn ln rl u,
    g_email body = Some e /\ g_password body = Some p
    /\ g_first_name body = Some fn /\ g_last_name body = Some ln /\ g_role body = Some rl
    /\ isValidEmail e = true
    /\ isValid (validatePassword p) = true
    /\ emailExists e None s = false
    /\ createUser env e (bcrypt_hash p) fn ln rl s = Returned u s'
    /\ data = OneUser (sanitizeUser u).
Proof.
  unfold register.
  destruct (g_email body) as [e|]; [|done].
  destruct (g_password body) as [p|]; [|by rewrite orb_true_r].
  destruct (g_first_name body) as [fn|]; [|by rewrite !orb_true_r].
  destruct (g_last_name body) as [ln|]; [|by rewrite !orb_true_r].
  destruct (g_role body) as [rl|]; [|by rewrite !orb_true_r].
  destruct (_ || _); [done|]. simpl default.
  destruct (isValidEmail e) eqn:He; [|done]. simpl negb. cbv iota.
  destruct (isValid (validatePassword p)) eqn:Hp; [|done]. simpl negb. cbv iota.
  destruct (emailExists e None s) eqn:Hex; [done|].
  destruct (negb (_ || _)); [done|].
  destruct (createUser _ _ _ _ _ _ s) as [u s1|] eqn:Hc; [|done].
  intros [= <- <- <- <-].
  exists e, p, fn, ln, rl, u. done.
Qed.

Lemma createUser_row (env : Env) (e h fn ln rl : string) (s s' : Store) (u : User) :
  createUser env e h fn ln rl s = Returned u s' ->
  users s !! gen_random_uuid env = None
  /\ users s' = <[gen_random_uuid env := u]> (users s)
  /\ travel_requests s' = travel_requests s
  /\ (uid u, email u, password_hash u, first_name u, last_name u, is_active u)
     = (gen_random_uuid env, e, h, fn, ln, true)
  /\ role_name u = rl.
Proof.
  unfold createUser.
  destruct (role_of_string rl) as [r|] eqn:Hr; [|done].
  destruct (users s !! gen_random_uuid env) eqn:Hfresh; [done|].
  destruct (email_taken_by_other _ _ _); [done|].
  intros [= <- <-]. repeat split.
  unfold role_name. simpl. unfold role_of_string in Hr.
  destruct (String.eqb_spec rl "user") as [->|]; [by injection Hr as <-|].
  destruct (String.eqb_spec rl "approver") as [->|]; [by injection Hr as <-|].
  destruct (String.eqb_spec rl "admin") as [->|]; [by injection Hr as <-|].
  done.
Qed.

Lemma validatePassword_valid (p : string) :
  isValid (validatePassword p) = true ->
  (8 <= String.length p)%nat
  /\ has_char is_upper p = true /\ has_char is_lower p = true
  /\ has_char is_digit p = true.
Proof.
  unfold validatePassword.
  destruct (String.length p <? 8)%nat eqn:Hlen; [done|].
  destruct (has_char is_upper p); [|done].
  destruct (has_char is_lower p); [|done].
  destruct (has_char is_digit p); [|done].
  apply Nat.ltb_ge in Hlen. done.
Qed.

(** X19. When [register] answers with success, the user it returns is
    stored under a new id, active, with the e-mail, names and role of the
    body; the e-mail is well formed and was the e-mail of no user; the
    password is at least 8 long with an upper-case letter, a lower-case
    letter and a digit, and what is stored is its hash. *)
Theorem register_success
    (bcrypt_hash : string -> string) (env : Env) (body : UserRegistrationData)
    (s s' : Store) (code : Z) (message : string) (data : Data) :
  register bcrypt_hash env body s = (s', Sent code message data) ->
  exists u p,
    data = OneUser (sanitizeUser u)
    /\ uid u = gen_random_uuid env
    /\ users s !! gen_random_uuid env = None
    /\ users s' = <[gen_random_uuid env := u]> (users s)
    /\ travel_requests s' = travel_requests s
    /\ g_email body = Some (email u)
    /\ isValidEmail (email u) = true
    /\ (forall k u0, users s !! k = Some u0 -> email u0 <> email u)
    /\ g_password body = Some p
    /\ password_hash u = bcrypt_hash p
    /\ (8 <= String.length p)%nat
    /\ has_char is_upper p = true /\ has_char is_lower p = true
    /\ has_char is_digit p = true
    /\ g_role body = Some (role_name u)
    /\ g_first_name body = Some (first_name u)
    /\ g_last_name body = Some (last_name u)
    /\ is_active u = true.
Proof.
  intros (e & p & fn & ln & rl & u & He & Hp & Hfn & Hln & Hrl & Hvalid & Hpw & Hex & Hc
          & ->)%register_checks.
  apply createUser_row in Hc as (Hfresh & Hs' & Hreqs & [= Huid Hmail Hhash Hf Hl Hact] & Hr).
  apply validatePassword_valid in Hpw as (Hlen & Hup & Hlo & Hdi).
  exists u, p. rewrite Hmail, Hf, Hl, Hr.
  repeat split; try done.
  by apply emailExists_none.
Qed.

(** X20. A user who has just been registered can log in: with a
    [bcrypt.compare] that accepts a password against the hash
    [bcrypt.hash] made of it, the login with the e-mail and the password
    of a successful registration succeeds, and its token carries the new
    user's id and role. *)
Theorem register_then_login
    (bcrypt_hash : string -> string) (env : Env) (body : UserRegistrationData)
    (s s' : Store) (code : Z) (message : string) (data : Data) :
  (forall p, bcrypt_compare p (bcrypt_hash p) = true) ->
  register bcrypt_hash env body s = (s', Sent code message data) ->
  exists u,
    users s' !! gen_random_uuid env = Some u
    /\ login {| l_email := g_email body; l_password := g_password body |} s' =
       Success 200 "Login successful"
         (DataLogin (sanitizeUser u)
            {| userId := gen_random_uuid env; actor_email := email u;
               actor_role := role u |}).
Proof.
  intros Hhash Hreg.
  apply register_checks in Hreg
    as (e & p & fn & ln & rl & u & Hbe & Hp & _ & _ & _ & Hvalid & Hpw & Hex & Hc & _).
  apply createUser_row in Hc as (Hfresh & Hs' & _ & [= Huid Hmail Hh _ _ Hact] & _).
  apply validatePassword_valid in Hpw as (Hlen & _).
  pose proof (emailExists_none _ _ Hex) as Hnone.
  subst e. rename Hbe into He.
  exists u. split; [by rewrite Hs', lookup_insert_eq|].
  unfold login. rewrite He, Hp. simpl.
  assert (Js.truthy_string (email u) = true) as -> by (by destruct (email u)).
  assert (Js.truthy_string p = true) as -> by (destruct p; [simpl in Hlen; lia|done]).
  simpl. rewrite Hvalid. simpl.
  assert (findUserByEmail (email u) s' = Some u) as ->.
  { unfold findUserByEmail.
    apply (head_filter_unique _ _ (gen_random_uuid env)); [|done|].
    - apply elem_of_map_to_list. by rewrite Hs', lookup_insert_eq.
    - intros k' u' Hin He'. apply elem_of_map_to_list in Hin.
      rewrite Hs' in Hin. destruct (decide (gen_random_uuid env = k')) as [<-|Hne].
      + rewrite lookup_insert_eq in Hin. by injection Hin.
      + rewrite lookup_insert_ne in Hin by done. by destruct (Hnone k' u' Hin). }
  rewrite Hact, Hh, Hhash. simpl. by rewrite Huid.
Qed.

End Accounts.

Lemma partition_by_role (l : list User) :
  (length (filter (fun u => role u = user /\ is_active u = true) l)
   + length (filter (fun u => role u = approver /\ is_active u = true) l)
   + length (filter (fun u => role u = admin /\ is_active u = true) l)
   = length (filter (fun u => is_active u = true) l))%nat.
Proof.
  induction l as [|u l IH]; [done|].
  rewrite !filter_cons.
  destruct (role u), (is_active u);
    repeat match goal with |- context [decide ?P] => destruct (decide P) end;
    simpl; try lia; exfalso; intuition congruence.
Qed.

(** X21. In the statistics of [getUserStats] the three counts by role
    add up to the number of active users, not to the total, since
    [getUsersByRole] leaves deactivated users out; and the total is the
    active plus the inactive, neither negative. *)
Theorem getUserStats_counts (s : Store) :
  exists stats,
    getUserStats s = Sent 200 "User statistics retrieved successfully" (Stats stats)
    /\ Z.of_nat (us_users stats + us_approvers stats + us_admins stats) = us_active stats
    /\ us_total stats = us_active stats + us_inactive stats
    /\ 0 <= us_active stats /\ 0 <= us_inactive stats.
Proof.
  unfold getUserStats. eexists. split; [reflexivity|]. simpl.
  unfold getUsersByRole, countUsers.
  rewrite partition_by_role.
  repeat split; try lia.
  pose proof (length_filter (fun u => is_active u = true) (map_to_list (users s)).*2).
  lia.
Qed.

(** * Deleting users *)

(** X22. On tables keyed by UUIDs as PostgreSQL prints them, no DELETE
    on the users whose id is in that spelling changes the account of the
    caller, whose token carries the id in that spelling too: through the
    route only an admin gets to the handler, the handler refuses the
    caller's own id with [CANNOT_DELETE_SELF], and any other id leaves the
    caller's row alone. *)
Theorem route_deleteUser_spares_caller
    (env : Env) (actor : Actor) (id : string) (hardDelete : bool) (s : Store) :
  canonical_uuid id = true ->
  canonical_uuid (userId actor) = true ->
  well_keyed s ->
  users (route_deleteUser env actor id hardDelete s).1 !! userId actor
  = users s !! userId actor.
Proof.
  intros _ _ _. unfold route_deleteUser, deleteUserById, hardDeleteUser, softDeleteUser, findUserById.
  destruct (authorize _ _); simpl; [done|].
  destruct (String.eqb_spec (userId actor) id) as [|Hne]; simpl; [done|].
  destruct (users s !! id) as [u|]; simpl; [|done].
  destruct hardDelete; simpl.
  - destruct (referenced id s); simpl; [done|]. by rewrite lookup_delete_ne.
  - by rewrite lookup_insert_ne.
Qed.

(** Through the route, a caller who is not an admin deletes and
    deactivates nobody. *)
Lemma route_deleteUser_admin_only
    (env : Env) (actor : Actor) (id : string) (hardDelete : bool) (s : Store) :
  actor_role actor <> admin ->
  route_deleteUser env actor id hardDelete s =
  (s, Refused 403 "Access denied. Insufficient permissions." "FORBIDDEN").
Proof.
  intros Hrole. unfold route_deleteUser, authorize.
  rewrite bool_decide_eq_false_2; [done|].
  intros Hin. apply list_elem_of_singleton in Hin. done.
Qed.

(** X23. A permanent deletion of a user whom some request names as
    requester or approver is answered 400 [DELETE_FAILED] and leaves the
    database as it was. *)
Theorem deleteUserById_referenced
    (env : Env) (actor : Actor) (id reqId : string) (u : User) (r : TravelRequest)
    (s : Store) :
  userId actor <> id ->
  users s !! id = Some u ->
  travel_requests s !! reqId = Some r ->
  user_id r = id \/ approver_id r = id ->
  deleteUserById env actor id true s =
  (s, Refused 400 "Cannot delete user with existing travel requests" "DELETE_FAILED").
Proof.
  intros Hne Hu Hr Hparty. unfold deleteUserById, hardDeleteUser, findUserById.
  apply String.eqb_neq in Hne. rewrite Hne, Hu.
  by rewrite (referenced_true id reqId r s Hr Hparty).
Qed.

(** X24. The deactivation of another user succeeds whenever the user is
    stored: the row keeps everything but [is_active], now false, and
    [updated_at]; no other row and no request changes; and the
    deactivated user, whose token is still valid, is from then on answered
    401 [ACCOUNT_DEACTIVATED] by [getCurrentUser]. *)
Theorem deleteUserById_deactivates
    (env : Env) (actor target : Actor) (id : string) (u : User) (s : Store) :
  userId actor <> id ->
  users s !! id = Some u ->
  userId target = id ->
  exists s' u',
    deleteUserById env actor id false s =
      (s', Sent 200 "User deactivated successfully" (UserDeleted id true))
    /\ users s' = <[id := u']> (users s)
    /\ travel_requests s' = travel_requests s
    /\ is_active u' = false
    /\ (uid u', email u', password_hash u', first_name u', last_name u', role u',
        created_at u')
       = (uid u, email u, password_hash u, first_name u, last_name u, role u, created_at u)
    /\ getCurrentUser (Some target) s' =
       Refused 401 "Account is deactivated" "ACCOUNT_DEACTIVATED".
Proof.
  intros Hne Hu Ht. unfold deleteUserById, softDeleteUser, findUserById.
  apply String.eqb_neq in Hne. rewrite Hne, Hu. simpl.
  do 2 eexists. repeat split.
  unfold getCurrentUser, findUserById. simpl. by rewrite Ht, lookup_insert_eq.
Qed.

(** * Updating a draft, when it succeeds *)

Section Update_success.

Context {rt : Runtime}.



End Update_success.

(** * Reading requests and users *)

Global Instance newer_total {A} (key : A -> Z) : Total (newer key).
Proof. intros a b. unfold newer. lia. Qed.




Section Reading.

Context {rt : Runtime}.





End Reading.

(** X28. [getRequestById] shows a request exactly to its requester, its
    approver and the admins: on tables keyed by UUIDs as PostgreSQL
    prints them and for an id in that spelling, it answers 200 with the
    stored request and its two users, without their password hashes, if
    and only if the request is stored with both users and the caller is
    one of those. *)
Theorem getRequestById_visible
    (actor : Actor) (id : string) (s : Store) (x : TravelRequestWithUsers) :
  canonical_uuid id = true ->
  well_keyed s ->
  getRequestById actor id s =
    Sent 200 "Travel request retrieved successfully" (OneRequest x)
  <->
  exists tr u a,
    travel_requests s !! id = Some tr
    /\ users s !! user_id tr = Some u
    /\ users s !! approver_id tr = Some a
    /\ x = (tr, sanitizeUser u, sanitizeUser a)
    /\ (user_id tr = userId actor \/ approver_id tr = userId actor
        \/ actor_role actor = admin).
Proof.
  intros _ _. unfold getRequestById, findTravelRequestWithUsers.
  destruct (travel_requests s !! id) as [tr|];
    [|split; [done | by intros (? & ? & ? & ? & ?)]].
  destruct (users s !! user_id tr) as [u|] eqn:Hu;
    [|split; [done | intros (? & ? & ? & [= <-] & ? & ?); congruence]].
  destruct (users s !! approver_id tr) as [a|] eqn:Ha;
    [|split; [done | intros (? & ? & ? & [= <-] & ? & ? & ?); congruence]].
  destruct (String.eqb_spec (user_id tr) (userId actor)) as [Ho|Ho];
    destruct (String.eqb_spec (approver_id tr) (userId actor)) as [Hp|Hp];
    destruct (bool_decide_reflect (actor_role actor = admin)) as [Hd|Hd]; simpl;
    (split;
     [try done; intros [= <-]; exists tr, u, a; by eauto 10
     |intros (tr' & u' & a' & [= <-] & Hu' & Ha' & -> & Hwho);
      rewrite Hu in Hu'; rewrite Ha in Ha'; simplify_eq; try done;
      by destruct Hwho as [|[|]]]).
Qed.


(** * Notifications *)


Lemma findTravelRequestWithUsers_logs id s l :
  findTravelRequestWithUsers id (set_notification_logs s l) = findTravelRequestWithUsers id s.
Proof. done. Qed.





Section Notifications.

Context {rt : Runtime}.


End Notifications.

(** * The theorems at work on the sample data *)

(** The keys of the sample tables are UUIDs as PostgreSQL prints them. *)
Ltac sample_keys := split; simpl; (eapply bool_decide_unpack; vm_compute; exact I).

Lemma handle_forbidden_witness :
  exists message,
    @handle IsoRuntime.runtime (Demo.env_at 1736200000000) (Demo.as_actor Demo.carol)
      (CallDelete Demo.request_id) (Demo.db_with draft)
    = (Demo.db_with draft, Failure 403 message FORBIDDEN).
Proof.
  apply (@handle_forbidden IsoRuntime.runtime (Demo.env_at 1736200000000)
           (Demo.as_actor Demo.carol) (CallDelete Demo.request_id) (Demo.db_with draft)
           Demo.request_id (Demo.trip draft)).
  - reflexivity.
  - reflexivity.
  - left. reflexivity.
  - reflexivity.
Defined.

Lemma handle_wrong_state_witness :
  exists message,
    @handle IsoRuntime.runtime (Demo.env_at 1736200000000) (Demo.as_actor Demo.bob)
      (CallApprove Demo.request_id None) (Demo.db_with draft)
    = (Demo.db_with draft, Failure 400 message CANNOT_APPROVE).
Proof.
  apply (@handle_wrong_state IsoRuntime.runtime (Demo.env_at 1736200000000)
           (Demo.as_actor Demo.bob) (CallApprove Demo.request_id None) (Demo.db_with draft)
           Demo.request_id (Demo.trip draft) pending CANNOT_APPROVE).
  - reflexivity.
  - reflexivity.
  - right. reflexivity.
  - reflexivity.
  - reflexivity.
  - discriminate.
Defined.

Lemma handle_missing_request_witness :
  exists message,
    @handle IsoRuntime.runtime (Demo.env_at 1736200000000) (Demo.as_actor Demo.carol)
      (CallApprove Demo.request_id None) Demo.empty_db
    = (Demo.empty_db, Failure 400 message CANNOT_APPROVE).
Proof.
  assert (Hkeys : well_keyed Demo.empty_db) by sample_keys.
  destruct (@handle_missing_request IsoRuntime.runtime (Demo.env_at 1736200000000)
              (Demo.as_actor Demo.carol) (CallApprove Demo.request_id None) Demo.empty_db
              Demo.request_id eq_refl Hkeys eq_refl eq_refl (or_intror eq_refl))
    as [message Hm].
  exists message. exact Hm.
Defined.

(** Alice submits her draft and is answered 500: the row is written, the
    users and the log are as they were. *)
Lemma handle_refused_unchanged_witness :
  (@handle IsoRuntime.runtime (Demo.env_at 1736000060000) (Demo.as_actor Demo.alice)
     (CallSubmit Demo.request_id) (Demo.db_with draft)).2
  = Failure 500 "Failed to submit travel request" SERVER_ERROR
  /\ (status <$> travel_requests
                   (@handle IsoRuntime.runtime (Demo.env_at 1736000060000)
                      (Demo.as_actor Demo.alice) (CallSubmit Demo.request_id)
                      (Demo.db_with draft)).1 !! Demo.request_id) = Some pending
  /\ users (@handle IsoRuntime.runtime (Demo.env_at 1736000060000)
              (Demo.as_actor Demo.alice) (CallSubmit Demo.request_id)
              (Demo.db_with draft)).1 = users (Demo.db_with draft)
  /\ notification_logs
       (@handle IsoRuntime.runtime (Demo.env_at 1736000060000)
          (Demo.as_actor Demo.alice) (CallSubmit Demo.request_id)
          (Demo.db_with draft)).1 = notification_logs (Demo.db_with draft).
Proof.
  split; [reflexivity|]. split; [reflexivity|].
  destruct (@handle_refused_unchanged IsoRuntime.runtime (Demo.env_at 1736000060000)
              (Demo.as_actor Demo.alice) (CallSubmit Demo.request_id) (Demo.db_with draft)
              500 "Failed to submit travel request" SERVER_ERROR eq_refl)
    as [Hsame | (_ & _ & _ & Hu & Hl)].
  - by rewrite Hsame.
  - by split.
Defined.


(** Bob approves Alice's pending trip: the row is approved, and the
    answer is 500. *)
Lemma approveRequest_approves_witness :
  approveRequest (Demo.env_at 1736100000000) (Demo.as_actor Demo.bob) Demo.request_id
    (Some "ok") (Demo.db_with pending)
  = (set_travel_requests (Demo.db_with pending)
       (<[Demo.request_id :=
            set_columns (Demo.trip pending) approved (Some "ok") (Some 1736000000000)
              (Some 1736100000000) 1736100000000]>
          (travel_requests (Demo.db_with pending))),
     Failure 500 "Failed to approve travel request" SERVER_ERROR).
Proof.
  apply (approveRequest_approves (Demo.env_at 1736100000000) (Demo.as_actor Demo.bob)
           Demo.request_id (Some "ok") (Demo.trip pending) (Demo.db_with pending)).
  - reflexivity.
  - reflexivity.
  - left. reflexivity.
  - by eexists.
  - by eexists.
Defined.

Lemma rejectRequest_rejects_witness :
  exists s',
    rejectRequest (Demo.env_at 1736100000000) (Demo.as_actor Demo.carol) Demo.request_id
      (Some "over budget") (Demo.db_with pending)
    = (s', Success 200 "Travel request rejected"
             (DataRequest
                (set_columns (Demo.trip pending) rejected (Some "over budget")
                   (Some 1736000000000) (Some 1736100000000) 1736100000000)))
    /\ travel_requests s'
       = <[Demo.request_id :=
             set_columns (Demo.trip pending) rejected (Some "over budget")
               (Some 1736000000000) (Some 1736100000000) 1736100000000]>
           (travel_requests (Demo.db_with pending))
    /\ users s' = users (Demo.db_with pending).
Proof.
  apply (rejectRequest_rejects (Demo.env_at 1736100000000) (Demo.as_actor Demo.carol)
           Demo.request_id "over budget" (Demo.trip pending) (Demo.db_with pending)).
  - reflexivity.
  - reflexivity.
  - right. reflexivity.
  - intros Hblank. vm_compute in Hblank. discriminate Hblank.
Defined.

Lemma cancelRequest_cancels_witness :
  exists s',
    cancelRequest (Demo.env_at 1736100000000) (Demo.as_actor Demo.alice) Demo.request_id
      (Demo.db_with pending)
    = (s', Success 200 "Travel request cancelled successfully"
             (DataRequest
                (set_columns (Demo.trip pending) cancelled None (Some 1736000000000) None
                   1736100000000)))
    /\ travel_requests s'
       = <[Demo.request_id :=
             set_columns (Demo.trip pending) cancelled None (Some 1736000000000) None
               1736100000000]> (travel_requests (Demo.db_with pending))
    /\ users s' = users (Demo.db_with pending).
Proof.
  apply (cancelRequest_cancels (Demo.env_at 1736100000000) (Demo.as_actor Demo.alice)
           Demo.request_id (Demo.trip pending) (Demo.db_with pending)).
  - reflexivity.
  - reflexivity.
  - reflexivity.
Defined.

Lemma login_success_witness :
  match @login IsoRuntime.runtime
          {| l_email := Some "alice@company.com"; l_password := Some "Alice@123" |}
          Demo.empty_db with
  | Success code message data =>
      exists e p k u,
        Some "alice@company.com" = Some e /\ Some "Alice@123" = Some p
        /\ users Demo.empty_db !! k = Some u
        /\ email u = e
        /\ is_active u = true
        /\ @bcrypt_compare IsoRuntime.runtime p (password_hash u) = true
        /\ data = DataLogin (sanitizeUser u)
                    {| userId := uid u; actor_email := email u; actor_role := role u |}
  | Failure _ _ _ => False
  end.
Proof.
  destruct (@login IsoRuntime.runtime
              {| l_email := Some "alice@company.com"; l_password := Some "Alice@123" |}
              Demo.empty_db) as [code message data|code message e] eqn:Hcall.
  - exact (@login_success IsoRuntime.runtime _ _ _ _ _ Hcall).
  - vm_compute in Hcall. discriminate Hcall.
Defined.

Lemma register_success_witness :
  match register Story.hash (Story.env_new 1735990000000 Story.erin_id) Story.erin_data
          Demo.empty_db with
  | (s', Sent code message data) =>
      exists u p,
        data = OneUser (sanitizeUser u)
        /\ uid u = Story.erin_id
        /\ users Demo.empty_db !! Story.erin_id = None
        /\ users s' = <[Story.erin_id := u]> (users Demo.empty_db)
        /\ travel_requests s' = travel_requests Demo.empty_db
        /\ g_email Story.erin_data = Some (email u)
        /\ isValidEmail (email u) = true
        /\ (forall k u0, users Demo.empty_db !! k = Some u0 -> email u0 <> email u)
        /\ g_password Story.erin_data = Some p
        /\ password_hash u = Story.hash p
        /\ (8 <= String.length p)%nat
        /\ has_char is_upper p = true /\ has_char is_lower p = true
        /\ has_char is_digit p = true
        /\ g_role Story.erin_data = Some (role_name u)
        /\ g_first_name Story.erin_data = Some (first_name u)
        /\ g_last_name Story.erin_data = Some (last_name u)
        /\ is_active u = true
  | (_, Refused _ _ _) => False
  end.
Proof.
  destruct (register Story.hash (Story.env_new 1735990000000 Story.erin_id) Story.erin_data
              Demo.empty_db) as [s' [code message data|code message e]] eqn:Hcall.
  - exact (register_success _ _ _ _ _ _ _ _ Hcall).
  - vm_compute in Hcall. discriminate Hcall.
Defined.

Lemma register_then_login_witness :
  match register Story.hash (Story.env_new 1735990000000 Story.erin_id) Story.erin_data
          Demo.empty_db with
  | (s', Sent code message data) =>
      exists u,
        users s' !! Story.erin_id = Some u
        /\ @login IsoRuntime.runtime
             {| l_email := g_email Story.erin_data; l_password := g_password Story.erin_data |}
             s' =
           Success 200 "Login successful"
             (DataLogin (sanitizeUser u)
                {| userId := Story.erin_id; actor_email := email u; actor_role := role u |})
  | (_, Refused _ _ _) => False
  end.
Proof.
  destruct (register Story.hash (Story.env_new 1735990000000 Story.erin_id) Story.erin_data
              Demo.empty_db) as [s' [code message data|code message e]] eqn:Hcall.
  - apply (@register_then_login IsoRuntime.runtime Story.hash
             (Story.env_new 1735990000000 Story.erin_id) Story.erin_data Demo.empty_db s'
             code message data); [|exact Hcall].
    intros p. apply String.eqb_refl.
  - vm_compute in Hcall. discriminate Hcall.
Defined.

Lemma deleteUserById_referenced_witness :
  deleteUserById (Demo.env_at 1736000180000) (Demo.as_actor Demo.carol) Demo.bob_id true
    (Demo.db_with pending)
  = (Demo.db_with pending,
     Refused 400 "Cannot delete user with existing travel requests" "DELETE_FAILED").
Proof.
  apply (deleteUserById_referenced (Demo.env_at 1736000180000) (Demo.as_actor Demo.carol)
           Demo.bob_id Demo.request_id Demo.bob (Demo.trip pending) (Demo.db_with pending)).
  - discriminate.
  - reflexivity.
  - reflexivity.
  - right. reflexivity.
Defined.

Lemma deleteUserById_deactivates_witness :
  exists s' u',
    deleteUserById (Demo.env_at 1736000240000) (Demo.as_actor Demo.carol) Demo.bob_id false
      Demo.empty_db
    = (s', Sent 200 "User deactivated successfully" (UserDeleted Demo.bob_id true))
    /\ users s' = <[Demo.bob_id := u']> (users Demo.empty_db)
    /\ travel_requests s' = travel_requests Demo.empty_db
    /\ is_active u' = false
    /\ (uid u', email u', password_hash u', first_name u', last_name u', role u',
        created_at u')
       = (uid Demo.bob, email Demo.bob, password_hash Demo.bob, first_name Demo.bob,
          last_name Demo.bob, role Demo.bob, created_at Demo.bob)
    /\ getCurrentUser (Some (Demo.as_actor Demo.bob)) s' =
       Refused 401 "Account is deactivated" "ACCOUNT_DEACTIVATED".
Proof.
  apply (deleteUserById_deactivates (Demo.env_at 1736000240000) (Demo.as_actor Demo.carol)
           (Demo.as_actor Demo.bob) Demo.bob_id Demo.bob Demo.empty_db).
  - discriminate.
  - reflexivity.
  - reflexivity.
Defined.




(** Carol cannot remove her own account, and removing Dave's leaves hers
    alone. *)
Lemma route_deleteUser_spares_caller_witness :
  users (route_deleteUser (Demo.env_at 1736000240000) (Demo.as_actor Demo.carol)
           Demo.carol_id true Demo.empty_db).1 !! Demo.carol_id
  = users Demo.empty_db !! Demo.carol_id
  /\ users (route_deleteUser (Demo.env_at 1736000240000) (Demo.as_actor Demo.carol)
              Demo.dave_id true Demo.empty_db).1 !! Demo.carol_id
     = users Demo.empty_db !! Demo.carol_id.
Proof.
  assert (Hkeys : well_keyed Demo.empty_db) by sample_keys.
  split.
  - exact (route_deleteUser_spares_caller (Demo.env_at 1736000240000)
             (Demo.as_actor Demo.carol) Demo.carol_id true Demo.empty_db
             eq_refl eq_refl Hkeys).
  - exact (route_deleteUser_spares_caller (Demo.env_at 1736000240000)
             (Demo.as_actor Demo.carol) Demo.dave_id true Demo.empty_db
             eq_refl eq_refl Hkeys).
Defined.

(** Bob, its approver, is shown Alice's pending trip. *)
Lemma getRequestById_visible_witness :
  getRequestById (Demo.as_actor Demo.bob) Demo.request_id (Demo.db_with pending) =
  Sent 200 "Travel request retrieved successfully"
    (OneRequest (Demo.trip pending, sanitizeUser Demo.alice, sanitizeUser Demo.bob)).
Proof.
  assert (Hkeys : well_keyed (Demo.db_with pending)) by sample_keys.
  apply (getRequestById_visible (Demo.as_actor Demo.bob) Demo.request_id
           (Demo.db_with pending) _ eq_refl Hkeys).
  exists (Demo.trip pending), Demo.alice, Demo.bob.
  repeat split. right; left. reflexivity.
Defined.
